(** * S3 key-value store driver: task state machines

    A shallow embedding of [tensorstore/kvstore/s3/s3_key_value_store.cc].

    Every task of the driver (ReadTask, WriteTask, DeleteTask, ListTask) is a
    chain of callbacks.  Each callback is embedded as a pure function that
    takes the task fields it reads, the values the callback obtains from its
    environment (the HTTP response, the reading of [absl::Now()], the result
    of [GetCredentials()], whether the promise still needs a result), and
    returns the updated task together with the list of effects it performed,
    in program order. *)

From Stdlib Require Import ZArith List String Ascii Bool Lia DecimalString.
Import ListNotations.

Local Open Scope string_scope.
Local Open Scope list_scope.
Local Open Scope Z_scope.

(** ** absl::Status and tensorstore::Result *)

Inductive StatusCode : Type :=
| kOk | kCancelled | kUnknown | kInvalidArgument | kDeadlineExceeded
| kNotFound | kAlreadyExists | kPermissionDenied | kResourceExhausted
| kFailedPrecondition | kAborted | kOutOfRange | kUnimplemented | kInternal
| kUnavailable | kDataLoss | kUnauthenticated.

Definition StatusCode_eqb (a b : StatusCode) : bool :=
  match a, b with
  | kOk, kOk | kCancelled, kCancelled | kUnknown, kUnknown
  | kInvalidArgument, kInvalidArgument
  | kDeadlineExceeded, kDeadlineExceeded | kNotFound, kNotFound
  | kAlreadyExists, kAlreadyExists | kPermissionDenied, kPermissionDenied
  | kResourceExhausted, kResourceExhausted
  | kFailedPrecondition, kFailedPrecondition | kAborted, kAborted
  | kOutOfRange, kOutOfRange | kUnimplemented, kUnimplemented
  | kInternal, kInternal | kUnavailable, kUnavailable
  | kDataLoss, kDataLoss | kUnauthenticated, kUnauthenticated => true
  | _, _ => false
  end.

Record Status : Type := MkStatus { code : StatusCode; message : string }.

Definition OkStatus : Status := MkStatus kOk "".
Definition CancelledError : Status := MkStatus kCancelled "".
Definition InvalidArgumentError (m : string) : Status := MkStatus kInvalidArgument m.
Definition OutOfRangeError (m : string) : Status := MkStatus kOutOfRange m.

(** [status.ok()] *)
Definition ok (s : Status) : bool := StatusCode_eqb (code s) kOk.
Definition IsCancelled (s : Status) : bool := StatusCode_eqb (code s) kCancelled.

(** [Result<T>]: a value or a (non-ok) status. *)
Inductive Result (T : Type) : Type :=
| ROk (v : T)
| RErr (s : Status).
Arguments ROk {T} v.
Arguments RErr {T} s.

(** [response.ok()] *)
Definition result_ok {T} (r : Result T) : bool :=
  match r with ROk _ => true | RErr _ => false end.

(** TENSORSTORE_ASSIGN_OR_RETURN: the error monad on [Result]. *)
Definition bindR {A B} (r : Result A) (k : A -> Result B) : Result B :=
  match r with
  | ROk v => k v
  | RErr s => RErr s
  end.

Notation "x <- e ;; k" := (bindR e (fun x => k))
  (at level 61, e at next level, right associativity).

(** ** Time

    [absl::Time] and [absl::Duration] are counted in nanoseconds. *)

Definition Time : Type := Z.
Definition Duration : Type := Z.
Definition Seconds (n : Z) : Duration := n * 1000000000.
(** [absl::ToInt64Milliseconds] truncates toward zero. *)
Definition ToInt64Milliseconds (d : Duration) : Z := Z.quot d 1000000.

(** ** Generations *)

Module StorageGeneration.
(** The three states of a generation; [FromString e] carries the ETag. *)
Inductive t : Type :=
| Unknown
| NoValue
| FromString (etag : string).

Definition IsUnknown (g : t) : bool :=
  match g with Unknown => true | _ => false end.
Definition IsNoValue (g : t) : bool :=
  match g with NoValue => true | _ => false end.
(** [DecodeString] is only called on generations that are neither
    Unknown nor NoValue. *)
Definition DecodeString (g : t) : string :=
  match g with FromString e => e | _ => "" end.
End StorageGeneration.

Record TimestampedStorageGeneration : Type := MkStamp {
  generation : StorageGeneration.t;
  time : Time
}.

Inductive ReadState : Type := kUnspecified | kMissing | kValue.

Record ReadResult : Type := MkReadResult {
  state : ReadState;
  value : string;
  stamp : TimestampedStorageGeneration
}.

(** ** Byte ranges and key ranges *)

Module ByteRange.
(** [OptionalByteRangeRequest]; [-1] marks an unset bound. *)
Record request : Type := MkRequest {
  inclusive_min : Z;
  exclusive_max : Z
}.
(** [ByteRange], the result of validation against a payload size. *)
Record t : Type := Mk { lo : Z; hi : Z }.
End ByteRange.

(** [internal::GetSubCord(s, r)] is [s.Subcord(r.inclusive_min, r.size())]. *)
Definition GetSubCord (s : string) (r : ByteRange.t) : string :=
  substring (Z.to_nat (ByteRange.lo r))
            (Z.to_nat (ByteRange.hi r - ByteRange.lo r)) s.

Module KeyRange.
Record t : Type := Mk {
  inclusive_min : string;
  exclusive_max : string
}.
End KeyRange.

(** ** HTTP *)

Definition Headers : Type := list (string * string).

Record HttpResponse : Type := MkResponse {
  status_code : Z;
  payload : string;
  headers : Headers
}.

Record S3Credentials : Type := MkCredentials {
  access_key : string;
  secret_key : string;
  session_token : string
}.

Definition NoCredentials : S3Credentials := MkCredentials "" "" "".

(** What [S3RequestBuilder] has been told: the method and URL, the query
    parameters and headers added so far, and the inputs of [BuildRequest]
    (host, credentials, region, payload hash and signing time).  The signed
    wire form is the request builder's business and is not modelled. *)
Inductive PayloadHash : Type :=
| HexLiteral (hex : string)       (* a hash given as a constant *)
| Sha256HexOf (cord : string).    (* the hexadecimal SHA-256 digest of cord *)

Record HttpRequest : Type := MkRequest {
  method : string;
  url : string;
  query : list (string * string);
  req_headers : list string;
  accept_encoding : bool;
  requester_payer : bool;
  range_header : option ByteRange.request;
  req_host : string;
  req_credentials : S3Credentials;
  req_region : string;
  req_payload_sha256 : PayloadHash;
  req_time : Time
}.

Definition S3RequestBuilder (m u : string) : HttpRequest :=
  MkRequest m u [] [] false false None "" NoCredentials "" (HexLiteral "") 0.

Definition AddHeader (b : HttpRequest) (h : string) : HttpRequest :=
  MkRequest (method b) (url b) (query b) (req_headers b ++ [h])
    (accept_encoding b) (requester_payer b) (range_header b) (req_host b)
    (req_credentials b) (req_region b) (req_payload_sha256 b) (req_time b).

Definition AddQueryParameter (b : HttpRequest) (k v : string) : HttpRequest :=
  MkRequest (method b) (url b) (query b ++ [(k, v)]) (req_headers b)
    (accept_encoding b) (requester_payer b) (range_header b) (req_host b)
    (req_credentials b) (req_region b) (req_payload_sha256 b) (req_time b).

Definition EnableAcceptEncoding (b : HttpRequest) : HttpRequest :=
  MkRequest (method b) (url b) (query b) (req_headers b)
    true (requester_payer b) (range_header b) (req_host b)
    (req_credentials b) (req_region b) (req_payload_sha256 b) (req_time b).

Definition MaybeAddRequesterPayer (b : HttpRequest) (p : bool) : HttpRequest :=
  MkRequest (method b) (url b) (query b) (req_headers b)
    (accept_encoding b) p (range_header b) (req_host b)
    (req_credentials b) (req_region b) (req_payload_sha256 b) (req_time b).

Definition MaybeAddRangeHeader (b : HttpRequest) (r : ByteRange.request)
  : HttpRequest :=
  MkRequest (method b) (url b) (query b) (req_headers b)
    (accept_encoding b) (requester_payer b) (Some r) (req_host b)
    (req_credentials b) (req_region b) (req_payload_sha256 b) (req_time b).

Definition BuildRequest (b : HttpRequest) (host : string)
    (credentials : S3Credentials) (region : string) (sha256 : PayloadHash)
    (t : Time)
  : HttpRequest :=
  MkRequest (method b) (url b) (query b) (req_headers b)
    (accept_encoding b) (requester_payer b) (range_header b)
    host credentials region sha256 t.

(** ** Constants of the driver *)

Definition kEmptySha256 : PayloadHash :=
  HexLiteral
    "e3b0c44298fc1c149afbf4c8996fb92427ae41e4649b934ca495991b7852b855".

(** [kEmptyEtag] is the two-character string made of two double quotes. *)
Definition dquote : string := String (ascii_of_nat 34) EmptyString.
Definition kEmptyEtag : string := (dquote ++ dquote)%string.

(** ** Effects

    What a callback does to the world outside the task, in order.  [R] is
    the type the task's promise is resolved with. *)

Inductive Counter : Type :=
| s3_bytes_read | s3_bytes_written | s3_retries | s3_read | s3_write
| s3_delete_range | s3_list.

Inductive Histogram : Type := s3_read_latency_ms | s3_write_latency_ms.

Inductive Event (R : Type) : Type :=
| IssueRequest (request : HttpRequest) (body : string)
    (* owner->transport_->IssueRequest(request, body) *)
| SetResult (r : Result R)              (* promise.SetResult(r) *)
| ScheduleRetry (at_time : Time)
    (* ScheduleAt(at_time, WithExecutor(executor(), task->Retry())) *)
| IncrementBy (c : Counter) (n : Z)
| Observe (h : Histogram) (v : Z)
| set_starting                          (* flow receiver *)
| set_value (key : string)
| set_done
| set_error (s : Status)
| set_stopping
| AccessErrorResult.
    (* value() or operator-> applied to a Result that holds an error:
       the callback's behaviour is undefined from here on *)
Arguments IssueRequest {R} request body.
Arguments SetResult {R} r.
Arguments ScheduleRetry {R} at_time.
Arguments IncrementBy {R} c n.
Arguments Observe {R} h v.
Arguments set_starting {R}.
Arguments set_value {R} key.
Arguments set_done {R}.
Arguments set_error {R} s.
Arguments set_stopping {R}.
Arguments AccessErrorResult {R}.

Definition Increment {R} (c : Counter) : Event R := IncrementBy c 1.

(** Total amount added to counter [c] by a list of effects. *)
Definition Counter_eqb (a b : Counter) : bool :=
  match a, b with
  | s3_bytes_read, s3_bytes_read | s3_bytes_written, s3_bytes_written
  | s3_retries, s3_retries | s3_read, s3_read | s3_write, s3_write
  | s3_delete_range, s3_delete_range | s3_list, s3_list => true
  | _, _ => false
  end.

Fixpoint counter_delta {R} (c : Counter) (evs : list (Event R)) : Z :=
  match evs with
  | [] => 0
  | IncrementBy c' n :: rest =>
      (if Counter_eqb c c' then n else 0) + counter_delta c rest
  | _ :: rest => counter_delta c rest
  end.

(** The HTTP requests issued by a list of effects. *)
Fixpoint requests_issued {R} (evs : list (Event R)) : list HttpRequest :=
  match evs with
  | [] => []
  | IssueRequest rq _ :: rest => rq :: requests_issued rest
  | _ :: rest => requests_issued rest
  end.

(** The results the promise was resolved with. *)
Fixpoint results_set {R} (evs : list (Event R)) : list (Result R) :=
  match evs with
  | [] => []
  | SetResult r :: rest => r :: results_set rest
  | _ :: rest => results_set rest
  end.

(** The retries scheduled by a list of effects. *)
Fixpoint retries_scheduled {R} (evs : list (Event R)) : list Time :=
  match evs with
  | [] => []
  | ScheduleRetry t :: rest => t :: retries_scheduled rest
  | _ :: rest => retries_scheduled rest
  end.

(** ** Collaborators declared outside this translation unit

    The driver calls a number of helpers whose definitions live in other
    files of the library (http_response.h, gcs/validate.h, byte_range.h,
    s3_metadata.h, s3/validate.h, s3_uri_utils.h).  The
    callbacks are parametric in them. *)

Class Externals : Type := {
  (** [internal_http::HttpResponseCodeToStatus] *)
  HttpResponseCodeToStatus : HttpResponse -> Status;
  (** [internal_storage_gcs::IsRetriable] *)
  IsRetriable : Status -> bool;
  (** [internal_http::ParseContentRangeHeader]: (start, end, total) *)
  ParseContentRangeHeader : HttpResponse -> Result (Z * Z * Z);
  (** [internal_kvstore_s3::StorageGenerationFromHeaders] *)
  StorageGenerationFromHeaders : Headers -> Result StorageGeneration.t;
  (** [OptionalByteRangeRequest::size()]; [-1] when no size is requested *)
  byte_range_size : ByteRange.request -> Z;
  (** [OptionalByteRangeRequest::Validate(payload_size)] *)
  byte_range_Validate : ByteRange.request -> Z -> Result ByteRange.t;
  (** printing of a byte range request by [tensorstore::StrCat] *)
  byte_range_to_string : ByteRange.request -> string;
  IsValidObjectName : string -> bool;
  IsValidStorageGeneration : StorageGeneration.t -> bool;
  S3UriObjectKeyEncode : string -> string
}.

(** Decimal printing of an integer, as [StrCat] prints an [int] or a
    [size_t]. *)
Definition itoa (n : Z) : string := NilZero.string_of_int (Z.to_int n).

(** The width of [size_t] and the conversion of an [int64_t] operand to it
    in a mixed comparison. *)
Definition to_size_t (x : Z) : Z := x mod 2 ^ 64.

(** Adds the generation header to the provided builder. *)
Definition AddGenerationHeader (builder : HttpRequest) (header : string)
    (gen : StorageGeneration.t) : HttpRequest * bool :=
  if StorageGeneration.IsUnknown gen then (builder, false)
  else
    let etag := if StorageGeneration.IsNoValue gen then kEmptyEtag
                else StorageGeneration.DecodeString gen in
    (AddHeader builder (header ++ ": " ++ etag)%string, true).

(** The digest itself is the work of [SHA256Digester]; the request records
    which bytes were hashed. *)
Definition payload_sha256 (cord : string) : PayloadHash := Sha256HexOf cord.

(** ** The driver object *)

(** [S3RequestRetries] *)
Record Retries : Type := MkRetries {
  max_retries : Z;
  initial_delay : Duration;
  max_delay : Duration
}.

(** The fields of [S3KeyValueStore] (and of its [spec_]) that tasks read. *)
Record S3KeyValueStore : Type := MkStore {
  endpoint_ : string;
  host_ : string;
  aws_region_ : string;
  requester_pays : bool;
  retries : Retries
}.

(** Modelled from the spec: [MaybeAnnotateStatus] (util/status.h) is not part
    of this translation unit.  The spec says the retry-exhaustion error
    "wraps the original status": the annotated status carries the new code
    and the annotation followed by the original message.  An ok status is
    returned unchanged. *)
Definition MaybeAnnotateStatus (source : Status) (prefix_message : string)
    (new_code : StatusCode) : Status :=
  if ok source then source
  else MkStatus new_code
         (if (message source =? "")%string then prefix_message
          else (prefix_message ++ ": " ++ message source)%string).

(** Modelled from the spec: [internal::BackoffForAttempt] (internal/retry.h)
    is not part of this translation unit.  The spec gives
    "delay = min(initial_delay * 2^attempt, max_delay) with additive jitter
    uniformly distributed in [0, jitter]".  The random draw is the argument
    [entropy], an arbitrary integer folded into the closed interval
    [0, jitter]. *)
Definition jitter_draw (jitter : Duration) (entropy : Z) : Duration :=
  if jitter <=? 0 then 0 else entropy mod (jitter + 1).

Definition BackoffForAttempt (attempt : Z) (initial_delay max_delay : Duration)
    (jitter : Duration) (entropy : Z) : Duration :=
  Z.min (initial_delay * 2 ^ attempt) max_delay + jitter_draw jitter entropy.

(** What a call of [BackoffForAttemptAsync] reads from its environment:
    [absl::Now()] and the random draw of the jitter. *)
Record BackoffEnv : Type := MkBackoffEnv {
  backoff_now : Time;
  backoff_entropy : Z
}.

(** Apply default backoff/retry logic to the task.  On a non-ok return, max
    retries have been met or exceeded.  On an ok return, [task->Retry()] has
    been scheduled to run after a suitable backoff period. *)
Definition BackoffForAttemptAsync {R} (owner : S3KeyValueStore)
    (status : Status) (attempt : Z) (env : BackoffEnv)
  : Status * list (Event R) :=
  if attempt >=? max_retries (retries owner) then
    (MaybeAnnotateStatus status
       ("All " ++ itoa attempt ++ " retry attempts failed")%string kAborted,
     [])
  else
    let delay :=
      BackoffForAttempt attempt (initial_delay (retries owner))
        (max_delay (retries owner))
        (Z.min (Seconds 1) (initial_delay (retries owner)))
        (backoff_entropy env) in
    (OkStatus,
     [Increment s3_retries; ScheduleRetry (backoff_now env + delay)]).

(** [kvstore::ReadOptions] and [kvstore::WriteOptions] (the staleness
    bound plays no part in the driver). *)
Record ReadOptions : Type := MkReadOptions {
  read_if_equal : StorageGeneration.t;   (* ReadOptions::if_equal *)
  if_not_equal : StorageGeneration.t;
  byte_range : ByteRange.request
}.

Record WriteOptions : Type := MkWriteOptions {
  if_equal : StorageGeneration.t
}.

(** ** ReadTask *)

Module ReadTask.
Section WithExternals.
Context {ext : Externals}.

Record t : Type := Mk {
  read_url : string;
  options : ReadOptions;
  attempt_ : Z;
  start_time_ : Time
}.

Definition ev : Type := Event ReadResult.

Definition Retry (owner : S3KeyValueStore) (task : t)
    (result_needed : bool)
    (maybe_credentials : Result (option S3Credentials)) (now : Time)
  : t * list ev :=
  if negb result_needed then (task, [])
  else
    match maybe_credentials with
    | RErr s => (task, [SetResult (RErr s)])
    | ROk oc =>
        let request_builder := S3RequestBuilder "GET" (read_url task) in
        let request_builder :=
          fst (AddGenerationHeader request_builder "if-none-match"
                 (if_not_equal (options task))) in
        let request_builder :=
          fst (AddGenerationHeader request_builder "if-match"
                 (read_if_equal (options task))) in
        let credentials :=
          match oc with Some c => c | None => NoCredentials end in
        let task :=
          Mk (read_url task) (options task) (attempt_ task) now in
        let request :=
          BuildRequest
            (MaybeAddRangeHeader
               (MaybeAddRequesterPayer
                  (EnableAcceptEncoding request_builder)
                  (requester_pays owner))
               (byte_range (options task)))
            (host_ owner) credentials (aws_region_ owner) kEmptySha256
            (start_time_ task) in
        (task, [IssueRequest request ""])
    end.

Definition FinishResponse (task : t) (httpresponse : HttpResponse)
    (now : Time) : Result ReadResult * list ev :=
  let payload_size := Z.of_nat (String.length (payload httpresponse)) in
  let latency := now - start_time_ task in
  let metrics : list ev :=
    [IncrementBy s3_bytes_read payload_size;
     Observe s3_read_latency_ms (ToInt64Milliseconds latency)] in
  (* kvstore::ReadResult read_result; read_result.stamp.time = start_time_ *)
  let read_result :=
    MkReadResult kUnspecified ""
      (MkStamp StorageGeneration.Unknown (start_time_ task)) in
  let set_generation (r : ReadResult) (g : StorageGeneration.t) :=
    MkReadResult (state r) (value r) (MkStamp g (time (stamp r))) in
  let code := status_code httpresponse in
  let result : Result ReadResult :=
    if (code =? 204) || (code =? 404) then
      (* Object not found. *)
      ROk (MkReadResult kMissing (value read_result)
             (MkStamp StorageGeneration.NoValue (time (stamp read_result))))
    else if code =? 412 then
      ROk (set_generation read_result StorageGeneration.Unknown)
    else if code =? 304 then
      ROk (set_generation read_result (if_not_equal (options task)))
    else
      read_result <-
        (if negb (code =? 206) then
           (* This may or may not have been a range request. *)
           byte_range <-
             byte_range_Validate (byte_range (options task)) payload_size ;;
           ROk (MkReadResult kValue
                  (GetSubCord (payload httpresponse) byte_range)
                  (stamp read_result))
         else
           content_range_tuple <- ParseContentRangeHeader httpresponse ;;
           let request_size := byte_range_size (byte_range (options task)) in
           let min := ByteRange.inclusive_min (byte_range (options task)) in
           if (negb (min =? -1)
               && negb (min =? fst (fst content_range_tuple)))
              || (negb (request_size =? -1)
                  && negb (to_size_t request_size =? payload_size))
           then
             RErr (OutOfRangeError
                     ("Requested byte range "
                      ++ byte_range_to_string (byte_range (options task))
                      ++ " was not satisfied by S3 response of size "
                      ++ itoa payload_size)%string)
           else
             ROk (MkReadResult kValue (payload httpresponse)
                    (stamp read_result))) ;;
      g <- StorageGenerationFromHeaders (headers httpresponse) ;;
      ROk (set_generation read_result g)
  in (result, metrics).

(** The status the response is classified with in [OnResponse]. *)
Definition ResponseStatus (response : Result HttpResponse) : Status :=
  match response with
  | RErr s => s
  | ROk r =>
      let code := status_code r in
      (* Special status codes handled outside the retry loop. *)
      if (code =? 412) || (code =? 404) || (code =? 304) then OkStatus
      else HttpResponseCodeToStatus r
  end.

Definition OnResponse (owner : S3KeyValueStore) (task : t)
    (result_needed : bool) (response : Result HttpResponse)
    (env : BackoffEnv) (now : Time) : t * list ev :=
  if negb result_needed then (task, [])
  else
    let status := ResponseStatus response in
    let finish (task : t) (status : Status) (evs : list ev) :=
      if negb (ok status) then (task, evs ++ [SetResult (RErr status)])
      else
        match response with
        | ROk r =>
            let (res, fevs) := FinishResponse task r now in
            (task, evs ++ fevs ++ [SetResult res])
        | RErr _ => (task, evs ++ [AccessErrorResult])
        end in
    if negb (ok status) && IsRetriable status then
      let (status, evs) :=
        BackoffForAttemptAsync owner status (attempt_ task) env in
      let task :=
        Mk (read_url task) (options task) (attempt_ task + 1)
           (start_time_ task) in
      if ok status then (task, evs) else finish task status evs
    else finish task status [].

End WithExternals.
End ReadTask.


(** ** WriteTask *)

Module WriteTask.
Section WithExternals.
Context {ext : Externals}.

Record t : Type := Mk {
  encoded_object_name : string;
  value : string;
  options : WriteOptions;
  credentials_ : S3Credentials;
  upload_url_ : string;
  attempt_ : Z;
  start_time_ : Time
}.

Definition ev : Type := Event TimestampedStorageGeneration.

Definition DoPut (owner : S3KeyValueStore) (task : t) (now : Time)
  : t * list ev :=
  let upload_url :=
    (endpoint_ owner ++ "/" ++ encoded_object_name task)%string in
  let task :=
    Mk (encoded_object_name task) (value task) (options task)
       (credentials_ task) upload_url (attempt_ task) now in
  let content_sha256 := payload_sha256 (value task) in
  let request :=
    BuildRequest
      (MaybeAddRequesterPayer
         (AddHeader
            (AddHeader (S3RequestBuilder "PUT" (upload_url_ task))
               "Content-Type: application/octet-stream")
            ("Content-Length: "
             ++ itoa (Z.of_nat (String.length (value task))))%string)
         (requester_pays owner))
      (host_ owner) (credentials_ task) (aws_region_ owner)
      content_sha256 (start_time_ task) in
  (task, [IssueRequest request (value task)]).

(** Writes an object to S3. *)
Definition Retry (owner : S3KeyValueStore) (task : t)
    (result_needed : bool)
    (maybe_credentials : Result (option S3Credentials)) (now : Time)
  : t * list ev :=
  if negb result_needed then (task, [])
  else
    let upload_url :=
      (endpoint_ owner ++ "/" ++ encoded_object_name task)%string in
    let task :=
      Mk (encoded_object_name task) (value task) (options task)
         (credentials_ task) upload_url (attempt_ task)
         (start_time_ task) in
    match maybe_credentials with
    | RErr s => (task, [SetResult (RErr s)])
    | ROk oc =>
        let task :=
          match oc with
          | Some c =>
              Mk (encoded_object_name task) (value task) (options task)
                 c (upload_url_ task) (attempt_ task) (start_time_ task)
          | None => task
          end in
        if StorageGeneration.IsUnknown (if_equal (options task)) then
          DoPut owner task now
        else
          (* S3 doesn't support conditional PUT, so we use a HEAD call
             to test the if-match condition *)
          let builder := S3RequestBuilder "HEAD" (upload_url_ task) in
          let builder :=
            fst (AddGenerationHeader builder "if-match"
                   (if_equal (options task))) in
          let request :=
            BuildRequest
              (MaybeAddRequesterPayer builder (requester_pays owner))
              (host_ owner) (credentials_ task) (aws_region_ owner)
              kEmptySha256 now in
          (task, [IssueRequest request ""])
    end.

(** [now] is the reading of the clock for [r.time]; [now_put] the later
    reading made by [DoPut]. *)
Definition OnPeekResponse (owner : S3KeyValueStore) (task : t)
    (response : Result HttpResponse) (now now_put : Time) : t * list ev :=
  match response with
  | RErr s => (task, [SetResult (RErr s)])
  | ROk r =>
      let code := status_code r in
      let if_eq := if_equal (options task) in
      if (code =? 304) || (code =? 412) then
        (* The generation did not match. *)
        (task, [SetResult (ROk (MkStamp StorageGeneration.Unknown now))])
      else if (code =? 404)
              && negb (StorageGeneration.IsUnknown if_eq)
              && negb (StorageGeneration.IsNoValue if_eq) then
        (task, [SetResult (ROk (MkStamp StorageGeneration.Unknown now))])
      else DoPut owner task now_put
  end.

Definition FinishResponse (task : t) (response : HttpResponse) (now : Time)
  : Result TimestampedStorageGeneration * list ev :=
  if (status_code response =? 404)
     && negb (StorageGeneration.IsUnknown (if_equal (options task))) then
    (ROk (MkStamp StorageGeneration.Unknown (start_time_ task)), [])
  else
    let latency := now - start_time_ task in
    (g <- StorageGenerationFromHeaders (headers response) ;;
     ROk (MkStamp g (start_time_ task)),
     [Observe s3_write_latency_ms (ToInt64Milliseconds latency);
      IncrementBy s3_bytes_written
        (Z.of_nat (String.length (value task)))]).

Definition ResponseStatus (response : Result HttpResponse) : Status :=
  match response with
  | RErr s => s
  | ROk r => HttpResponseCodeToStatus r
  end.

Definition OnResponse (owner : S3KeyValueStore) (task : t)
    (result_needed : bool) (response : Result HttpResponse)
    (env : BackoffEnv) (now : Time) : t * list ev :=
  if negb result_needed then (task, [])
  else
    let status := ResponseStatus response in
    let finish (task : t) (status : Status) (evs : list ev) :=
      if negb (ok status) then (task, evs ++ [SetResult (RErr status)])
      else
        match response with
        | ROk r =>
            let (res, fevs) := FinishResponse task r now in
            (task, evs ++ fevs ++ [SetResult res])
        | RErr _ => (task, evs ++ [AccessErrorResult])
        end in
    if negb (ok status) && IsRetriable status then
      let (status, evs) :=
        BackoffForAttemptAsync owner status (attempt_ task) env in
      let task :=
        Mk (encoded_object_name task) (value task) (options task)
           (credentials_ task) (upload_url_ task) (attempt_ task + 1)
           (start_time_ task) in
      if ok status then (task, evs) else finish task status evs
    else finish task status [].

End WithExternals.
End WriteTask.

(** ** DeleteTask *)

Module DeleteTask.
Section WithExternals.
Context {ext : Externals}.

Record t : Type := Mk {
  resource : string;
  options : WriteOptions;
  attempt_ : Z;
  start_time_ : Time;
  credentials_ : S3Credentials
}.

Definition ev : Type := Event TimestampedStorageGeneration.

Definition DoDelete (owner : S3KeyValueStore) (task : t) (now : Time)
  : t * list ev :=
  let task :=
    Mk (resource task) (options task) (attempt_ task) now
       (credentials_ task) in
  let request :=
    BuildRequest
      (MaybeAddRequesterPayer
         (S3RequestBuilder "DELETE" (resource task))
         (requester_pays owner))
      (host_ owner) (credentials_ task) (aws_region_ owner)
      kEmptySha256 (start_time_ task) in
  (task, [IssueRequest request ""]).

(** Removes an object from S3. *)
Definition Retry (owner : S3KeyValueStore) (task : t)
    (result_needed : bool)
    (maybe_credentials : Result (option S3Credentials)) (now : Time)
  : t * list ev :=
  if negb result_needed then (task, [])
  else
    let delete_url := resource task in
    if negb (IsValidStorageGeneration (if_equal (options task))) then
      (task,
       [SetResult (RErr (InvalidArgumentError "Malformed StorageGeneration"))])
    else
      match maybe_credentials with
      | RErr s => (task, [SetResult (RErr s)])
      | ROk oc =>
          let task :=
            match oc with
            | Some c =>
                Mk (resource task) (options task) (attempt_ task)
                   (start_time_ task) c
            | None => task
            end in
          if StorageGeneration.IsUnknown (if_equal (options task)) then
            DoDelete owner task now
          else
            (* S3 doesn't support conditional DELETE,
               use a HEAD call to test the if-match condition *)
            let builder := S3RequestBuilder "HEAD" delete_url in
            let builder :=
              fst (AddGenerationHeader builder "if-match"
                     (if_equal (options task))) in
            let request :=
              BuildRequest
                (MaybeAddRequesterPayer builder (requester_pays owner))
                (host_ owner) (credentials_ task) (aws_region_ owner)
                kEmptySha256 now in
            (task, [IssueRequest request ""])
      end.

Definition OnPeekResponse (owner : S3KeyValueStore) (task : t)
    (response : Result HttpResponse) (now now_delete : Time)
  : t * list ev :=
  match response with
  | RErr s => (task, [SetResult (RErr s)])
  | ROk r =>
      let code := status_code r in
      let if_eq := if_equal (options task) in
      if code =? 412 then
        (* Failed precondition implies the generation did not match. *)
        (task, [SetResult (ROk (MkStamp StorageGeneration.Unknown now))])
      else if (code =? 404)
              && negb (StorageGeneration.IsUnknown if_eq)
              && negb (StorageGeneration.IsNoValue if_eq) then
        (task, [SetResult (ROk (MkStamp StorageGeneration.Unknown now))])
      else DoDelete owner task now_delete
  end.

Definition ResponseStatus (response : Result HttpResponse) : Status :=
  match response with
  | RErr s => s
  | ROk r =>
      if status_code r =? 404 then OkStatus
      else HttpResponseCodeToStatus r
  end.

Definition OnResponse (owner : S3KeyValueStore) (task : t)
    (result_needed : bool) (response : Result HttpResponse)
    (env : BackoffEnv) : t * list ev :=
  if negb result_needed then (task, [])
  else
    let status := ResponseStatus response in
    let finish (task : t) (status : Status) (evs : list ev) :=
      if negb (ok status) then (task, evs ++ [SetResult (RErr status)])
      else
        match response with
        | ROk r =>
            let if_eq := if_equal (options task) in
            let g :=
              (* 404 Not Found means aborted when a StorageGeneration
                 was specified. *)
              if (status_code r =? 404)
                 && negb (StorageGeneration.IsNoValue if_eq)
                 && negb (StorageGeneration.IsUnknown if_eq)
              then StorageGeneration.Unknown
              else StorageGeneration.NoValue in
            (task, evs ++ [SetResult (ROk (MkStamp g (start_time_ task)))])
        | RErr _ => (task, evs ++ [AccessErrorResult])
        end in
    if negb (ok status) && IsRetriable status then
      let (status, evs) :=
        BackoffForAttemptAsync owner status (attempt_ task) env in
      let task :=
        Mk (resource task) (options task) (attempt_ task + 1)
           (start_time_ task) (credentials_ task) in
      if ok status then (task, evs) else finish task status evs
    else finish task status [].

End WithExternals.
End DeleteTask.



(** ** Key ranges and the XML helpers used by ListTask *)

(** Modelled from the spec: [KeyRange::empty] and [tensorstore::Contains]
    (kvstore/key_range.h) are not part of this translation unit.  The spec
    describes a key range as the interval [[inclusive_min, exclusive_max)]
    of keys in lexicographic byte order; an empty [exclusive_max] stands for
    no upper bound. *)
Definition KeyRange_empty (r : KeyRange.t) : bool :=
  negb (KeyRange.exclusive_max r =? "")%string
  && String.leb (KeyRange.exclusive_max r) (KeyRange.inclusive_min r).

Definition Contains (haystack : KeyRange.t) (needle : string) : bool :=
  String.leb (KeyRange.inclusive_min haystack) needle
  && ((KeyRange.exclusive_max haystack =? "")%string
      || String.ltb needle (KeyRange.exclusive_max haystack)).

Record TagAndPosition : Type := MkTag { tag : string; pos : nat }.

(** Modelled from the spec: [FindTag] and [GetTag] (s3/s3_metadata.h) are not
    part of this translation unit.  The spec says that "element extraction
    is by textual tag matching": [FindTag] searches the text of [tag] in
    [data] from offset [pos] and yields the offset of its first byte (when
    [start]) or of the byte after it; [GetTag] yields the text between an
    opening and the next closing tag and the offset after the closing tag.
    A tag that does not occur is an invalid-argument error. *)
Definition FindTagError (data tag : string) (pos : nat) : Status :=
  InvalidArgumentError
    ("Malformed List Response XML: can't find " ++ tag ++ " in " ++ data
     ++ ", " ++ itoa (Z.of_nat pos))%string.

Definition FindTag (data tag : string) (pos : nat) (start : bool)
  : Result nat :=
  match index pos tag data with
  | Some p => ROk (if start then p else (p + String.length tag)%nat)
  | None => RErr (FindTagError data tag pos)
  end.

Definition GetTag (data open_tag close_tag : string) (pos : nat)
  : Result TagAndPosition :=
  tagstart <- FindTag data open_tag pos false ;;
  tagend <- FindTag data close_tag tagstart true ;;
  ROk (MkTag (substring tagstart (tagend - tagstart) data)
             (tagend + String.length close_tag)%nat).

(** [absl::SimpleAtoi] into a [size_t]: surrounding ASCII white space is
    skipped, a leading plus sign is accepted, a minus sign is not, at least
    one decimal digit must follow and nothing else, and the value must fit
    64 bits. *)
Definition is_space (c : ascii) : bool :=
  let n := N_of_ascii c in
  (N.eqb n 32 || (N.leb 9 n && N.leb n 13))%bool.

Definition is_digit (c : ascii) : bool :=
  let n := N_of_ascii c in (N.leb 48 n && N.leb n 57)%bool.

Fixpoint skip_spaces (l : list ascii) : list ascii :=
  match l with
  | c :: rest => if is_space c then skip_spaces rest else l
  | [] => []
  end.

Fixpoint parse_digits (l : list ascii) (acc : Z) : option Z :=
  match l with
  | [] => Some acc
  | c :: rest =>
      if is_digit c then
        parse_digits rest (10 * acc + (Z.of_N (N_of_ascii c) - 48))
      else None
  end.

Definition SimpleAtoi (s : string) : option Z :=
  let l := rev (skip_spaces (rev (skip_spaces (list_ascii_of_string s)))) in
  let digits :=
    match l with
    | c :: rest => if N.eqb (N_of_ascii c) 43 then rest else l
    | [] => []
    end in
  match digits with
  | [] => None
  | _ :: _ =>
      match parse_digits digits 0 with
      | Some v => if v <? 2 ^ 64 then Some v else None
      | None => None
      end
  end.

Definition kListBucketOpenTag : string :=
  ("<ListBucketResult xmlns=" ++ dquote
   ++ "http://s3.amazonaws.com/doc/2006-03-01/" ++ dquote ++ ">")%string.

(** ** ListTask *)

Record ListOptions : Type := MkListOptions {
  range : KeyRange.t;
  strip_prefix_length : Z
}.

Module ListTask.
Section WithExternals.
Context {ext : Externals}.

Record t : Type := Mk {
  options_ : ListOptions;
  resource_ : string;
  continuation_token_ : string;
  start_time_ : Time;
  attempt_ : Z
}.

Definition ev : Type := Event unit.

(** What the callbacks of a list task read from their environment.
    [is_cancelled n] is the value of the atomic flag [cancelled_] at the
    [n]-th load made by the running callback (the flag is set from another
    thread by the receiver's cancel callback). *)
Record Env : Type := MkEnv {
  is_cancelled : nat -> bool;
  maybe_credentials : Result (option S3Credentials);
  now : Time;
  backoff : BackoffEnv
}.

(** [reads] is the number of loads of [cancelled_] already made by the
    running callback. *)
Definition IssueRequest (owner : S3KeyValueStore) (task : t) (env : Env)
    (reads : nat) : t * list ev :=
  if is_cancelled env reads then (task, [set_done; set_stopping])
  else
    let request_builder :=
      AddQueryParameter (S3RequestBuilder "GET" (resource_ task))
        "list-type" "2" in
    (* [prefix] is a reference to options_.range.inclusive_min: the
       assignment below changes the range stored in the task. *)
    let prefix := KeyRange.inclusive_min (range (options_ task)) in
    let n := strip_prefix_length (options_ task) in
    let prefix' :=
      if negb (prefix =? "")%string && negb (n =? 0)
      then substring 0 (Z.to_nat n) prefix else prefix in
    let request_builder :=
      if negb (prefix =? "")%string
      then AddQueryParameter request_builder "prefix" prefix'
      else request_builder in
    let task :=
      Mk (MkListOptions
            (KeyRange.Mk prefix'
               (KeyRange.exclusive_max (range (options_ task))))
            (strip_prefix_length (options_ task)))
         (resource_ task) (continuation_token_ task) (start_time_ task)
         (attempt_ task) in
    let request_builder :=
      if negb (continuation_token_ task =? "")%string
      then AddQueryParameter request_builder "continuation-token"
             (continuation_token_ task)
      else request_builder in
    match maybe_credentials env with
    | RErr s => (task, [set_error s; set_stopping])
    | ROk oc =>
        let credentials :=
          match oc with Some c => c | None => NoCredentials end in
        let task :=
          Mk (options_ task) (resource_ task) (continuation_token_ task)
             (now env) (attempt_ task) in
        let request :=
          BuildRequest request_builder (host_ owner) credentials
            (aws_region_ owner) kEmptySha256 (start_time_ task) in
        (task, [IssueRequest request ""])
    end.

Definition Retry := IssueRequest.

(** [Admit]: the receiver is started, then the first request is issued
    on the executor. *)
Definition Admit (owner : S3KeyValueStore) (task : t) (env : Env)
  : t * list ev :=
  let (task, evs) := IssueRequest owner task env 0 in
  (task, set_starting :: evs).

(** The loop over the [<Contents>] blocks of one page: [k] blocks have
    been handled, [fuel] remain, [from] is [tag_and_pos.pos].  Returns the
    status the loop leaves [OnResponseImpl] with (ok when it runs to its
    end) and the keys pushed to the receiver. *)
Fixpoint EmitKeys (options : ListOptions) (env : Env) (payload : string)
    (fuel k from : nat) : Status * list ev :=
  match fuel with
  | O => (OkStatus, [])
  | S fuel' =>
      if is_cancelled env (S k) then (CancelledError, [])
      else
        match FindTag payload "<Contents>" from false with
        | RErr s => (s, [])
        | ROk contents_pos =>
            match GetTag payload "<Key>" "</Key>" contents_pos with
            | RErr s => (s, [])
            | ROk tag_and_pos =>
                let key := tag tag_and_pos in
                let n := strip_prefix_length options in
                let emitted : list ev :=
                  if negb (KeyRange_empty (range options))
                     && Contains (range options) key then
                    [set_value
                       (if negb (n =? 0)
                           && (n <=? Z.of_nat (String.length key))
                        then substring (Z.to_nat n)
                               (String.length key - Z.to_nat n) key
                        else key)]
                  else [] in
                let (st, rest) :=
                  EmitKeys options env payload fuel' (S k)
                    (pos tag_and_pos) in
                (st, emitted ++ rest)
            end
        end
  end.

(** The result is [None] when the callback applied [operator->] to a
    response that holds an error. *)
Definition OnResponseImpl (owner : S3KeyValueStore) (task : t)
    (response : Result HttpResponse) (env : Env)
  : t * option Status * list ev :=
  if is_cancelled env 0%nat then (task, Some CancelledError, [])
  else
    let status :=
      match response with
      | ROk r => HttpResponseCodeToStatus r
      | RErr s => s
      end in
    if negb (ok status) && IsRetriable status then
      let (st, evs) :=
        BackoffForAttemptAsync owner status (attempt_ task) (backoff env) in
      (Mk (options_ task) (resource_ task) (continuation_token_ task)
          (start_time_ task) (attempt_ task + 1), Some st, evs)
    else
      match response with
      | RErr _ => (task, None, [AccessErrorResult])
      | ROk r =>
          let payload := payload r in
          match FindTag payload kListBucketOpenTag 0 false with
          | RErr s => (task, Some s, [])
          | ROk start_pos =>
          match GetTag payload "<KeyCount>" "</KeyCount>" start_pos with
          | RErr s => (task, Some s, [])
          | ROk tag_and_pos =>
          match SimpleAtoi (tag tag_and_pos) with
          | None =>
              (task,
               Some (InvalidArgumentError
                       ("Malformed KeyCount " ++ tag tag_and_pos)%string),
               [])
          | Some keycount =>
              let (st, keys) :=
                EmitKeys (options_ task) env payload (Z.to_nat keycount)
                  0 (pos tag_and_pos) in
              if negb (ok st) then (task, Some st, keys)
              else
                (* Successful request, so clear the retry_attempt for
                   the next request. *)
                let task :=
                  Mk (options_ task) (resource_ task)
                     (continuation_token_ task) (start_time_ task) 0 in
                match GetTag payload "<IsTruncated>" "</IsTruncated>"
                        start_pos with
                | RErr s => (task, Some s, keys)
                | ROk truncated =>
                    if (tag truncated =? "true")%string then
                      match GetTag payload "<NextContinuationToken>"
                              "</NextContinuationToken>" start_pos with
                      | RErr s => (task, Some s, keys)
                      | ROk token =>
                          let task :=
                            Mk (options_ task) (resource_ task) (tag token)
                               (start_time_ task) (attempt_ task) in
                          let (task, evs) :=
                            IssueRequest owner task env
                              (S (Z.to_nat keycount)) in
                          (task, Some OkStatus, keys ++ evs)
                      end
                    else
                      let task :=
                        Mk (options_ task) (resource_ task) ""
                           (start_time_ task) (attempt_ task) in
                      (task, Some OkStatus,
                       keys ++ [set_done; set_stopping])
                end
          end
          end
          end
      end.

Definition OnResponse (owner : S3KeyValueStore) (task : t)
    (response : Result HttpResponse) (env : Env) : t * list ev :=
  match OnResponseImpl owner task response env with
  | (task, None, evs) => (task, evs)
  | (task, Some status, evs) =>
      (* OkStatus are handled by OnResponseImpl *)
      if IsCancelled status then (task, evs ++ [set_done; set_stopping])
      else if negb (ok status) then
        (task, evs ++ [set_error status; set_stopping])
      else (task, evs)
  end.

End WithExternals.
End ListTask.

(** [S3KeyValueStore::ListImpl]: an empty range is answered at once;
    otherwise a task is handed to the read rate limiter, whose admission
    calls [set_starting] and then [ListTask.IssueRequest]. *)
Definition S3KeyValueStore_ListImpl (owner : S3KeyValueStore)
    (options : ListOptions) : option ListTask.t * list (Event unit) :=
  if KeyRange_empty (range options) then
    (None, [Increment s3_list; set_starting; set_done; set_stopping])
  else
    (Some (ListTask.Mk options (endpoint_ owner ++ "/")%string "" 0 0),
     [Increment s3_list]).

(** ** Credentials *)


Module CredentialCache.
Section WithProvider.

(** A credential provider behind a non-null pointer; a null pointer is
    [None]. *)
Variable Provider : Type.

(** [credential_provider_]: empty until the first call has settled which
    provider (if any) serves the profile. *)
Definition t : Type := option (option Provider).



End WithProvider.
End CredentialCache.

(** ** Opening the driver *)

Definition kUriScheme : string := "s3".
Definition kDotAmazonAwsDotCom : string := ".amazonaws.com".
Definition kAmzBucketRegionHeader : string := "x-amz-bucket-region".

(** [absl::EndsWith] *)
Definition EndsWith (text suffix : string) : bool :=
  Nat.leb (String.length suffix) (String.length text)
  && (substring (String.length text - String.length suffix)
        (String.length suffix) text =? suffix)%string.

Definition IsAwsEndpoint (driver : S3KeyValueStore) : bool :=
  EndsWith (endpoint_ driver) kDotAmazonAwsDotCom.

(** [headers.find(name)] on the header multimap. *)
Fixpoint headers_find (name : string) (h : Headers) : option string :=
  match h with
  | [] => None
  | (k, v) :: rest =>
      if (k =? name)%string then Some v else headers_find name rest
  end.

(** [text.substr(0, text.find('/'))]: the text before the first slash, or
    all of it when there is none. *)
Definition before_slash (text : string) : string :=
  match index 0 "/" text with
  | Some i => substring 0 i text
  | None => text
  end.

(** [ParsedGenericUri] *)
Module Uri.
Record t : Type := Mk {
  scheme : string;
  authority_and_path : string;
  query : string;
  fragment : string
}.
End Uri.

(** [S3KeyValueStoreSpecData], without the concurrency resources. *)
Module SpecData.
Record t : Type := Mk {
  bucket : string;
  requester_pays : bool;
  endpoint : option string;
  host : option string;
  profile : string;
  aws_region : string;
  retries : Retries
}.
End SpecData.

(** The regional virtual-host URL of a bucket. *)
Definition RegionalEndpoint (bucket region : string) : string :=
  ("https://" ++ bucket ++ ".s3." ++ region ++ kDotAmazonAwsDotCom)%string.

(** [S3KeyValueStoreSpec::DoOpen].  [ParseGenericUri] is the URI parser of
    internal/uri_utils.h; [head] is the answer to the HEAD request for the
    bucket's region, awaited by [DoOpen] when it sends that request (which
    is built without signature, by the plain request builder). *)
Definition DoOpen (ParseGenericUri : string -> Uri.t) (data_ : SpecData.t)
    (head : Result HttpResponse) : Result S3KeyValueStore * list (Event unit) :=
  let driver (endpoint host region : string) : S3KeyValueStore :=
    MkStore endpoint host region (SpecData.requester_pays data_)
      (SpecData.retries data_) in
  match SpecData.endpoint data_ with
  | Some endpoint =>
      let parsed := ParseGenericUri endpoint in
      if negb (Uri.scheme parsed =? "http")%string
         && negb (Uri.scheme parsed =? "https")%string then
        (RErr (InvalidArgumentError
                 ("Endpoint " ++ endpoint ++ " has invalid schema "
                  ++ Uri.scheme parsed ++ ". Should be http(s).")%string), [])
      else if negb (Uri.query parsed =? "")%string then
        (RErr (InvalidArgumentError
                 ("Query in endpoint unsupported " ++ endpoint)%string), [])
      else if negb (Uri.fragment parsed =? "")%string then
        (RErr (InvalidArgumentError
                 ("Fragment in endpoint unsupported " ++ endpoint)%string), [])
      else
        let host :=
          match SpecData.host data_ with
          | Some h => h
          | None =>
              before_slash (Uri.authority_and_path (ParseGenericUri endpoint))
          end in
        (ROk (driver endpoint host (SpecData.aws_region data_)), [])
  | None =>
      if negb (SpecData.aws_region data_ =? "")%string then
        let endpoint :=
          RegionalEndpoint (SpecData.bucket data_)
            (SpecData.aws_region data_) in
        (ROk (driver endpoint endpoint (SpecData.aws_region data_)), [])
      else
        (* Make global request to get bucket region from response headers,
           then create region specific endpoint *)
        let url :=
          ("https://" ++ SpecData.bucket data_ ++ ".s3"
           ++ kDotAmazonAwsDotCom)%string in
        let evs : list (Event unit) :=
          [IssueRequest (S3RequestBuilder "HEAD" url) ""] in
        match head with
        | RErr s => (RErr s, evs)
        | ROk response =>
            match headers_find kAmzBucketRegionHeader (headers response) with
            | Some region =>
                let endpoint :=
                  RegionalEndpoint (SpecData.bucket data_) region in
                (ROk (driver endpoint endpoint region), evs)
            | None =>
                (RErr (MkStatus kFailedPrecondition
                         ("bucket " ++ SpecData.bucket data_
                          ++ " does not exist")%string), evs)
            end
        end
  end.

(** ** URLs of the store *)

(** [GetS3Url]; [S3UriEncode] is the percent-encoder of s3_uri_utils.h. *)
Definition GetS3Url (S3UriEncode : string -> string) (bucket path : string)
  : string :=
  (kUriScheme ++ "://" ++ bucket ++ "/" ++ S3UriEncode path)%string.

(** [text.substr(text.find('/') + 1)], or the empty string when there is
    no slash. *)
Definition after_slash (text : string) : string :=
  match index 0 "/" text with
  | Some i => substring (S i) (String.length text - S i) text
  | None => ""
  end.

(** [ParseS3Url]: the driver spec and the path a URL stands for.
    [default_retries] is what the default retries resource stands for.  The
    caller guarantees that the scheme is [kUriScheme]. *)
Definition ParseS3Url (ParseGenericUri : string -> Uri.t)
    (IsValidBucketName : string -> bool)
    (PercentDecode QuoteString : string -> string)
    (default_retries : Retries) (url : string)
  : Result (SpecData.t * string) :=
  let parsed := ParseGenericUri url in
  if negb (Uri.query parsed =? "")%string then
    RErr (InvalidArgumentError "Query string not supported")
  else if negb (Uri.fragment parsed =? "")%string then
    RErr (InvalidArgumentError "Fragment identifier not supported")
  else
    let bucket := before_slash (Uri.authority_and_path parsed) in
    if negb (IsValidBucketName bucket) then
      RErr (InvalidArgumentError
              ("Invalid S3 bucket name: " ++ QuoteString bucket)%string)
    else
      let path := PercentDecode (after_slash (Uri.authority_and_path parsed)) in
      ROk (SpecData.Mk bucket false None None "default" "" default_retries,
           path).

(** ** Tasks from the first attempt to completion

    The callbacks of a task are chained by the transport and the scheduler:
    a request that was issued is answered by [OnResponse], a retry that was
    scheduled runs [Retry].  The functions below run a task along that
    chain for as long as there are answers, with a promise whose result is
    needed throughout. *)

(** What one attempt of a read meets in its environment. *)
Record ReadAttempt : Type := MkReadAttempt {
  attempt_credentials : Result (option S3Credentials);
  issued_at : Time;                  (* absl::Now() in Retry *)
  answer : Result HttpResponse;
  attempt_backoff : BackoffEnv;
  answered_at : Time                 (* absl::Now() in FinishResponse *)
}.

Fixpoint ReadTask_Run {ext : Externals} (owner : S3KeyValueStore)
    (task : ReadTask.t) (attempts : list ReadAttempt)
  : ReadTask.t * list (Event ReadResult) :=
  match attempts with
  | [] => (task, [])
  | a :: rest =>
      let (task, issued) :=
        ReadTask.Retry owner task true (attempt_credentials a)
          (issued_at a) in
      match requests_issued issued with
      | [] => (task, issued)
      | _ :: _ =>
          let (task, answered) :=
            ReadTask.OnResponse owner task true (answer a)
              (attempt_backoff a) (answered_at a) in
          match retries_scheduled answered with
          | [] => (task, issued ++ answered)
          | _ :: _ =>
              let (task, later) := ReadTask_Run owner task rest in
              (task, issued ++ answered ++ later)
          end
      end
  end.

(** The number of observations of a histogram. *)
Fixpoint observations {R} (h : Histogram) (evs : list (Event R)) : nat :=
  match evs with
  | [] => 0
  | Observe h' _ :: rest =>
      match h, h' with
      | s3_read_latency_ms, s3_read_latency_ms
      | s3_write_latency_ms, s3_write_latency_ms => S (observations h rest)
      | _, _ => observations h rest
      end
  | _ :: rest => observations h rest
  end.

(** How often a list of effects hands the task on: to the transport, to
    the scheduler, or to the promise. *)
Definition handoffs {R} (evs : list (Event R)) : nat :=
  (List.length (requests_issued evs) + List.length (retries_scheduled evs)
   + List.length (results_set evs))%nat.

(** A response result as the transport delivers it: a result that holds a
    status holds one that is not ok. *)
Definition well_formed (response : Result HttpResponse) : Prop :=
  match response with
  | ROk _ => True
  | RErr s => ok s = false
  end.

(** *** Listing *)

(** The keys pushed to the receiver. *)
Fixpoint keys_pushed {R} (evs : list (Event R)) : list string :=
  match evs with
  | [] => []
  | set_value key :: rest => key :: keys_pushed rest
  | _ :: rest => keys_pushed rest
  end.

(** The calls made on the flow receiver. *)
Fixpoint receiver_calls {R} (evs : list (Event R)) : list (Event R) :=
  match evs with
  | [] => []
  | set_starting :: rest => set_starting :: receiver_calls rest
  | set_value key :: rest => set_value key :: receiver_calls rest
  | set_done :: rest => set_done :: receiver_calls rest
  | set_error s :: rest => set_error s :: receiver_calls rest
  | set_stopping :: rest => set_stopping :: receiver_calls rest
  | _ :: rest => receiver_calls rest
  end.

(** What is pushed for a key that passes the range test. *)
Definition StripPrefix (options : ListOptions) (key : string) : string :=
  let n := strip_prefix_length options in
  if negb (n =? 0) && (n <=? Z.of_nat (String.length key))
  then substring (Z.to_nat n) (String.length key - Z.to_nat n) key
  else key.

(** The range test a key has to pass to be pushed. *)
Definition PassesRange (options : ListOptions) (key : string) : bool :=
  negb (KeyRange_empty (range options)) && Contains (range options) key.

(** The keys of a page as the loop of [OnResponseImpl] reads them: the
    text of the [<Key>] element of each of the first [count] [<Contents>]
    blocks found from offset [from] on.  The list ends where the loop
    would fail to find a block or its key. *)
Fixpoint ContentsKeys (payload : string) (count from : nat) : list string :=
  match count with
  | O => []
  | S count' =>
      match FindTag payload "<Contents>" from false with
      | RErr _ => []
      | ROk contents_pos =>
          match GetTag payload "<Key>" "</Key>" contents_pos with
          | RErr _ => []
          | ROk tag_and_pos =>
              tag tag_and_pos
              :: ContentsKeys payload count' (pos tag_and_pos)
          end
      end
  end.

(** The keys a response body names: those of the blocks counted by its
    [<KeyCount>], read after the opening tag of the listing. *)
Definition PageKeys (payload : string) : list string :=
  match FindTag payload kListBucketOpenTag 0 false with
  | RErr _ => []
  | ROk start_pos =>
      match GetTag payload "<KeyCount>" "</KeyCount>" start_pos with
      | RErr _ => []
      | ROk tag_and_pos =>
          match SimpleAtoi (tag tag_and_pos) with
          | None => []
          | Some keycount =>
              ContentsKeys payload (Z.to_nat keycount) (pos tag_and_pos)
          end
      end
  end.


(** The ways a callback of a list task ends, after the keys it pushed. *)
Inductive ListTail : list (Event unit) -> Prop :=
| TailRequest (request : HttpRequest) : ListTail [IssueRequest request ""]
| TailRetry (at_time : Time) :
    ListTail [Increment s3_retries; ScheduleRetry at_time]
| TailDone : ListTail [set_done; set_stopping]
| TailError (s : Status) : ListTail [set_error s; set_stopping].

(** What a list task waits for after a callback. *)
Inductive Pending : Type := AwaitResponse | AwaitRetry | Finished.

Definition ListTask_pending (evs : list (Event unit)) : Pending :=
  match requests_issued evs, retries_scheduled evs with
  | _ :: _, _ => AwaitResponse
  | [], _ :: _ => AwaitRetry
  | [], [] => Finished
  end.

Fixpoint ListTask_Run {ext : Externals} (owner : S3KeyValueStore)
    (task : ListTask.t) (pending : Pending)
    (inputs : list (Result HttpResponse * ListTask.Env))
  : ListTask.t * list (Event unit) :=
  match inputs with
  | [] => (task, [])
  | (response, env) :: rest =>
      match pending with
      | Finished => (task, [])
      | AwaitResponse =>
          let (task, evs) := ListTask.OnResponse owner task response env in
          let (task, later) :=
            ListTask_Run owner task (ListTask_pending evs) rest in
          (task, evs ++ later)
      | AwaitRetry =>
          let (task, evs) := ListTask.Retry owner task env 0 in
          let (task, later) :=
            ListTask_Run owner task (ListTask_pending evs) rest in
          (task, evs ++ later)
      end
  end.

(** [ListImpl] followed by the admission of the task and the callbacks
    that answer its requests.  [first] is the environment of [Admit]. *)
Definition S3KeyValueStore_List {ext : Externals} (owner : S3KeyValueStore)
    (options : ListOptions) (first : ListTask.Env)
    (inputs : list (Result HttpResponse * ListTask.Env))
  : list (Event unit) :=
  match S3KeyValueStore_ListImpl owner options with
  | (None, evs) => evs
  | (Some task, evs) =>
      let (task, started) := ListTask.Admit owner task first in
      evs ++ started
      ++ snd (ListTask_Run owner task (ListTask_pending started) inputs)
  end.

(** A transport failure that a list task can take: one that is not ok and
    is retriable. *)
Definition list_answer_ok {ext : Externals}
    (response : Result HttpResponse) : Prop :=
  match response with
  | ROk _ => True
  | RErr s => ok s = false /\ IsRetriable s = true
  end.

(** The header lines a generation stands for as a precondition. *)
Definition GenerationHeader (header : string) (gen : StorageGeneration.t)
  : list string :=
  match gen with
  | StorageGeneration.Unknown => []
  | StorageGeneration.NoValue => [(header ++ ": " ++ kEmptyEtag)%string]
  | StorageGeneration.FromString etag => [(header ++ ": " ++ etag)%string]
  end.


(** An attempt of a read that obtains its credentials and is answered with
    a failure that is retried. *)
Definition retriable_failure {ext : Externals} (a : ReadAttempt) : Prop :=
  result_ok (attempt_credentials a) = true
  /\ ok (ReadTask.ResponseStatus (answer a)) = false
  /\ IsRetriable (ReadTask.ResponseStatus (answer a)) = true.

(** [S3KeyValueStore::DeleteRange] with [DeleteRangeListReceiver]: an empty
    range is answered at once; otherwise the range is listed with default
    options (nothing is stripped) and the receiver hands every key that is
    not empty to [Delete].  The result is the keys handed to [Delete], in
    order, and the effects of the listing. *)
Definition S3KeyValueStore_DeleteRange {ext : Externals}
    (owner : S3KeyValueStore) (range : KeyRange.t) (first : ListTask.Env)
    (inputs : list (Result HttpResponse * ListTask.Env))
  : list string * list (Event unit) :=
  if KeyRange_empty range then ([], [Increment s3_delete_range])
  else
    let evs :=
      S3KeyValueStore_List owner (MkListOptions range 0) first inputs in
    (filter (fun key => negb (key =? "")%string) (keys_pushed evs),
     Increment s3_delete_range :: evs).

(** ** An instance of the collaborators, from the spec *)

Module SpecModel.

(** Modelled from the spec: [HttpResponseCodeToStatus] (http_response.h)
    and [IsRetriable] (gcs/validate.h) are not part of this translation
    unit.  The spec's retriability predicate: "HTTP 429 and 5xx are
    retriable; HTTP 408 request timeout is retriable; transport-level I/O
    failures are retriable; all 2xx, 3xx, 4xx except 408/429 are
    terminal".  Every 2xx code is a success; the retriable codes map to
    Unavailable; the other codes map to an error that is not retried. *)
Definition HttpResponseCodeToStatusCode (r : HttpResponse) : StatusCode :=
  let c := status_code r in
  if (200 <=? c) && (c <? 300) then kOk
  else if (c =? 408) || (c =? 429) || ((500 <=? c) && (c <? 600))
  then kUnavailable
  else if (c =? 400) || (c =? 411) then kInvalidArgument
  else if (c =? 401) || (c =? 403) then kPermissionDenied
  else if (c =? 404) || (c =? 410) then kNotFound
  else if (c =? 304) || (c =? 412) then kFailedPrecondition
  else if c =? 416 then kOutOfRange
  else kUnknown.

Definition HttpResponseCodeToStatus (r : HttpResponse) : Status :=
  match HttpResponseCodeToStatusCode r with
  | kOk => OkStatus
  | c => MkStatus c ("HTTP response code: " ++ itoa (status_code r))%string
  end.

Definition IsRetriable (s : Status) : bool :=
  match code s with
  | kDeadlineExceeded | kResourceExhausted | kUnavailable => true
  | _ => false
  end.

(** First header with the given name. *)
Fixpoint find_header (name : string) (h : Headers) : option string :=
  match h with
  | [] => None
  | (k, v) :: rest =>
      if (k =? name)%string then Some v else find_header name rest
  end.

Definition parse_number (s : string) : option Z :=
  match list_ascii_of_string s with
  | [] => None
  | l => parse_digits l 0
  end.

(** Modelled from the spec: [ParseContentRangeHeader] (http_response.h) is
    not part of this translation unit.  The spec: "parse
    Content-Range: bytes A-B/C". *)
Definition ParseContentRangeHeader (r : HttpResponse)
  : Result (Z * Z * Z) :=
  let bad := RErr (MkStatus kFailedPrecondition
                     "Unexpected Content-Range header received") in
  match find_header "content-range" (headers r) with
  | None => bad
  | Some v =>
      if negb (prefix "bytes " v) then bad
      else
        let v := substring 6 (String.length v - 6) v in
        match index 0 "-" v with
        | None => bad
        | Some dash =>
            let rest :=
              substring (S dash) (String.length v - S dash) v in
            match index 0 "/" rest with
            | None => bad
            | Some slash =>
                match parse_number (substring 0 dash v),
                      parse_number (substring 0 slash rest),
                      parse_number
                        (substring (S slash)
                           (String.length rest - S slash) rest) with
                | Some a, Some b, Some c => ROk (a, b, c)
                | _, _, _ => bad
                end
            end
        end
  end.

(** Modelled from the spec: [StorageGenerationFromHeaders]
    (s3/s3_metadata.h) is not part of this translation unit.  The spec:
    "extract generation from response ETag header". *)
Definition StorageGenerationFromHeaders (h : Headers)
  : Result StorageGeneration.t :=
  match find_header "etag" h with
  | Some e => ROk (StorageGeneration.FromString e)
  | None =>
      RErr (MkStatus kNotFound "etag not found in response headers")
  end.

(** Modelled from the spec: [OptionalByteRangeRequest] (byte_range.h) is
    not part of this translation unit.  The spec: "either bound
    optionally unset (-1 sentinel) and both-unset meaning whole object";
    a size is requested when both bounds are set. *)
Definition byte_range_size (r : ByteRange.request) : Z :=
  if (ByteRange.inclusive_min r =? -1) || (ByteRange.exclusive_max r =? -1)
  then -1
  else ByteRange.exclusive_max r - ByteRange.inclusive_min r.

Definition byte_range_to_string (r : ByteRange.request) : string :=
  ("[" ++ itoa (ByteRange.inclusive_min r) ++ ", "
   ++ itoa (ByteRange.exclusive_max r) ++ ")")%string.

Definition byte_range_Validate (r : ByteRange.request) (size : Z)
  : Result ByteRange.t :=
  let lo := if ByteRange.inclusive_min r =? -1 then 0
            else ByteRange.inclusive_min r in
  let hi := if ByteRange.exclusive_max r =? -1 then size
            else ByteRange.exclusive_max r in
  if (0 <=? lo) && (lo <=? hi) && (hi <=? size) then ROk (ByteRange.Mk lo hi)
  else
    RErr (OutOfRangeError
            ("Requested byte range " ++ byte_range_to_string r
             ++ " is not valid for value of size " ++ itoa size)%string).

(** Modelled from the spec: the object-name rule of the data model,
    "non-empty, no control characters, length <= 1024" (validity of the
    UTF-8 encoding is not examined here). *)
Definition IsValidObjectName (key : string) : bool :=
  negb (key =? "")%string
  && (Nat.leb (String.length key) 1024)
  && forallb (fun c => N.leb 32 (N_of_ascii c) && negb (N.eqb (N_of_ascii c) 127))
       (list_ascii_of_string key).

Definition IsValidStorageGeneration (g : StorageGeneration.t) : bool :=
  match g with
  | StorageGeneration.FromString e => negb (e =? "")%string
  | _ => true
  end.

(** Percent-encoding of every byte outside the unreserved set and the
    path separator. *)
Definition hex_digit (n : N) : ascii :=
  ascii_of_N (if N.ltb n 10 then 48 + n else 55 + n).

Definition is_unreserved (c : ascii) : bool :=
  let n := N_of_ascii c in
  (N.leb 48 n && N.leb n 57) || (N.leb 65 n && N.leb n 90)
  || (N.leb 97 n && N.leb n 122)
  || N.eqb n 45 || N.eqb n 46 || N.eqb n 95 || N.eqb n 126 || N.eqb n 47.

Fixpoint S3UriObjectKeyEncode (s : string) : string :=
  match s with
  | EmptyString => EmptyString
  | String c rest =>
      if is_unreserved c then String c (S3UriObjectKeyEncode rest)
      else
        let n := N_of_ascii c in
        String "%"
          (String (hex_digit (N.div n 16))
             (String (hex_digit (N.modulo n 16))
                (S3UriObjectKeyEncode rest)))
  end.

Definition externals : Externals :=
  Build_Externals HttpResponseCodeToStatus IsRetriable
    ParseContentRangeHeader StorageGenerationFromHeaders byte_range_size
    byte_range_Validate byte_range_to_string IsValidObjectName
    IsValidStorageGeneration S3UriObjectKeyEncode.

End SpecModel.

(** ** Sample inputs *)

Module Example.

Definition owner : S3KeyValueStore :=
  MkStore "https://bucket.s3.us-east-1.amazonaws.com"
    "bucket.s3.us-east-1.amazonaws.com" "us-east-1" false
    (MkRetries 32 (Seconds 1) (Seconds 32)).

Definition backoff_env : BackoffEnv := MkBackoffEnv 5000000000 123456789.

(** A list environment in which the receiver never cancels and no
    credentials are configured (anonymous access). *)
Definition list_env : ListTask.Env :=
  ListTask.MkEnv (fun _ => false) (ROk None) 1000 backoff_env.

(** The keys from "ab5" up to "ab9", listed below the prefix "ab". *)
Definition list_range : KeyRange.t := KeyRange.Mk "ab5" "ab9".
Definition list_options : ListOptions := MkListOptions list_range 2.

(** Two pages answering a listing with prefix "ab": the first names the
    keys "ab1" and "ab6" and is truncated, the second names "ab2". *)
Definition list_page1 : HttpResponse :=
  MkResponse 200
    (kListBucketOpenTag
     ++ "<Name>bucket</Name><Prefix>ab</Prefix><KeyCount>2</KeyCount>"
     ++ "<MaxKeys>2</MaxKeys><IsTruncated>true</IsTruncated>"
     ++ "<Contents><Key>ab1</Key><Size>3</Size></Contents>"
     ++ "<Contents><Key>ab6</Key><Size>3</Size></Contents>"
     ++ "<NextContinuationToken>X</NextContinuationToken>"
     ++ "</ListBucketResult>")%string
    [].

Definition list_page2 : HttpResponse :=
  MkResponse 200
    (kListBucketOpenTag
     ++ "<Name>bucket</Name><Prefix>ab</Prefix><KeyCount>1</KeyCount>"
     ++ "<MaxKeys>2</MaxKeys><IsTruncated>false</IsTruncated>"
     ++ "<Contents><Key>ab2</Key><Size>3</Size></Contents>"
     ++ "</ListBucketResult>")%string
    [].


Definition read_task : ReadTask.t :=
  ReadTask.Mk "https://bucket.s3.us-east-1.amazonaws.com/key"
    (MkReadOptions StorageGeneration.Unknown
       (StorageGeneration.FromString "abc") (ByteRange.MkRequest 100 200))
    0 0.

(** A 206 answer carrying bytes 100 to 199 of a 500-byte object. *)
Definition hundred_bytes : string :=
  Eval cbv in
    string_of_list_ascii (repeat (ascii_of_nat 120) 100).
Definition partial_content : HttpResponse :=
  MkResponse 206 hundred_bytes
    [("content-range", "bytes 100-199/500"); ("etag", "abc")].

Definition write_task (if_eq : StorageGeneration.t) : WriteTask.t :=
  WriteTask.Mk "key" "value" (MkWriteOptions if_eq) NoCredentials "" 0 0.

Definition delete_task (if_eq : StorageGeneration.t) : DeleteTask.t :=
  DeleteTask.Mk "https://bucket.s3.us-east-1.amazonaws.com/key"
    (MkWriteOptions if_eq) 0 0 NoCredentials.

Definition list_task : ListTask.t :=
  ListTask.Mk list_options "https://bucket.s3.us-east-1.amazonaws.com/"
    "" 0 0.

Definition response (code : Z) : HttpResponse := MkResponse code "" [].

End Example.

(** ** Further sample inputs *)

Module Scenario.

(** A listing of the keys from "ab5" up to "ab9" that strips nothing. *)
Definition plain_options : ListOptions := MkListOptions Example.list_range 0.

(** The two pages of [Example], answered to a receiver that never
    cancels. *)
Definition pages : list (Result HttpResponse * ListTask.Env) :=
  [(ROk Example.list_page1, Example.list_env);
   (ROk Example.list_page2, Example.list_env)].

(** A receiver that cancels while the first block of a page is handled:
    the flag is found set at the load before the second block. *)
Definition cancelling_env : ListTask.Env :=
  ListTask.MkEnv (fun n => Nat.eqb n 2) (ROk None) 1000 Example.backoff_env.

(** The list task of [Example] after its first request. *)
Definition started_list_task : ListTask.t :=
  fst (ListTask.IssueRequest Example.owner Example.list_task
         Example.list_env 0).

(** An attempt of a read answered 503, and one answered 204. *)
Definition failing_attempt (t : Time) : ReadAttempt :=
  MkReadAttempt (ROk None) t (ROk (Example.response 503))
    Example.backoff_env (t + 1).

Definition last_attempt (t : Time) : ReadAttempt :=
  MkReadAttempt (ROk None) t (ROk (Example.response 204))
    Example.backoff_env (t + 1).

(** A driver that retries twice. *)
Definition impatient_owner : S3KeyValueStore :=
  MkStore "https://bucket.s3.us-east-1.amazonaws.com"
    "bucket.s3.us-east-1.amazonaws.com" "us-east-1" false
    (MkRetries 2 (Seconds 1) (Seconds 32)).

Definition some_credentials : S3Credentials :=
  MkCredentials "AKIAEXAMPLE" "secret" "".

(** The 206 answer of [Example] without its ETag header, and without its
    Content-Range header. *)
Definition partial_content_without_etag : HttpResponse :=
  MkResponse 206 Example.hundred_bytes
    [("content-range", "bytes 100-199/500")].

Definition partial_content_without_range : HttpResponse :=
  MkResponse 206 Example.hundred_bytes [("etag", "abc")].



(** A URI parser for the sample URLs: the scheme is the text before
    "://", the fragment the text after the first hash sign, the query the
    text between the first question mark and the fragment. *)
Definition split_at (sep text : string) : option (string * string) :=
  match index 0 sep text with
  | Some i =>
      Some (substring 0 i text,
            substring (i + String.length sep)
              (String.length text - (i + String.length sep)) text)
  | None => None
  end.

Definition ParseGenericUri (uri : string) : Uri.t :=
  let (scheme, rest) :=
    match split_at "://" uri with Some p => p | None => ("", uri) end in
  let (rest, fragment) :=
    match split_at "#" rest with Some p => p | None => (rest, "") end in
  let (path, query) :=
    match split_at "?" rest with Some p => p | None => (rest, "") end in
  Uri.Mk scheme path query fragment.

(** A percent decoder: a percent sign followed by two hexadecimal digits
    stands for the byte they denote. *)
Definition hex_value (c : ascii) : option N :=
  let n := N_of_ascii c in
  if N.leb 48 n && N.leb n 57 then Some (n - 48)%N
  else if N.leb 65 n && N.leb n 70 then Some (n - 55)%N
  else if N.leb 97 n && N.leb n 102 then Some (n - 87)%N
  else None.

Fixpoint PercentDecode (s : string) : string :=
  match s with
  | EmptyString => EmptyString
  | String c rest =>
      match rest with
      | String a (String b rest') =>
          match N.eqb (N_of_ascii c) 37, hex_value a, hex_value b with
          | true, Some x, Some y =>
              String (ascii_of_N (16 * x + y)) (PercentDecode rest')
          | _, _, _ => String c (PercentDecode rest)
          end
      | _ => String c (PercentDecode rest)
      end
  end.

(** Modelled from the spec: a bucket name has 3 to 63 characters, each a
    lowercase letter, a digit, a hyphen or a dot (the exclusion of names
    in the form of an IP address is not examined here). *)
Definition IsValidBucketName (bucket : string) : bool :=
  Nat.leb 3 (String.length bucket) && Nat.leb (String.length bucket) 63
  && forallb
       (fun c =>
          let n := N_of_ascii c in
          (N.leb 97 n && N.leb n 122) || (N.leb 48 n && N.leb n 57)
          || N.eqb n 45 || N.eqb n 46)
       (list_ascii_of_string bucket).

Definition QuoteString (s : string) : string := (dquote ++ s ++ dquote)%string.

(** Driver specs: one with a region, one with an endpoint of its own, one
    with neither. *)
Definition default_retries : Retries := MkRetries 32 (Seconds 1) (Seconds 32).

Definition regional : SpecData.t :=
  SpecData.Mk "bucket" false None None "default" "us-east-1" default_retries.

Definition minio : SpecData.t :=
  SpecData.Mk "bucket" false (Some "http://localhost:9000/minio") None
    "default" "" default_retries.

Definition undiscovered : SpecData.t :=
  SpecData.Mk "bucket" false None None "default" "" default_retries.

End Scenario.

(** * Properties *)

(** A generation that names a concrete version of the object. *)
Definition concrete_value (g : StorageGeneration.t) : bool :=
  negb (StorageGeneration.IsUnknown g) && negb (StorageGeneration.IsNoValue g).

(** The generation header changes neither the method nor the URL. *)
Lemma AddGenerationHeader_method (b : HttpRequest) (h : string)
    (g : StorageGeneration.t) :
  method (fst (AddGenerationHeader b h g)) = method b.
Proof. destruct g; reflexivity. Qed.

Lemma append_empty_r (a : string) : (a ++ "")%string = a.
Proof.
  induction a as [|c a IH]; cbn; [reflexivity | now rewrite IH].
Qed.

Lemma append_assoc (a b c : string) :
  (a ++ (b ++ c))%string = ((a ++ b) ++ c)%string.
Proof.
  induction a as [|x a IH]; cbn; [reflexivity | now rewrite IH].
Qed.

Section TaskProperties.
Context {ext : Externals}.

(** ** ReadTask *)

(** C1.  A read task that issued its GET at clock reading [issued_at] and
    receives a response with status 204, 404, 412 or 304 resolves its
    promise with: state Missing and generation NoValue (204, 404); state
    Unspecified and generation Unknown (412); state Unspecified and the
    caller's [if_not_equal] (304).  In each case the stamp's time is
    [issued_at], which is also the time the request was built with.  The
    codes 404, 412 and 304 are terminal by the code of [OnResponse]
    itself; for 204 the status helper has to report success, as it does
    for every 2xx code. *)
Theorem C1_read_terminal_status_mapping
    (owner : S3KeyValueStore) (task : ReadTask.t)
    (creds : option S3Credentials) (issued_at : Time)
    (r : HttpResponse) (env : BackoffEnv) (now : Time)
    (H204 : status_code r = 204 -> ok (HttpResponseCodeToStatus r) = true)
    (Hcode : status_code r = 204 \/ status_code r = 404
             \/ status_code r = 412 \/ status_code r = 304) :
  let started := ReadTask.Retry owner task true (ROk creds) issued_at in
  (exists request,
      snd started = [IssueRequest request ""]
      /\ method request = "GET" /\ req_time request = issued_at)
  /\ exists result,
      ReadTask.OnResponse owner (fst started) true (ROk r) env now
      = (fst started,
         [IncrementBy s3_bytes_read (Z.of_nat (String.length (payload r)));
          Observe s3_read_latency_ms (ToInt64Milliseconds (now - issued_at));
          SetResult (ROk result)])
      /\ time (stamp result) = issued_at
      /\ (status_code r = 204 \/ status_code r = 404 ->
          state result = kMissing
          /\ generation (stamp result) = StorageGeneration.NoValue)
      /\ (status_code r = 412 ->
          state result = kUnspecified
          /\ generation (stamp result) = StorageGeneration.Unknown)
      /\ (status_code r = 304 ->
          state result = kUnspecified
          /\ generation (stamp result) = if_not_equal (ReadTask.options task)).
Proof.
  intros started. subst started. split.
  - eexists. split; [reflexivity|]. split; [|reflexivity].
    unfold BuildRequest, MaybeAddRangeHeader, MaybeAddRequesterPayer,
      EnableAcceptEncoding.
    cbn [method]. now rewrite !AddGenerationHeader_method.
  - unfold ReadTask.OnResponse, ReadTask.ResponseStatus, ReadTask.FinishResponse.
    cbn [ReadTask.Retry negb fst snd ReadTask.start_time_ ReadTask.options
         ReadTask.attempt_ ReadTask.read_url].
    destruct Hcode as [Hc | [Hc | [Hc | Hc]]].
    + rewrite Hc in *. cbn. rewrite (H204 eq_refl). cbn.
      eexists. split; [reflexivity|]. cbn.
      repeat split; intros; try lia; try reflexivity.
    + rewrite Hc. cbn.
      eexists. split; [reflexivity|]. cbn.
      repeat split; intros; try lia; try reflexivity.
    + rewrite Hc. cbn.
      eexists. split; [reflexivity|]. cbn.
      repeat split; intros; try lia; try reflexivity.
    + rewrite Hc. cbn.
      eexists. split; [reflexivity|]. cbn.
      repeat split; intros; try lia; try reflexivity.
Qed.

(** C8 as amended.  A read task that receives a 206 response (206 is a
    success of the status helper).  The Content-Range header is parsed
    first: when it does not parse, the promise gets the error of the
    parser.  When it parses to [(A, B, C)], the request is mismatched if
    it asked for an [inclusive_min] other than [A] or for a size other
    than the payload length, and a mismatched request gets the
    out-of-range error.  Otherwise the generation is read from the
    response headers: when that fails the promise gets that error, and
    only when it succeeds is the result state Value with the whole
    payload, that generation and the time the GET was issued at.  For a
    response whose headers carry a generation, the out-of-range error is
    given exactly when the request is mismatched.  The requested size is
    a 64-bit signed integer and the payload is shorter than 2^63 bytes. *)
Theorem C8_read_partial_content
    (owner : S3KeyValueStore) (task : ReadTask.t) (r : HttpResponse)
    (env : BackoffEnv) (now : Time)
    (Hcode : status_code r = 206)
    (H206 : ok (HttpResponseCodeToStatus r) = true)
    (Hsize : - 2 ^ 63
             <= byte_range_size (byte_range (ReadTask.options task))
             < 2 ^ 63)
    (Hpayload : Z.of_nat (String.length (payload r)) < 2 ^ 63) :
  let request := byte_range (ReadTask.options task) in
  let payload_size := Z.of_nat (String.length (payload r)) in
  let mismatched (A : Z) :=
    (ByteRange.inclusive_min request <> -1
     /\ ByteRange.inclusive_min request <> A)
    \/ (byte_range_size request <> -1
        /\ byte_range_size request <> payload_size) in
  let out := ReadTask.OnResponse owner task true (ROk r) env now in
  (forall e : Status,
      ParseContentRangeHeader r = RErr e ->
      results_set (snd out) = [RErr e])
  /\ (forall A B C : Z,
        ParseContentRangeHeader r = ROk (A, B, C) ->
        (mismatched A ->
         results_set (snd out)
         = [RErr (OutOfRangeError
                    ("Requested byte range "
                     ++ byte_range_to_string request
                     ++ " was not satisfied by S3 response of size "
                     ++ itoa payload_size)%string)])
        /\ (~ mismatched A ->
            (forall e : Status,
                StorageGenerationFromHeaders (headers r) = RErr e ->
                results_set (snd out) = [RErr e])
            /\ (forall g : StorageGeneration.t,
                  StorageGenerationFromHeaders (headers r) = ROk g ->
                  results_set (snd out)
                  = [ROk (MkReadResult kValue (payload r)
                            (MkStamp g (ReadTask.start_time_ task)))]))
        /\ (forall g : StorageGeneration.t,
              StorageGenerationFromHeaders (headers r) = ROk g ->
              (mismatched A <->
               exists e, results_set (snd out) = [RErr e]
                         /\ code e = kOutOfRange))).
Proof.
  intros request payload_size mismatched out.
  assert (Hconv :
    (to_size_t (byte_range_size request) =? payload_size)
    = (byte_range_size request =? payload_size)).
  { unfold to_size_t. subst request payload_size.
    set (rs := byte_range_size (byte_range (ReadTask.options task))) in *.
    set (ps := Z.of_nat (String.length (payload r))) in *.
    assert (0 <= ps) by (subst ps; lia).
    destruct (Z_lt_le_dec rs 0) as [Hneg | Hpos].
    - replace (rs mod 2 ^ 64) with (rs + 2 ^ 64).
      + destruct (Z.eqb_spec (rs + 2 ^ 64) ps), (Z.eqb_spec rs ps);
          try reflexivity; lia.
      + apply Z.mod_unique with (q := -1); lia.
    - rewrite Z.mod_small by lia. reflexivity. }
  assert (Hout :
    results_set (snd out)
    = [content_range_tuple <- ParseContentRangeHeader r ;;
       if (negb (ByteRange.inclusive_min request =? -1)
           && negb (ByteRange.inclusive_min request
                    =? fst (fst content_range_tuple)))
          || (negb (byte_range_size request =? -1)
              && negb (byte_range_size request =? payload_size))
       then RErr (OutOfRangeError
                    ("Requested byte range "
                     ++ byte_range_to_string request
                     ++ " was not satisfied by S3 response of size "
                     ++ itoa payload_size)%string)
       else
         g <- StorageGenerationFromHeaders (headers r) ;;
         ROk (MkReadResult kValue (payload r)
                (MkStamp g (ReadTask.start_time_ task)))]).
  { subst out. unfold ReadTask.OnResponse, ReadTask.ResponseStatus,
      ReadTask.FinishResponse.
    cbn [negb]. rewrite Hcode. cbn [Z.eqb Pos.eqb orb negb andb].
    rewrite H206. cbn [negb andb].
    fold request. fold payload_size. rewrite Hconv.
    destruct (ParseContentRangeHeader r) as [[[A B] C]|e]; cbn [bindR fst];
      [|reflexivity].
    destruct ((negb (ByteRange.inclusive_min request =? -1)
               && negb (ByteRange.inclusive_min request =? A))
              || (negb (byte_range_size request =? -1)
                  && negb (byte_range_size request =? payload_size)));
      cbn; [reflexivity|].
    destruct (StorageGenerationFromHeaders (headers r)); reflexivity. }
  assert (Hdec : forall A : Z,
    mismatched A <->
    (negb (ByteRange.inclusive_min request =? -1)
     && negb (ByteRange.inclusive_min request =? A))
    || (negb (byte_range_size request =? -1)
        && negb (byte_range_size request =? payload_size)) = true).
  { intros A. subst mismatched. cbv beta.
    rewrite orb_true_iff, !andb_true_iff, !negb_true_iff, !Z.eqb_neq.
    tauto. }
  rewrite Hout. split.
  - intros e He. rewrite He. reflexivity.
  - intros A B C Hparse. rewrite Hparse. cbn [bindR fst].
    pose proof (Hdec A) as HA.
    destruct ((negb (ByteRange.inclusive_min request =? -1)
               && negb (ByteRange.inclusive_min request =? A))
              || (negb (byte_range_size request =? -1)
                  && negb (byte_range_size request =? payload_size))).
    + split; [reflexivity|]. split.
      * intros Hno. exfalso. apply Hno. now apply HA.
      * intros g Hg. split.
        -- intros _. eexists. split; reflexivity.
        -- intros _. now apply HA.
    + split.
      * intros Hm. apply HA in Hm. discriminate Hm.
      * split.
        -- intros _. split.
           ++ intros e He. rewrite He. reflexivity.
           ++ intros g Hg. rewrite Hg. reflexivity.
        -- intros g Hg. rewrite Hg. cbn [bindR]. split.
           ++ intros Hm. apply HA in Hm. discriminate Hm.
           ++ intros [e [He _]]. discriminate He.
Qed.

(** ** WriteTask *)

(** C2.  What the code does when the PUT of a conditional write is
    answered with 404: [OnResponse] classifies the response with the
    status helper alone, the helper reports an error for 404, the error is
    not retriable, and the promise is resolved with that error.
    [FinishResponse], which maps 404 to generation Unknown for such a
    write, is not reached. *)
Theorem C2_write_put_404_resolves_with_error
    (owner : S3KeyValueStore) (task : WriteTask.t) (r : HttpResponse)
    (env : BackoffEnv) (now : Time)
    (Hcode : status_code r = 404)
    (Hcond : StorageGeneration.IsUnknown
               (if_equal (WriteTask.options task)) = false)
    (H404 : ok (HttpResponseCodeToStatus r) = false)
    (Hterm : IsRetriable (HttpResponseCodeToStatus r) = false) :
  WriteTask.OnResponse owner task true (ROk r) env now
  = (task, [SetResult (RErr (HttpResponseCodeToStatus r))])
  /\ WriteTask.FinishResponse task r now
     = (ROk (MkStamp StorageGeneration.Unknown (WriteTask.start_time_ task)),
        []).
Proof.
  split.
  - unfold WriteTask.OnResponse, WriteTask.ResponseStatus.
    cbn [negb]. rewrite H404, Hterm. reflexivity.
  - unfold WriteTask.FinishResponse. rewrite Hcode, Hcond. reflexivity.
Qed.

(** C3 as amended.  A write with [if_equal = NoValue] whose HEAD probe is
    answered with 304 or 412 resolves its promise with generation Unknown
    and issues no request; when the probe is answered with 200 the task
    runs [DoPut]: it issues the PUT and does not resolve the promise. *)
Theorem C3_write_peek_novalue
    (owner : S3KeyValueStore) (task : WriteTask.t) (r : HttpResponse)
    (now now_put : Time)
    (Hnoval : if_equal (WriteTask.options task) = StorageGeneration.NoValue) :
  let out := WriteTask.OnPeekResponse owner task (ROk r) now now_put in
  (status_code r = 304 \/ status_code r = 412 ->
   out = (task, [SetResult (ROk (MkStamp StorageGeneration.Unknown now))])
   /\ requests_issued (snd out) = [])
  /\ (status_code r = 200 ->
      out = WriteTask.DoPut owner task now_put
      /\ results_set (snd out) = []
      /\ exists request,
          snd out = [IssueRequest request (WriteTask.value task)]
          /\ method request = "PUT").
Proof.
  intros out. subst out. unfold WriteTask.OnPeekResponse. split.
  - intros [Hc | Hc]; rewrite Hc; cbn; split; reflexivity.
  - intros Hc. rewrite Hc. cbn [Z.eqb Pos.eqb orb andb].
    split; [reflexivity|]. split; [reflexivity|].
    eexists. split; reflexivity.
Qed.

(** C5.  What the peek handlers do with a probe that failed.  When the
    HEAD probe of a conditional write or delete ends in a transport-level
    failure (the response result holds an error), the promise is resolved
    with that error; no request is issued and no retry is scheduled.  When
    the probe is answered by an HTTP response with a 5xx status, the task
    does not fail: the handler tests the status for 304, 412 and 404 only,
    and goes on to issue the PUT (carrying the value, with the content
    type and length as its only headers) or the DELETE, without resolving
    the promise and without scheduling a retry. *)
Theorem C5_peek_5xx_issues_mutation
    (owner : S3KeyValueStore) (w : WriteTask.t) (d : DeleteTask.t)
    (now now2 : Time) :
  (forall s : Status,
      WriteTask.OnPeekResponse owner w (RErr s) now now2
      = (w, [SetResult (RErr s)])
      /\ DeleteTask.OnPeekResponse owner d (RErr s) now now2
         = (d, [SetResult (RErr s)]))
  /\ (forall r : HttpResponse,
        500 <= status_code r < 600 ->
        let wout := WriteTask.OnPeekResponse owner w (ROk r) now now2 in
        let dout := DeleteTask.OnPeekResponse owner d (ROk r) now now2 in
        snd wout
        = [IssueRequest
             (MkRequest "PUT"
                (endpoint_ owner ++ "/" ++ WriteTask.encoded_object_name w)
                []
                ["Content-Type: application/octet-stream";
                 ("Content-Length: "
                  ++ itoa (Z.of_nat (String.length (WriteTask.value w))))]
                false (requester_pays owner) None (host_ owner)
                (WriteTask.credentials_ w) (aws_region_ owner)
                (Sha256HexOf (WriteTask.value w)) now2)
             (WriteTask.value w)]
        /\ results_set (snd wout) = []
        /\ retries_scheduled (snd wout) = []
        /\ snd dout
           = [IssueRequest
                (MkRequest "DELETE" (DeleteTask.resource d) [] [] false
                   (requester_pays owner) None (host_ owner)
                   (DeleteTask.credentials_ d) (aws_region_ owner)
                   kEmptySha256 now2)
                ""]
        /\ results_set (snd dout) = []
        /\ retries_scheduled (snd dout) = [])%string.
Proof.
  split.
  - intros s. split; reflexivity.
  - intros r Hr.
    unfold WriteTask.OnPeekResponse, DeleteTask.OnPeekResponse.
    assert (E304 : (status_code r =? 304) = false) by (apply Z.eqb_neq; lia).
    assert (E412 : (status_code r =? 412) = false) by (apply Z.eqb_neq; lia).
    assert (E404 : (status_code r =? 404) = false) by (apply Z.eqb_neq; lia).
    rewrite E304, E412, E404. cbn. repeat split; reflexivity.
Qed.

(** ** DeleteTask *)

(** C6.  A delete whose DELETE request is answered with a 2xx status or
    with 404 resolves its promise with generation NoValue and the time the
    DELETE was issued at, except that a 404 under a concrete [if_equal]
    gives generation Unknown.  In particular an unconditional delete (as
    the second of two deletes of one key is) issues its DELETE at once
    and, answered with 2xx or 404, succeeds with NoValue.  2xx codes are
    successes of the status helper. *)
Theorem C6_delete_final_response
    (owner : S3KeyValueStore) (task : DeleteTask.t) (r : HttpResponse)
    (env : BackoffEnv)
    (H2xx : 200 <= status_code r < 300 ->
            ok (HttpResponseCodeToStatus r) = true)
    (Hcode : 200 <= status_code r < 300 \/ status_code r = 404) :
  DeleteTask.OnResponse owner task true (ROk r) env
  = (task,
     [SetResult
        (ROk (MkStamp
                (if (status_code r =? 404)
                    && concrete_value (if_equal (DeleteTask.options task))
                 then StorageGeneration.Unknown
                 else StorageGeneration.NoValue)
                (DeleteTask.start_time_ task)))])
  /\ (if_equal (DeleteTask.options task) = StorageGeneration.Unknown ->
      forall (creds : option S3Credentials) (issued_at : Time),
        IsValidStorageGeneration StorageGeneration.Unknown = true ->
        let started :=
          DeleteTask.Retry owner task true (ROk creds) issued_at in
        started = DeleteTask.DoDelete owner
                    (DeleteTask.Mk (DeleteTask.resource task)
                       (DeleteTask.options task) (DeleteTask.attempt_ task)
                       (DeleteTask.start_time_ task)
                       match creds with
                       | Some c => c
                       | None => DeleteTask.credentials_ task
                       end) issued_at
        /\ DeleteTask.OnResponse owner (fst started) true (ROk r) env
           = (fst started,
              [SetResult (ROk (MkStamp StorageGeneration.NoValue issued_at))])).
Proof.
  assert (Hok : ok (DeleteTask.ResponseStatus (ROk r)) = true).
  { unfold DeleteTask.ResponseStatus.
    destruct (status_code r =? 404) eqn:E; [reflexivity|].
    apply H2xx. apply Z.eqb_neq in E. lia. }
  assert (Hgen : forall t : DeleteTask.t,
    DeleteTask.OnResponse owner t true (ROk r) env
    = (t, [SetResult
             (ROk (MkStamp
                     (if (status_code r =? 404)
                         && concrete_value (if_equal (DeleteTask.options t))
                      then StorageGeneration.Unknown
                      else StorageGeneration.NoValue)
                     (DeleteTask.start_time_ t)))])).
  { intros t. unfold DeleteTask.OnResponse. cbn [negb].
    change (match r with
            | MkResponse c _ _ => _
            end) with (status_code r) in *.
    fold (DeleteTask.ResponseStatus (ROk r)). rewrite Hok. cbn [negb andb].
    unfold concrete_value.
    destruct (status_code r =? 404),
      (if_equal (DeleteTask.options t)); reflexivity. }
  split; [apply Hgen|].
  intros Hu creds issued_at Hvalid started. subst started.
  assert (Hstart :
    DeleteTask.Retry owner task true (ROk creds) issued_at
    = DeleteTask.DoDelete owner
        (DeleteTask.Mk (DeleteTask.resource task)
           (DeleteTask.options task) (DeleteTask.attempt_ task)
           (DeleteTask.start_time_ task)
           match creds with
           | Some c => c
           | None => DeleteTask.credentials_ task
           end) issued_at).
  { unfold DeleteTask.Retry. cbn [negb]. rewrite Hu, Hvalid. cbn [negb].
    destruct creds; cbn; rewrite ?Hu; cbn; try reflexivity. }
  split; [exact Hstart|].
  rewrite Hstart, Hgen. cbn. rewrite Hu. cbn.
  rewrite andb_false_r. reflexivity.
Qed.

(** ** Retry with backoff *)

(** C7.  A retriable failure [status] handled at attempt number [n].
    When [n >= max_retries], [BackoffForAttemptAsync] performs no effect
    and returns a status with code Aborted whose message begins with
    "All n retry attempts failed" and ends with the message of the
    original status; the read, write and delete tasks resolve their
    promise with that status and the list task passes it to [set_error].
    Otherwise the call returns ok after exactly two effects, which are the
    only effects of the task's callback: the retries counter grows by
    one, and one retry is scheduled at [now + delay] with
    [delay = min (initial_delay * 2^n) max_delay + jitter] and
    [0 <= jitter <= min (1s) initial_delay]; the task's attempt number
    becomes [n + 1]. *)
Theorem C7_backoff_for_attempt
    (owner : S3KeyValueStore) (status : Status) (n : Z) (env : BackoffEnv)
    (Hfailed : ok status = false)
    (Hretriable : IsRetriable status = true)
    (Hdelay : 0 <= initial_delay (retries owner)) :
  let aborted :=
    MaybeAnnotateStatus status
      ("All " ++ itoa n ++ " retry attempts failed")%string kAborted in
  (n >= max_retries (retries owner) ->
   code aborted = kAborted
   /\ (exists rest,
         message aborted
         = ("All " ++ itoa n ++ " retry attempts failed" ++ rest)%string)
   /\ (exists before, message aborted = (before ++ message status)%string)
   /\ (forall R : Type,
         BackoffForAttemptAsync (R := R) owner status n env = (aborted, []))
   /\ (forall (task : ReadTask.t) response now,
         ReadTask.attempt_ task = n ->
         ReadTask.ResponseStatus response = status ->
         snd (ReadTask.OnResponse owner task true response env now)
         = [SetResult (RErr aborted)])
   /\ (forall (task : WriteTask.t) response now,
         WriteTask.attempt_ task = n ->
         WriteTask.ResponseStatus response = status ->
         snd (WriteTask.OnResponse owner task true response env now)
         = [SetResult (RErr aborted)])
   /\ (forall (task : DeleteTask.t) response,
         DeleteTask.attempt_ task = n ->
         DeleteTask.ResponseStatus response = status ->
         snd (DeleteTask.OnResponse owner task true response env)
         = [SetResult (RErr aborted)])
   /\ (forall (task : ListTask.t) response (lenv : ListTask.Env),
         ListTask.attempt_ task = n ->
         WriteTask.ResponseStatus response = status ->
         ListTask.is_cancelled lenv 0%nat = false ->
         ListTask.backoff lenv = env ->
         snd (ListTask.OnResponse owner task response lenv)
         = [set_error aborted; set_stopping]))
  /\ (n < max_retries (retries owner) ->
      exists jitter,
        0 <= jitter <= Z.min (Seconds 1) (initial_delay (retries owner))
        /\ let at_time :=
             backoff_now env
             + (Z.min (initial_delay (retries owner) * 2 ^ n)
                  (max_delay (retries owner)) + jitter) in
           let retry (R : Type) : list (Event R) :=
             [Increment s3_retries; ScheduleRetry at_time] in
           (forall R : Type,
               BackoffForAttemptAsync (R := R) owner status n env
               = (OkStatus, retry R))
           /\ counter_delta s3_retries (retry unit) = 1
           /\ retries_scheduled (retry unit) = [at_time]
           /\ (forall (task : ReadTask.t) response now,
                 ReadTask.attempt_ task = n ->
                 ReadTask.ResponseStatus response = status ->
                 let out :=
                   ReadTask.OnResponse owner task true response env now in
                 snd out = retry _
                 /\ ReadTask.attempt_ (fst out) = n + 1)
           /\ (forall (task : WriteTask.t) response now,
                 WriteTask.attempt_ task = n ->
                 WriteTask.ResponseStatus response = status ->
                 let out :=
                   WriteTask.OnResponse owner task true response env now in
                 snd out = retry _
                 /\ WriteTask.attempt_ (fst out) = n + 1)
           /\ (forall (task : DeleteTask.t) response,
                 DeleteTask.attempt_ task = n ->
                 DeleteTask.ResponseStatus response = status ->
                 let out :=
                   DeleteTask.OnResponse owner task true response env in
                 snd out = retry _
                 /\ DeleteTask.attempt_ (fst out) = n + 1)
           /\ (forall (task : ListTask.t) response (lenv : ListTask.Env),
                 ListTask.attempt_ task = n ->
                 WriteTask.ResponseStatus response = status ->
                 ListTask.is_cancelled lenv 0%nat = false ->
                 ListTask.backoff lenv = env ->
                 let out := ListTask.OnResponse owner task response lenv in
                 snd out = retry _
                 /\ ListTask.attempt_ (fst out) = n + 1)).
Proof.
  intros aborted. split; intros Hn.
  - assert (E : (n >=? max_retries (retries owner)) = true)
      by (rewrite Z.geb_leb; apply Z.leb_le; lia).
    assert (Hcode : code aborted = kAborted).
    { subst aborted. unfold MaybeAnnotateStatus. now rewrite Hfailed. }
    assert (Hbk : forall R : Type,
               BackoffForAttemptAsync (R := R) owner status n env
               = (aborted, [])).
    { intros R. unfold BackoffForAttemptAsync. now rewrite E. }
    assert (Hnok : ok aborted = false) by (unfold ok; now rewrite Hcode).
    assert (Hncan : IsCancelled aborted = false)
      by (unfold IsCancelled; now rewrite Hcode).
    split; [exact Hcode|]. split; [|split; [|split; [exact Hbk|]]].
    + subst aborted. unfold MaybeAnnotateStatus. rewrite Hfailed.
      cbn [message]. destruct (message status =? "")%string.
      * exists "". now rewrite !append_empty_r.
      * exists (": " ++ message status)%string.
        now rewrite <- !append_assoc.
    + subst aborted. unfold MaybeAnnotateStatus. rewrite Hfailed.
      cbn [message]. destruct (message status =? "")%string eqn:Em.
      * apply String.eqb_eq in Em. rewrite Em.
        eexists. symmetry. apply append_empty_r.
      * exists ("All " ++ itoa n ++ " retry attempts failed" ++ ": ")%string.
        now rewrite <- !append_assoc.
    + repeat split.
      * intros task response now Hatt Hst.
        unfold ReadTask.OnResponse. cbn [negb].
        rewrite Hst, Hfailed, Hretriable, Hatt, Hbk. cbn [negb andb].
        now rewrite Hnok.
      * intros task response now Hatt Hst.
        unfold WriteTask.OnResponse. cbn [negb].
        rewrite Hst, Hfailed, Hretriable, Hatt, Hbk. cbn [negb andb].
        now rewrite Hnok.
      * intros task response Hatt Hst.
        unfold DeleteTask.OnResponse. cbn [negb].
        rewrite Hst, Hfailed, Hretriable, Hatt, Hbk. cbn [negb andb].
        now rewrite Hnok.
      * intros task response lenv Hatt Hst Hlive Henv.
        unfold ListTask.OnResponse, ListTask.OnResponseImpl.
        rewrite Hlive. unfold WriteTask.ResponseStatus in Hst.
        rewrite Hst, Hfailed, Hretriable, Hatt, Henv, Hbk. cbn [negb andb].
        now rewrite Hncan, Hnok.
  - assert (E : (n >=? max_retries (retries owner)) = false)
      by (rewrite Z.geb_leb; apply Z.leb_gt; lia).
    exists (jitter_draw (Z.min (Seconds 1) (initial_delay (retries owner)))
              (backoff_entropy env)).
    split.
    { unfold jitter_draw, Seconds in *.
      destruct (Z.min (1 * 1000000000) (initial_delay (retries owner)) <=? 0)
        eqn:Ej; [lia|].
      apply Z.leb_gt in Ej.
      pose proof (Z.mod_pos_bound (backoff_entropy env)
                    (Z.min (1 * 1000000000)
                       (initial_delay (retries owner)) + 1)).
      lia. }
    intros at_time retry.
    assert (Hbk : forall R : Type,
               BackoffForAttemptAsync (R := R) owner status n env
               = (OkStatus, retry R)).
    { intros R. unfold BackoffForAttemptAsync. now rewrite E. }
    split; [exact Hbk|]. split; [reflexivity|]. split; [reflexivity|].
    split; [|split; [|split]].
    + intros task response now Hatt Hst out. subst out.
      unfold ReadTask.OnResponse. cbn [negb].
      rewrite Hst, Hfailed, Hretriable, Hatt, Hbk. split; reflexivity.
    + intros task response now Hatt Hst out. subst out.
      unfold WriteTask.OnResponse. cbn [negb].
      rewrite Hst, Hfailed, Hretriable, Hatt, Hbk. split; reflexivity.
    + intros task response Hatt Hst out. subst out.
      unfold DeleteTask.OnResponse. cbn [negb].
      rewrite Hst, Hfailed, Hretriable, Hatt, Hbk. split; reflexivity.
    + intros task response lenv Hatt Hst Hlive Henv out. subst out.
      unfold ListTask.OnResponse, ListTask.OnResponseImpl.
      rewrite Hlive. unfold WriteTask.ResponseStatus in Hst.
      rewrite Hst, Hfailed, Hretriable, Hatt, Henv, Hbk. split; reflexivity.
Qed.

(** ** ListTask *)







(** C10.  What [OnResponseImpl] does with a transport-level failure [s]
    (a response result that holds an error).  If the task is cancelled it
    returns Cancelled; if [s] is retriable it returns what
    [BackoffForAttemptAsync] returns; in both cases the payload is not
    touched.  If the task is not cancelled and [s] is not retriable, the
    callback goes on to read the payload through the errored result. *)
Theorem C10_list_transport_failure
    (owner : S3KeyValueStore) (task : ListTask.t) (s : Status)
    (env : ListTask.Env)
    (Hfailed : ok s = false) :
  let out := ListTask.OnResponseImpl owner task (RErr s) env in
  (ListTask.is_cancelled env 0%nat = true ->
   out = (task, Some CancelledError, []))
  /\ (ListTask.is_cancelled env 0%nat = false ->
      IsRetriable s = true ->
      exists st,
        out = (ListTask.Mk (ListTask.options_ task)
                 (ListTask.resource_ task)
                 (ListTask.continuation_token_ task)
                 (ListTask.start_time_ task) (ListTask.attempt_ task + 1),
               Some st,
               snd (BackoffForAttemptAsync owner s (ListTask.attempt_ task)
                      (ListTask.backoff env)))
        /\ ~ In AccessErrorResult (snd out))
  /\ (ListTask.is_cancelled env 0%nat = false ->
      IsRetriable s = false ->
      out = (task, None, [AccessErrorResult])
      /\ ListTask.OnResponse owner task (RErr s) env
         = (task, [AccessErrorResult])).
Proof.
  intros out. subst out. unfold ListTask.OnResponse, ListTask.OnResponseImpl.
  split; [|split].
  - intros Hc. now rewrite Hc.
  - intros Hlive Hretry. rewrite Hlive, Hfailed, Hretry. cbn [negb andb].
    unfold BackoffForAttemptAsync.
    destruct (ListTask.attempt_ task >=? max_retries (retries owner));
      eexists; (split; [reflexivity|]); cbn; intros Hin;
      repeat (destruct Hin as [Hin | Hin]; [discriminate Hin|]);
      exact Hin.
  - intros Hlive Hterm. rewrite Hlive, Hfailed, Hterm. cbn [negb andb].
    split; reflexivity.
Qed.

(** Issuing a request rewrites the lower bound of the range kept in the
    task: it is cut down to its first [strip_prefix_length] bytes.  The
    upper bound and the other options are left as they are. *)
Lemma IssueRequest_truncates_inclusive_min
    (owner : S3KeyValueStore) (task : ListTask.t) (env : ListTask.Env)
    (reads : nat)
    (Hlive : ListTask.is_cancelled env reads = false)
    (Hstrip : strip_prefix_length (ListTask.options_ task) <> 0) :
  ListTask.options_ (fst (ListTask.IssueRequest owner task env reads))
  = MkListOptions
      (KeyRange.Mk
         (substring 0
            (Z.to_nat (strip_prefix_length (ListTask.options_ task)))
            (KeyRange.inclusive_min (range (ListTask.options_ task))))
         (KeyRange.exclusive_max (range (ListTask.options_ task))))
      (strip_prefix_length (ListTask.options_ task)).
Proof.
  unfold ListTask.IssueRequest. rewrite Hlive.
  apply Z.eqb_neq in Hstrip. rewrite Hstrip. cbn [negb andb].
  destruct (KeyRange.inclusive_min (range (ListTask.options_ task)))
    as [|c rest] eqn:Emin.
  - cbn [String.eqb negb andb].
    destruct (ListTask.maybe_credentials env);
      cbn [fst ListTask.options_];
      now destruct (Z.to_nat (strip_prefix_length (ListTask.options_ task))).
  - cbn [String.eqb negb andb].
    destruct (ListTask.maybe_credentials env); reflexivity.
Qed.

End TaskProperties.

(** ** The properties at sample inputs

    The collaborators are those of [SpecModel]. *)

#[local] Existing Instance SpecModel.externals.

(** C4.  A listing of the range from "ab5" up to "ab9" with
    [strip_prefix_length = 2].  Issuing the first request cuts the lower
    bound stored in the task down to "ab" (the request carries the prefix
    "ab").  The first page names "ab1" and "ab6", the second "ab2".  The
    caller's range contains neither "ab1" nor "ab2", yet both pass the
    range test of the task: the receiver is given "1" and "6" from the
    first page and "2" from the second. *)
Theorem C4_list_emits_key_outside_range :
  match S3KeyValueStore_ListImpl Example.owner Example.list_options with
  | (Some task, _) =>
      let started := ListTask.Admit Example.owner task Example.list_env in
      let page1 :=
        ListTask.OnResponse Example.owner (fst started)
          (ROk Example.list_page1) Example.list_env in
      let page2 :=
        ListTask.OnResponse Example.owner (fst page1)
          (ROk Example.list_page2) Example.list_env in
      range (ListTask.options_ task) = Example.list_range
      /\ Contains Example.list_range "ab1" = false
      /\ Contains Example.list_range "ab2" = false
      /\ (exists request,
            snd started = [set_starting; IssueRequest request ""]
            /\ query request = [("list-type", "2"); ("prefix", "ab")])
      /\ range (ListTask.options_ (fst started)) = KeyRange.Mk "ab" "ab9"
      /\ (exists request,
            snd page1
            = [set_value "1"; set_value "6"; IssueRequest request ""]
            /\ query request
               = [("list-type", "2"); ("prefix", "ab");
                  ("continuation-token", "X")])
      /\ snd page2 = [set_value "2"; set_done; set_stopping]
  | (None, _) => False
  end.
Proof.
  vm_compute S3KeyValueStore_ListImpl. cbv iota beta zeta.
  split; [reflexivity|].
  split; [vm_compute; reflexivity|].
  split; [vm_compute; reflexivity|].
  split; [eexists; split; vm_compute; reflexivity|].
  split; [vm_compute; reflexivity|].
  split; [eexists; split; vm_compute; reflexivity|].
  vm_compute; reflexivity.
Qed.

(** C1 at a 204 response to a GET issued at time 1000. *)
Lemma C1_witness :
  exists result,
    results_set
      (snd (ReadTask.OnResponse Example.owner
              (fst (ReadTask.Retry Example.owner Example.read_task true
                      (ROk None) 1000))
              true (ROk (Example.response 204)) Example.backoff_env 2000))
    = [ROk result]
    /\ time (stamp result) = 1000
    /\ state result = kMissing
    /\ generation (stamp result) = StorageGeneration.NoValue.
Proof.
  destruct (C1_read_terminal_status_mapping (ext := SpecModel.externals) Example.owner Example.read_task
              None 1000 (Example.response 204) Example.backoff_env 2000
              (fun _ => eq_refl) (or_introl eq_refl))
    as [_ [result [Hrun [Htime [Hmissing _]]]]].
  exists result. rewrite Hrun.
  destruct (Hmissing (or_introl eq_refl)) as [Hs Hg].
  repeat split; assumption.
Defined.

(** C2 at a write conditional on the ETag "abc" whose PUT is answered 404. *)
Lemma C2_witness :
  WriteTask.OnResponse Example.owner
    (Example.write_task (StorageGeneration.FromString "abc")) true
    (ROk (Example.response 404)) Example.backoff_env 2000
  = (Example.write_task (StorageGeneration.FromString "abc"),
     [SetResult (RErr (MkStatus kNotFound "HTTP response code: 404"))]).
Proof.
  exact (proj1 (C2_write_put_404_resolves_with_error (ext := SpecModel.externals) Example.owner
                  (Example.write_task (StorageGeneration.FromString "abc"))
                  (Example.response 404) Example.backoff_env 2000
                  eq_refl eq_refl eq_refl eq_refl)).
Defined.

(** C3 as stated fails: with [if_equal = NoValue] and a HEAD probe answered
    200, the promise is not resolved and a request is issued. *)
Lemma C3_counterexample :
  let task := Example.write_task StorageGeneration.NoValue in
  let out :=
    WriteTask.OnPeekResponse Example.owner task (ROk (Example.response 200))
      1000 2000 in
  if_equal (WriteTask.options task) = StorageGeneration.NoValue
  /\ ~ ((exists t, results_set (snd out)
                   = [ROk (MkStamp StorageGeneration.Unknown t)])
        /\ requests_issued (snd out) = []).
Proof.
  cbv zeta. split; [reflexivity|].
  intros [_ Hnone]. vm_compute in Hnone. discriminate Hnone.
Qed.

(** C3 as amended, at probes answered 412 and 200. *)
Lemma C3_witness :
  let task := Example.write_task StorageGeneration.NoValue in
  WriteTask.OnPeekResponse Example.owner task (ROk (Example.response 412))
    1000 2000
  = (task, [SetResult (ROk (MkStamp StorageGeneration.Unknown 1000))])
  /\ WriteTask.OnPeekResponse Example.owner task (ROk (Example.response 200))
       1000 2000
     = WriteTask.DoPut Example.owner task 2000.
Proof.
  cbv zeta. split.
  - exact (proj1 (proj1 (C3_write_peek_novalue Example.owner
                           (Example.write_task StorageGeneration.NoValue)
                           (Example.response 412) 1000 2000 eq_refl)
                    (or_intror eq_refl))).
  - exact (proj1 (proj2 (C3_write_peek_novalue Example.owner
                           (Example.write_task StorageGeneration.NoValue)
                           (Example.response 200) 1000 2000 eq_refl)
                    eq_refl)).
Defined.

(** C5 at a write and a delete conditional on the ETag "abc" whose probes
    are answered 503: the PUT and the DELETE are issued. *)
Lemma C5_witness :
  map method
    (requests_issued
       (snd (WriteTask.OnPeekResponse Example.owner
               (Example.write_task (StorageGeneration.FromString "abc"))
               (ROk (Example.response 503)) 1000 2000)))
  = ["PUT"]
  /\ map method
       (requests_issued
          (snd (DeleteTask.OnPeekResponse Example.owner
                  (Example.delete_task (StorageGeneration.FromString "abc"))
                  (ROk (Example.response 503)) 1000 2000)))
     = ["DELETE"].
Proof.
  pose proof (proj2 (C5_peek_5xx_issues_mutation Example.owner
                       (Example.write_task (StorageGeneration.FromString "abc"))
                       (Example.delete_task
                          (StorageGeneration.FromString "abc"))
                       1000 2000)
                (Example.response 503) ltac:(cbn; lia)) as W.
  cbv zeta in W. destruct W as [Hw [_ [_ [Hd _]]]].
  rewrite Hw, Hd. split; reflexivity.
Defined.

(** C6 at an unconditional delete answered 404 (the key is already gone). *)
Lemma C6_witness :
  DeleteTask.OnResponse Example.owner
    (fst (DeleteTask.Retry Example.owner
            (Example.delete_task StorageGeneration.Unknown) true (ROk None)
            1000))
    true (ROk (Example.response 404)) Example.backoff_env
  = (fst (DeleteTask.Retry Example.owner
            (Example.delete_task StorageGeneration.Unknown) true (ROk None)
            1000),
     [SetResult (ROk (MkStamp StorageGeneration.NoValue 1000))]).
Proof.
  refine (proj2 (proj2 (C6_delete_final_response (ext := SpecModel.externals) Example.owner
                    (Example.delete_task StorageGeneration.Unknown)
                    (Example.response 404) Example.backoff_env
                    _ (or_intror eq_refl))
            eq_refl None 1000 eq_refl)).
  cbn. intros Hr. exfalso. lia.
Defined.

(** C7 at a 503 failure: exhausted at attempt 32, retried at attempt 3. *)
Lemma C7_witness :
  let status := MkStatus kUnavailable "HTTP response code: 503" in
  BackoffForAttemptAsync (R := unit) Example.owner status 32
    Example.backoff_env
  = (MkStatus kAborted
       "All 32 retry attempts failed: HTTP response code: 503", [])
  /\ exists jitter,
      0 <= jitter <= 1000000000
      /\ BackoffForAttemptAsync (R := unit) Example.owner status 3
           Example.backoff_env
         = (OkStatus,
            [Increment s3_retries;
             ScheduleRetry (5000000000 + (8000000000 + jitter))]).
Proof.
  cbv zeta. split.
  - pose proof (C7_backoff_for_attempt (ext := SpecModel.externals)
                  Example.owner
                  (MkStatus kUnavailable "HTTP response code: 503") 32
                  Example.backoff_env eq_refl eq_refl
                  ltac:(cbn; lia)) as W.
    cbv zeta in W. destruct W as [W _].
    destruct (W ltac:(cbn; lia)) as [_ [_ [_ [Hbk _]]]].
    exact (Hbk unit).
  - pose proof (C7_backoff_for_attempt (ext := SpecModel.externals)
                  Example.owner
                  (MkStatus kUnavailable "HTTP response code: 503") 3
                  Example.backoff_env eq_refl eq_refl
                  ltac:(cbn; lia)) as W.
    cbv zeta in W. destruct W as [_ W].
    destruct (W ltac:(cbn; lia)) as [jitter [Hj [Hbk _]]].
    exists jitter. split; [exact Hj | exact (Hbk unit)].
Defined.

(** C8 as stated fails: the request for bytes 100 to 199 is answered 206
    with exactly those bytes and a Content-Range that starts at 100, so
    the request is not mismatched; the response carries no ETag header,
    and the result is the error of the header lookup, not a value. *)
Lemma C8_counterexample :
  let r := Scenario.partial_content_without_etag in
  let request := byte_range (ReadTask.options Example.read_task) in
  let out :=
    ReadTask.OnResponse Example.owner Example.read_task true (ROk r)
      Example.backoff_env 2000 in
  status_code r = 206
  /\ ParseContentRangeHeader r = ROk (100, 199, 500)
  /\ ByteRange.inclusive_min request = 100
  /\ byte_range_size request = Z.of_nat (String.length (payload r))
  /\ ~ (exists result,
          results_set (snd out) = [ROk result] /\ state result = kValue)
  /\ ~ (exists e, results_set (snd out) = [RErr e] /\ code e = kOutOfRange).
Proof.
  cbv zeta.
  split; [reflexivity|]. split; [vm_compute; reflexivity|].
  split; [reflexivity|]. split; [vm_compute; reflexivity|].
  split.
  - intros [result [Hres _]]. vm_compute in Hres. discriminate Hres.
  - intros [e [Hres Hcode]]. vm_compute in Hres.
    inversion Hres; subst e. discriminate Hcode.
Qed.

(** C8 as amended, at the request for bytes 100 to 199 answered with
    exactly those and an ETag, and at the same answer without the
    Content-Range header. *)
Lemma C8_witness :
  results_set
    (snd (ReadTask.OnResponse Example.owner Example.read_task true
            (ROk Example.partial_content) Example.backoff_env 2000))
  = [ROk (MkReadResult kValue Example.hundred_bytes
            (MkStamp (StorageGeneration.FromString "abc") 0))]
  /\ results_set
       (snd (ReadTask.OnResponse Example.owner Example.read_task true
               (ROk Scenario.partial_content_without_range)
               Example.backoff_env 2000))
     = [RErr (MkStatus kFailedPrecondition
                "Unexpected Content-Range header received")].
Proof.
  split.
  - refine (proj2 (proj1 (proj2 (proj2 (C8_read_partial_content
                     (ext := SpecModel.externals)
                     Example.owner Example.read_task Example.partial_content
                     Example.backoff_env 2000 eq_refl eq_refl _ _)
                    100 199 500 ltac:(vm_compute; reflexivity))) _)
             (StorageGeneration.FromString "abc") eq_refl).
    + change (- 2 ^ 63 <= 100 < 2 ^ 63). lia.
    + change (100 < 2 ^ 63). lia.
    + change (~ ((100 <> -1 /\ 100 <> 100) \/ (100 <> -1 /\ 100 <> 100))).
      intros [[_ Hne] | [_ Hne]]; apply Hne; reflexivity.
  - refine (proj1 (C8_read_partial_content
                     (ext := SpecModel.externals)
                     Example.owner Example.read_task
                     Scenario.partial_content_without_range
                     Example.backoff_env 2000 eq_refl eq_refl _ _)
              _ ltac:(vm_compute; reflexivity)).
    + change (- 2 ^ 63 <= 100 < 2 ^ 63). lia.
    + change (100 < 2 ^ 63). lia.
Defined.



(** C10 at a transport failure that is not retried. *)
Lemma C10_witness :
  ListTask.OnResponseImpl Example.owner Example.list_task
    (RErr (MkStatus kUnknown "CURL error: SSL peer certificate was not OK"))
    Example.list_env
  = (Example.list_task, None, [AccessErrorResult]).
Proof.
  exact (proj1 (proj2 (proj2 (C10_list_transport_failure
                                (ext := SpecModel.externals) Example.owner
                                Example.list_task
                                (MkStatus kUnknown
                                   "CURL error: SSL peer certificate was not OK")
                                Example.list_env eq_refl))
                  eq_refl eq_refl)).
Defined.

(** * Further properties of the driver *)

(** ** Listing *)

Lemma FindTag_error (data tag : string) (from : nat) (start : bool)
    (s : Status) :
  FindTag data tag from start = RErr s -> code s = kInvalidArgument.
Proof.
  unfold FindTag. destruct (index from tag data); intros E; inversion E.
  reflexivity.
Qed.

Lemma GetTag_error (data open_tag close_tag : string) (from : nat)
    (s : Status) :
  GetTag data open_tag close_tag from = RErr s -> code s = kInvalidArgument.
Proof.
  unfold GetTag.
  destruct (FindTag data open_tag from false) as [a|e] eqn:Ea; cbn.
  - destruct (FindTag data close_tag a true) as [b|e] eqn:Eb; cbn;
      intros E; inversion E; subst. eapply FindTag_error; eassumption.
  - intros E; inversion E; subst. eapply FindTag_error; eassumption.
Qed.

Section ListProperties.
Context {ext : Externals}.

(** The loop over the blocks of a page pushes nothing but keys: each is
    the stripped form of a key that the range contains, there are at most
    [fuel] of them, and the loop ends ok, cancelled or with a tag error. *)
Lemma EmitKeys_spec (options : ListOptions) (env : ListTask.Env)
    (payload : string) (fuel k from : nat) :
  exists keys,
    snd (ListTask.EmitKeys options env payload fuel k from)
    = map set_value (map (StripPrefix options) keys)
    /\ Forall (fun key => Contains (range options) key = true) keys
    /\ (List.length keys <= fuel)%nat
    /\ (code (fst (ListTask.EmitKeys options env payload fuel k from)) = kOk
        \/ code (fst (ListTask.EmitKeys options env payload fuel k from))
           = kCancelled
        \/ code (fst (ListTask.EmitKeys options env payload fuel k from))
           = kInvalidArgument).
Proof.
  revert k from. induction fuel as [|fuel IH]; intros k from.
  - exists []. cbn. repeat split; auto.
  - cbn [ListTask.EmitKeys].
    destruct (ListTask.is_cancelled env (S k)).
    { exists []. cbn. repeat split; auto with arith. }
    destruct (FindTag payload "<Contents>" from false) as [cp|e] eqn:Ec.
    2:{ exists []. cbn. repeat split; auto with arith.
        right. right. eapply FindTag_error; eassumption. }
    destruct (GetTag payload "<Key>" "</Key>" cp) as [tp|e] eqn:Ek.
    2:{ exists []. cbn. repeat split; auto with arith.
        right. right. eapply GetTag_error; eassumption. }
    destruct (IH (S k) (pos tp)) as [keys [Hevs [Hin [Hlen Hst]]]].
    destruct (ListTask.EmitKeys options env payload fuel (S k) (pos tp))
      as [st rest] eqn:Erest.
    cbn [fst snd] in *. subst rest.
    destruct (negb (KeyRange_empty (range options))
              && Contains (range options) (tag tp)) eqn:Etest.
    + exists (tag tp :: keys). cbn [map List.length app fst snd].
      apply andb_true_iff in Etest. destruct Etest as [_ Hc].
      repeat split; auto with arith.
    + exists keys. cbn [app fst snd]. repeat split; auto with arith.
Qed.

(** Issuing a request ends in one of the four ways, with no key pushed. *)
Lemma IssueRequest_tail (owner : S3KeyValueStore) (task : ListTask.t)
    (env : ListTask.Env) (reads : nat) :
  ListTail (snd (ListTask.IssueRequest owner task env reads)).
Proof.
  unfold ListTask.IssueRequest.
  destruct (ListTask.is_cancelled env reads); [constructor|].
  destruct (ListTask.maybe_credentials env); cbn; constructor.
Qed.

Lemma invalid_argument_not_ok (s : Status) :
  code s = kInvalidArgument -> ok s = false /\ IsCancelled s = false.
Proof. unfold ok, IsCancelled. intros E. now rewrite E. Qed.

(** [OnResponseImpl] on an answer the task can take: it pushes keys and
    then either returns ok after handing the task on or finishing it, or
    returns an error having done nothing else. *)
Lemma OnResponseImpl_shape (owner : S3KeyValueStore) (task : ListTask.t)
    (response : Result HttpResponse) (env : ListTask.Env)
    (Hanswer : list_answer_ok response) :
  exists task' st keys tail,
    ListTask.OnResponseImpl owner task response env
    = (task', Some st,
       map set_value (map (StripPrefix (ListTask.options_ task)) keys)
       ++ tail)
    /\ Forall (fun key =>
                 Contains (range (ListTask.options_ task)) key = true) keys
    /\ (ListTask.options_ task' = ListTask.options_ task
        \/ exists t0 reads,
            ListTask.options_ t0 = ListTask.options_ task
            /\ task' = fst (ListTask.IssueRequest owner t0 env reads))
    /\ (requests_issued tail <> [] -> ListTask.attempt_ task' = 0)
    /\ ((ok st = true /\ ListTail tail)
        \/ (ok st = false /\ tail = []
            /\ (code st = kCancelled \/ code st = kInvalidArgument
                \/ code st = kAborted))).
Proof.
  unfold ListTask.OnResponseImpl.
  destruct (ListTask.is_cancelled env 0).
  { exists task, CancelledError, [], []. cbn.
    repeat split; auto. intros Hreq; now elim Hreq. }
  set (status := match response with
                 | ROk r => HttpResponseCodeToStatus r
                 | RErr s => s
                 end).
  destruct (negb (ok status) && IsRetriable status) eqn:Eretry.
  { apply andb_true_iff in Eretry. destruct Eretry as [Hnok _].
    apply negb_true_iff in Hnok.
    unfold BackoffForAttemptAsync.
    destruct (ListTask.attempt_ task >=? max_retries (retries owner)).
    - eexists _, _, [], []. cbn [map app]. split; [reflexivity|].
      split; [constructor|]. split; [left; reflexivity|]. split; [intros Hreq; now elim Hreq|]. right.
      unfold MaybeAnnotateStatus. rewrite Hnok. cbn. auto.
    - eexists _, _, [], _. cbn [map app]. split; [reflexivity|].
      split; [constructor|]. split; [left; reflexivity|]. split; [intros Hreq; now elim Hreq|]. left. split; [reflexivity|]. constructor. }
  destruct response as [r|s].
  2:{ cbn in Hanswer. destruct Hanswer as [Hnok Hr]. subst status.
      rewrite Hnok, Hr in Eretry. discriminate Eretry. }
  destruct (FindTag (payload r) kListBucketOpenTag 0 false)
    as [start_pos|e] eqn:Estart.
  2:{ exists task, e, [], []. cbn. split; [reflexivity|].
      split; [constructor|]. split; [left; reflexivity|]. split; [intros Hreq; now elim Hreq|]. right.
      apply FindTag_error in Estart.
      destruct (invalid_argument_not_ok _ Estart). auto. }
  destruct (GetTag (payload r) "<KeyCount>" "</KeyCount>" start_pos)
    as [kc|e] eqn:Ekc.
  2:{ exists task, e, [], []. cbn. split; [reflexivity|].
      split; [constructor|]. split; [left; reflexivity|]. split; [intros Hreq; now elim Hreq|]. right.
      apply GetTag_error in Ekc.
      destruct (invalid_argument_not_ok _ Ekc). auto. }
  destruct (SimpleAtoi (tag kc)) as [keycount|].
  2:{ eexists task, _, [], []. cbn. split; [reflexivity|].
      split; [constructor|]. split; [left; reflexivity|]. split; [intros Hreq; now elim Hreq|]. right. auto. }
  destruct (EmitKeys_spec (ListTask.options_ task) env (payload r)
              (Z.to_nat keycount) 0 (pos kc))
    as [keys [Hevs [Hin [_ Hst]]]].
  destruct (ListTask.EmitKeys (ListTask.options_ task) env (payload r)
              (Z.to_nat keycount) 0 (pos kc)) as [st pushed].
  cbn [fst snd] in Hevs, Hst. subst pushed.
  destruct (ok st) eqn:Eok; cbn [negb].
  2:{ exists task, st, keys, []. rewrite app_nil_r.
      split; [reflexivity|]. split; [exact Hin|]. split; [left; reflexivity|]. split; [intros Hreq; now elim Hreq|]. right.
      split; [exact Eok|]. split; [reflexivity|].
      destruct Hst as [Hc | [Hc | Hc]]; auto.
      unfold ok in Eok. rewrite Hc in Eok. discriminate Eok. }
  destruct (GetTag (payload r) "<IsTruncated>" "</IsTruncated>" start_pos)
    as [tr|e] eqn:Etr.
  2:{ eexists _, e, keys, []. rewrite app_nil_r.
      split; [reflexivity|]. split; [exact Hin|]. split; [left; reflexivity|]. split; [intros Hreq; now elim Hreq|]. right.
      apply GetTag_error in Etr.
      destruct (invalid_argument_not_ok _ Etr). auto. }
  destruct (tag tr =? "true")%string.
  - destruct (GetTag (payload r) "<NextContinuationToken>"
                "</NextContinuationToken>" start_pos) as [tok|e] eqn:Etok.
    2:{ eexists _, e, keys, []. rewrite app_nil_r.
        split; [reflexivity|]. split; [exact Hin|]. split; [left; reflexivity|]. split; [intros Hreq; now elim Hreq|]. right.
        apply GetTag_error in Etok.
        destruct (invalid_argument_not_ok _ Etok). auto. }
    match goal with
    | |- context [ListTask.IssueRequest ?o ?t ?e ?n] =>
        pose proof (IssueRequest_tail o t e n) as Htail;
        assert (Hopt : exists t0 reads,
                   ListTask.options_ t0 = ListTask.options_ task
                   /\ fst (ListTask.IssueRequest o t e n)
                      = fst (ListTask.IssueRequest owner t0 env reads))
          by (exists t, n; split; reflexivity);
        assert (Hatt : ListTask.attempt_
                         (fst (ListTask.IssueRequest o t e n)) = 0)
          by (unfold ListTask.IssueRequest;
              destruct (ListTask.is_cancelled e n); [reflexivity|];
              destruct (ListTask.maybe_credentials e); reflexivity);
        destruct (ListTask.IssueRequest o t e n) as [task' evs]
    end. cbn [fst] in Hatt.
    exists task', OkStatus, keys, evs. cbn [ListTask.options_].
    split; [reflexivity|]. split; [exact Hin|].
    split; [right; exact Hopt|]. split; [intros _; exact Hatt|]. left.
    split; [reflexivity | exact Htail].
  - eexists _, OkStatus, keys, _. cbn [ListTask.options_].
    split; [reflexivity|]. split; [exact Hin|]. split; [left; reflexivity|]. split; [intros Hreq; now elim Hreq|]. left.
    split; [reflexivity | constructor].
Qed.

(** Effects read through a run of pushed keys. *)
Lemma keys_pushed_app {R} (a b : list (Event R)) :
  keys_pushed (a ++ b) = keys_pushed a ++ keys_pushed b.
Proof.
  induction a as [|e a IH]; [reflexivity|].
  destruct e; cbn; now rewrite ?IH.
Qed.

Lemma keys_pushed_values {R} (keys : list string) :
  keys_pushed (R := R) (map set_value keys) = keys.
Proof. induction keys as [|k keys IH]; cbn; now rewrite ?IH. Qed.

Lemma keys_pushed_tail (tail : list (Event unit)) :
  ListTail tail -> keys_pushed tail = [].
Proof. intros []; reflexivity. Qed.

Lemma receiver_calls_app {R} (a b : list (Event R)) :
  receiver_calls (a ++ b) = receiver_calls a ++ receiver_calls b.
Proof.
  induction a as [|e a IH]; [reflexivity|].
  destruct e; cbn; now rewrite ?IH.
Qed.

Lemma receiver_calls_values {R} (keys : list string) :
  receiver_calls (R := R) (map set_value keys) = map set_value keys.
Proof. induction keys as [|k keys IH]; cbn; now rewrite ?IH. Qed.

Lemma requests_issued_values {R} (keys : list string) (rest : list (Event R)) :
  requests_issued (map set_value keys ++ rest) = requests_issued rest.
Proof. induction keys as [|k keys IH]; cbn; now rewrite ?IH. Qed.

Lemma retries_scheduled_values {R} (keys : list string)
    (rest : list (Event R)) :
  retries_scheduled (map set_value keys ++ rest) = retries_scheduled rest.
Proof. induction keys as [|k keys IH]; cbn; now rewrite ?IH. Qed.

(** A callback of a list task on an answer it can take: the keys it
    pushes, how it ends, and the options of the task afterwards. *)
Lemma OnResponse_shape (owner : S3KeyValueStore) (task : ListTask.t)
    (response : Result HttpResponse) (env : ListTask.Env)
    (Hanswer : list_answer_ok response) :
  exists keys tail,
    snd (ListTask.OnResponse owner task response env)
    = map set_value (map (StripPrefix (ListTask.options_ task)) keys) ++ tail
    /\ Forall (fun key =>
                 Contains (range (ListTask.options_ task)) key = true) keys
    /\ ListTail tail
    /\ (ListTask.options_ (fst (ListTask.OnResponse owner task response env))
        = ListTask.options_ task
        \/ exists t0 reads,
            ListTask.options_ t0 = ListTask.options_ task
            /\ fst (ListTask.OnResponse owner task response env)
               = fst (ListTask.IssueRequest owner t0 env reads))
    /\ (requests_issued tail <> [] ->
        ListTask.attempt_ (fst (ListTask.OnResponse owner task response env))
        = 0).
Proof.
  destruct (OnResponseImpl_shape owner task response env Hanswer)
    as [task' [st [keys [tail [E [Hin [Hopt [Hatt Hend]]]]]]]].
  unfold ListTask.OnResponse. rewrite E.
  destruct Hend as [[Hok Htail] | [Hnok [Hnil Hcode]]].
  - assert (Hc : IsCancelled st = false).
    { unfold ok, IsCancelled in *. destruct (code st); try discriminate Hok.
      reflexivity. }
    rewrite Hc, Hok. cbn [negb fst snd].
    exists keys, tail. split; [reflexivity|]. split; [exact Hin|].
    split; [exact Htail|]. split; [exact Hopt | exact Hatt].
  - subst tail. rewrite app_nil_r.
    destruct (IsCancelled st).
    + cbn [fst snd]. exists keys. eexists. split; [reflexivity|].
      split; [exact Hin|]. split; [constructor|]. split; [exact Hopt|].
      intros Hreq; now elim Hreq.
    + rewrite Hnok. cbn [negb fst snd]. exists keys. eexists.
      split; [reflexivity|].
      split; [exact Hin|]. split; [constructor|]. split; [exact Hopt|].
      intros Hreq; now elim Hreq.
Qed.

(** X1.  A callback of a list task that is given an answer it can take (a
    response, or a retriable failure) pushes some keys and then does
    exactly one of four things: it issues one request, it counts and
    schedules one retry, it calls [set_done] and [set_stopping], or it
    calls [set_error] and [set_stopping]. *)
Theorem ListTask_callback_shape (owner : S3KeyValueStore) (task : ListTask.t)
    (response : Result HttpResponse) (env : ListTask.Env)
    (Hanswer : list_answer_ok response) :
  exists keys tail,
    snd (ListTask.OnResponse owner task response env)
    = map set_value keys ++ tail
    /\ ListTail tail.
Proof.
  destruct (OnResponse_shape owner task response env Hanswer)
    as [keys [tail [E [_ [Htail _]]]]].
  eexists _, tail. split; [exact E | exact Htail].
Qed.

(** The keys the loop pushes are read off the blocks of the page, in
    order: they are the keys of the blocks handled so far that pass the
    range test, stripped. *)
Lemma EmitKeys_page (options : ListOptions) (env : ListTask.Env)
    (data : string) (fuel k from : nat) :
  exists j : nat,
    snd (ListTask.EmitKeys options env data fuel k from)
    = map set_value
        (map (StripPrefix options)
           (filter (PassesRange options)
              (firstn j (ContentsKeys data fuel from)))).
Proof.
  revert k from. induction fuel as [|fuel IH]; intros k from.
  - exists 0%nat. reflexivity.
  - cbn [ListTask.EmitKeys ContentsKeys].
    destruct (ListTask.is_cancelled env (S k)); [exists 0%nat; reflexivity|].
    destruct (FindTag data "<Contents>" from false) as [cp|e];
      [|exists 0%nat; reflexivity].
    destruct (GetTag data "<Key>" "</Key>" cp) as [tp|e];
      [|exists 0%nat; reflexivity].
    destruct (IH (S k) (pos tp)) as [j Hj].
    destruct (ListTask.EmitKeys options env data fuel (S k) (pos tp))
      as [st rest].
    cbn [snd] in *. subst rest. exists (S j).
    cbn [firstn filter].
    change (negb (KeyRange_empty (range options))
            && Contains (range options) (tag tp))
      with (PassesRange options (tag tp)).
    destruct (PassesRange options (tag tp)); reflexivity.
Qed.

(** With a receiver that does not cancel, the loop handles every block it
    finds. *)
Lemma EmitKeys_whole_page (options : ListOptions) (env : ListTask.Env)
    (data : string) (fuel k from : nat)
    (Hnever : forall n : nat, ListTask.is_cancelled env n = false) :
  snd (ListTask.EmitKeys options env data fuel k from)
  = map set_value
      (map (StripPrefix options)
         (filter (PassesRange options) (ContentsKeys data fuel from))).
Proof.
  revert k from. induction fuel as [|fuel IH]; intros k from.
  - reflexivity.
  - cbn [ListTask.EmitKeys ContentsKeys]. rewrite Hnever.
    destruct (FindTag data "<Contents>" from false) as [cp|e];
      [|reflexivity].
    destruct (GetTag data "<Key>" "</Key>" cp) as [tp|e]; [|reflexivity].
    specialize (IH (S k) (pos tp)).
    destruct (ListTask.EmitKeys options env data fuel (S k) (pos tp))
      as [st rest].
    cbn [snd] in *. subst rest.
    cbn [filter].
    change (negb (KeyRange_empty (range options))
            && Contains (range options) (tag tp))
      with (PassesRange options (tag tp)).
    destruct (PassesRange options (tag tp)); reflexivity.
Qed.

(** A callback that finds the task cancelled, or its answer a failure to
    retry, pushes nothing. *)
Lemma OnResponse_pushes_nothing (owner : S3KeyValueStore)
    (task : ListTask.t) (response : Result HttpResponse)
    (env : ListTask.Env) :
  ListTask.is_cancelled env 0%nat = true
  \/ (let status := match response with
                    | ROk r => HttpResponseCodeToStatus r
                    | RErr s => s
                    end in
      negb (ok status) && IsRetriable status = true) ->
  keys_pushed (snd (ListTask.OnResponse owner task response env)) = [].
Proof.
  cbv zeta. intros Hearly.
  unfold ListTask.OnResponse, ListTask.OnResponseImpl.
  destruct (ListTask.is_cancelled env 0); [reflexivity|].
  destruct Hearly as [Hc | Hretry]; [discriminate Hc|].
  rewrite Hretry. unfold BackoffForAttemptAsync.
  destruct (ListTask.attempt_ task >=? max_retries (retries owner));
    [|reflexivity].
  match goal with
  | |- context [IsCancelled ?st] => destruct (IsCancelled st), (ok st)
  end; reflexivity.
Qed.

(** The keys a callback pushes when it reads its answer as a listing are
    those its loop pushes. *)
Lemma OnResponse_keys_pushed (owner : S3KeyValueStore) (task : ListTask.t)
    (r : HttpResponse) (env : ListTask.Env)
    (Hlive : ListTask.is_cancelled env 0%nat = false)
    (Hpass : negb (ok (HttpResponseCodeToStatus r))
             && IsRetriable (HttpResponseCodeToStatus r) = false) :
  keys_pushed (snd (ListTask.OnResponse owner task (ROk r) env))
  = match FindTag (payload r) kListBucketOpenTag 0 false with
    | RErr _ => []
    | ROk start_pos =>
        match GetTag (payload r) "<KeyCount>" "</KeyCount>" start_pos with
        | RErr _ => []
        | ROk tag_and_pos =>
            match SimpleAtoi (tag tag_and_pos) with
            | None => []
            | Some keycount =>
                keys_pushed
                  (snd (ListTask.EmitKeys (ListTask.options_ task) env
                          (payload r) (Z.to_nat keycount) 0
                          (pos tag_and_pos)))
            end
        end
    end.
Proof.
  unfold ListTask.OnResponse, ListTask.OnResponseImpl.
  rewrite Hlive, Hpass.
  destruct (FindTag (payload r) kListBucketOpenTag 0 false)
    as [start_pos|e].
  2:{ destruct (IsCancelled e), (ok e); reflexivity. }
  destruct (GetTag (payload r) "<KeyCount>" "</KeyCount>" start_pos)
    as [kc|e].
  2:{ destruct (IsCancelled e), (ok e); reflexivity. }
  destruct (SimpleAtoi (tag kc)) as [keycount|]; [|reflexivity].
  destruct (EmitKeys_spec (ListTask.options_ task) env (payload r)
              (Z.to_nat keycount) 0 (pos kc)) as [keys [Hevs _]].
  destruct (ListTask.EmitKeys (ListTask.options_ task) env (payload r)
              (Z.to_nat keycount) 0 (pos kc)) as [st pushed].
  cbn [fst snd] in *. subst pushed. rewrite keys_pushed_values.
  assert (Hclosing : forall tail : list (Event unit),
             ListTail tail ->
             keys_pushed
               (map set_value
                  (map (StripPrefix (ListTask.options_ task)) keys) ++ tail)
             = map (StripPrefix (ListTask.options_ task)) keys).
  { intros tail Htail.
    rewrite (keys_pushed_app (R := unit)), keys_pushed_values,
      (keys_pushed_tail _ Htail).
    apply app_nil_r. }
  assert (Hfailed : forall (task' : ListTask.t) (e : Status),
             keys_pushed
               (snd (if IsCancelled e
                     then (task',
                           map set_value
                             (map (StripPrefix (ListTask.options_ task))
                                keys)
                           ++ [set_done; set_stopping])
                     else if negb (ok e)
                     then (task',
                           map set_value
                             (map (StripPrefix (ListTask.options_ task))
                                keys)
                           ++ [set_error e; set_stopping])
                     else (task',
                           map set_value
                             (map (StripPrefix (ListTask.options_ task))
                                keys)
                           : list (Event unit))))
             = map (StripPrefix (ListTask.options_ task)) keys).
  { intros task' e. destruct (IsCancelled e), (ok e); cbn [negb snd];
      try (apply Hclosing; constructor); apply keys_pushed_values. }
  unfold ListTask.ev in *.
  destruct (ok st) eqn:Eok; cbn [negb]; [|apply Hfailed].
  destruct (GetTag (payload r) "<IsTruncated>" "</IsTruncated>" start_pos)
    as [tr|e]; [|apply Hfailed].
  destruct (tag tr =? "true")%string.
  - destruct (GetTag (payload r) "<NextContinuationToken>"
                "</NextContinuationToken>" start_pos) as [tok|e];
      [|apply Hfailed].
    match goal with
    | |- context [ListTask.IssueRequest ?o ?t ?e ?n] =>
        pose proof (IssueRequest_tail o t e n) as Htail;
        destruct (ListTask.IssueRequest o t e n) as [task' evs]
    end.
    cbn [snd] in *. cbn. apply Hclosing. exact Htail.
  - cbn. apply Hclosing. constructor.
Qed.

(** X2.  The keys a callback of a list task pushes are read off the page
    it was answered with.  They are, in the order of the page, the keys
    of the first blocks of the page (all blocks handled before the loop
    stopped) that pass the range test against the range stored in the
    task at the time of the callback, each stripped of the prefix; every
    one of them is contained in that range.  When the receiver does not
    cancel and the answer is read as a listing, every key the page names
    is handled: the pushed keys are exactly the stripped forms of the
    keys of the page that pass the range test. *)
Theorem ListTask_pushed_keys_pass_range (owner : S3KeyValueStore)
    (task : ListTask.t) (response : Result HttpResponse)
    (env : ListTask.Env)
    (Hanswer : list_answer_ok response) :
  let options := ListTask.options_ task in
  let pushed :=
    keys_pushed (snd (ListTask.OnResponse owner task response env)) in
  let named :=
    match response with
    | ROk r => PageKeys (payload r)
    | RErr _ => []
    end in
  (exists j : nat,
      let keys := filter (PassesRange options) (firstn j named) in
      pushed = map (StripPrefix options) keys
      /\ Forall (fun key => Contains (range options) key = true) keys)
  /\ (forall r : HttpResponse,
        response = ROk r ->
        (forall n : nat, ListTask.is_cancelled env n = false) ->
        ok (HttpResponseCodeToStatus r) = true
        \/ IsRetriable (HttpResponseCodeToStatus r) = false ->
        pushed
        = map (StripPrefix options)
            (filter (PassesRange options) (PageKeys (payload r)))).
Proof.
  intros options pushed named.
  assert (Hrange : forall keys : list string,
             Forall (fun key => Contains (range options) key = true)
               (filter (PassesRange options) keys)).
  { intros keys. apply Forall_forall. intros key Hin.
    apply filter_In in Hin. destruct Hin as [_ Hp].
    unfold PassesRange in Hp. apply andb_true_iff in Hp. tauto. }
  split.
  - assert (Hnone : pushed = [] ->
               exists j : nat,
                 let keys := filter (PassesRange options) (firstn j named) in
                 pushed = map (StripPrefix options) keys
                 /\ Forall (fun key => Contains (range options) key = true)
                      keys).
    { intros E. exists 0%nat. cbv zeta. split; [exact E | constructor]. }
    destruct (ListTask.is_cancelled env 0) eqn:Hlive.
    { apply Hnone. apply OnResponse_pushes_nothing. now left. }
    destruct response as [r|s].
    2:{ apply Hnone. apply OnResponse_pushes_nothing. right.
        cbn in Hanswer. destruct Hanswer as [Hnok Hr]. cbv zeta.
        now rewrite Hnok, Hr. }
    destruct (negb (ok (HttpResponseCodeToStatus r))
              && IsRetriable (HttpResponseCodeToStatus r)) eqn:Hpass.
    { apply Hnone. apply OnResponse_pushes_nothing. right. exact Hpass. }
    subst pushed named.
    rewrite (OnResponse_keys_pushed owner task r env Hlive Hpass).
    unfold PageKeys.
    destruct (FindTag (payload r) kListBucketOpenTag 0 false)
      as [start_pos|e]; [|exists 0%nat; split; [reflexivity | constructor]].
    destruct (GetTag (payload r) "<KeyCount>" "</KeyCount>" start_pos)
      as [kc|e]; [|exists 0%nat; split; [reflexivity | constructor]].
    destruct (SimpleAtoi (tag kc)) as [keycount|];
      [|exists 0%nat; split; [reflexivity | constructor]].
    destruct (EmitKeys_page options env (payload r) (Z.to_nat keycount) 0
                (pos kc)) as [j Hj].
    exists j. cbv zeta. split; [|apply Hrange].
    fold options. rewrite Hj. apply keys_pushed_values.
  - intros r Hr Hnever Hst. subst response pushed.
    assert (Hpass : negb (ok (HttpResponseCodeToStatus r))
                    && IsRetriable (HttpResponseCodeToStatus r) = false)
      by (destruct Hst as [H | H]; rewrite H;
          [reflexivity | apply andb_false_r]).
    rewrite (OnResponse_keys_pushed owner task r env (Hnever 0%nat) Hpass).
    unfold PageKeys.
    destruct (FindTag (payload r) kListBucketOpenTag 0 false)
      as [start_pos|e]; [|reflexivity].
    destruct (GetTag (payload r) "<KeyCount>" "</KeyCount>" start_pos)
      as [kc|e]; [|reflexivity].
    destruct (SimpleAtoi (tag kc)) as [keycount|]; [|reflexivity].
    fold options.
    rewrite (EmitKeys_whole_page options env (payload r)
               (Z.to_nat keycount) 0 (pos kc) Hnever).
    apply keys_pushed_values.
Qed.

(** Without a prefix to strip, issuing a request leaves the options of the
    task as they are. *)
Lemma IssueRequest_keeps_options (owner : S3KeyValueStore)
    (task : ListTask.t) (env : ListTask.Env) (reads : nat)
    (Hstrip : strip_prefix_length (ListTask.options_ task) = 0) :
  ListTask.options_ (fst (ListTask.IssueRequest owner task env reads))
  = ListTask.options_ task.
Proof.
  unfold ListTask.IssueRequest.
  destruct (ListTask.is_cancelled env reads); [reflexivity|].
  rewrite Hstrip. cbn [Z.eqb negb andb]. rewrite andb_false_r.
  destruct (ListTask.maybe_credentials env); cbn [fst ListTask.options_];
    destruct task as [[[lo hi] n] res tok st att]; cbn in *; now subst n.
Qed.

Lemma StripPrefix_nothing (options : ListOptions) (key : string) :
  strip_prefix_length options = 0 -> StripPrefix options key = key.
Proof. unfold StripPrefix. intros E. now rewrite E. Qed.

(** A task that strips no prefix keeps its options through a callback and
    pushes only keys of its range, as they are. *)
Lemma OnResponse_without_stripping (owner : S3KeyValueStore)
    (task : ListTask.t) (response : Result HttpResponse)
    (env : ListTask.Env)
    (Hanswer : list_answer_ok response)
    (Hstrip : strip_prefix_length (ListTask.options_ task) = 0) :
  ListTask.options_ (fst (ListTask.OnResponse owner task response env))
  = ListTask.options_ task
  /\ Forall (fun key =>
               Contains (range (ListTask.options_ task)) key = true)
       (keys_pushed (snd (ListTask.OnResponse owner task response env))).
Proof.
  destruct (OnResponse_shape owner task response env Hanswer)
    as [keys [tail [E [Hin [Htail [Hopt _]]]]]].
  split.
  - destruct Hopt as [Hsame | [t0 [reads [Ht0 Hissue]]]].
    + exact Hsame.
    + rewrite Hissue, <- Ht0. apply IssueRequest_keeps_options.
      now rewrite Ht0.
  - rewrite E. unfold ListTask.ev.
    rewrite (keys_pushed_app (R := unit)), keys_pushed_values,
      (keys_pushed_tail _ Htail), app_nil_r.
    clear E. induction Hin as [|key keys Hk _ IH]; cbn.
    + constructor.
    + constructor; [|exact IH]. now rewrite StripPrefix_nothing.
Qed.

(** The keys pushed while a task is run along its chain of callbacks. *)
Lemma Run_without_stripping (owner : S3KeyValueStore)
    (inputs : list (Result HttpResponse * ListTask.Env)) :
  Forall (fun input => list_answer_ok (fst input)) inputs ->
  forall (task : ListTask.t) (pending : Pending),
    strip_prefix_length (ListTask.options_ task) = 0 ->
    Forall (fun key => Contains (range (ListTask.options_ task)) key = true)
      (keys_pushed (snd (ListTask_Run owner task pending inputs))).
Proof.
  induction 1 as [|[response env] inputs Hanswer _ IH];
    intros task pending Hstrip; [constructor|].
  cbn [ListTask_Run]. cbn [fst] in Hanswer.
  destruct pending; [| |constructor].
  - destruct (OnResponse_without_stripping owner task response env
                Hanswer Hstrip) as [Hopt Hkeys].
    destruct (ListTask.OnResponse owner task response env) as [task' evs].
    cbn [fst snd] in Hopt, Hkeys.
    specialize (IH task' (ListTask_pending evs)).
    rewrite Hopt in IH. specialize (IH Hstrip).
    destruct (ListTask_Run owner task' (ListTask_pending evs) inputs)
      as [task'' later].
    cbn [snd] in *. unfold ListTask.ev in *.
    rewrite (keys_pushed_app (R := unit)). apply Forall_app. now split.
  - unfold ListTask.Retry.
    pose proof (IssueRequest_keeps_options owner task env 0 Hstrip) as Hopt.
    pose proof (keys_pushed_tail _ (IssueRequest_tail owner task env 0))
      as Hkeys.
    destruct (ListTask.IssueRequest owner task env 0) as [task' evs].
    cbn [fst snd] in Hopt, Hkeys.
    specialize (IH task' (ListTask_pending evs)).
    rewrite Hopt in IH. specialize (IH Hstrip).
    destruct (ListTask_Run owner task' (ListTask_pending evs) inputs)
      as [task'' later].
    cbn [snd] in *. unfold ListTask.ev in *.
    rewrite (keys_pushed_app (R := unit)), Hkeys. exact IH.
Qed.

(** The keys pushed by a whole listing that strips nothing. *)
Lemma List_keys_in_range (owner : S3KeyValueStore)
    (options : ListOptions) (first : ListTask.Env)
    (inputs : list (Result HttpResponse * ListTask.Env))
    (Hstrip : strip_prefix_length options = 0)
    (Hanswers : Forall (fun input => list_answer_ok (fst input)) inputs) :
  Forall (fun key => Contains (range options) key = true)
    (keys_pushed (S3KeyValueStore_List owner options first inputs)).
Proof.
  unfold S3KeyValueStore_List, S3KeyValueStore_ListImpl.
  destruct (KeyRange_empty (range options)); [cbn; constructor|].
  unfold ListTask.Admit.
  set (task := ListTask.Mk options (endpoint_ owner ++ "/")%string "" 0 0).
  pose proof (IssueRequest_keeps_options owner task first 0 Hstrip) as Hopt.
  pose proof (keys_pushed_tail _ (IssueRequest_tail owner task first 0))
    as Hkeys.
  destruct (ListTask.IssueRequest owner task first 0) as [task' evs].
  cbn [fst snd] in Hopt, Hkeys.
  pose proof (Run_without_stripping owner inputs Hanswers task'
                (ListTask_pending (set_starting :: evs))) as Hrun.
  rewrite Hopt in Hrun. specialize (Hrun Hstrip).
  cbn [app keys_pushed]. unfold ListTask.ev in *.
  rewrite (keys_pushed_app (R := unit)), Hkeys. exact Hrun.
Qed.

(** X3.  A listing that strips no prefix ([strip_prefix_length = 0])
    pushes, over all its pages and retries, only keys that the caller's
    range contains. *)
Theorem List_without_stripping_stays_in_range (owner : S3KeyValueStore)
    (options : ListOptions) (first : ListTask.Env)
    (inputs : list (Result HttpResponse * ListTask.Env))
    (Hstrip : strip_prefix_length options = 0)
    (Hanswers : Forall (fun input => list_answer_ok (fst input)) inputs) :
  Forall (fun key => Contains (range options) key = true)
    (keys_pushed (S3KeyValueStore_List owner options first inputs)).
Proof. exact (List_keys_in_range owner options first inputs Hstrip Hanswers). Qed.

(** X20.  [DeleteRange] hands to [Delete] only keys that its range
    contains, none of them empty; for an empty range it lists nothing and
    deletes nothing. *)
Theorem DeleteRange_stays_in_range (owner : S3KeyValueStore)
    (span : KeyRange.t) (first : ListTask.Env)
    (inputs : list (Result HttpResponse * ListTask.Env))
    (Hanswers : Forall (fun input => list_answer_ok (fst input)) inputs) :
  let out := S3KeyValueStore_DeleteRange owner span first inputs in
  Forall (fun key => Contains span key = true /\ key <> "") (fst out)
  /\ (KeyRange_empty span = true ->
      fst out = [] /\ requests_issued (snd out) = []
      /\ receiver_calls (snd out) = []).
Proof.
  cbv zeta. unfold S3KeyValueStore_DeleteRange.
  destruct (KeyRange_empty span) eqn:Eempty.
  - cbn. repeat split; auto.
  - cbn [fst snd]. split; [|discriminate].
    pose proof (List_keys_in_range owner (MkListOptions span 0) first
                  inputs eq_refl Hanswers) as Hin.
    cbn [range] in Hin.
    induction Hin as [|key keys Hk _ IH]; cbn; [constructor|].
    destruct (key =? "")%string eqn:Ek; cbn; [exact IH|].
    constructor; [|exact IH]. split; [exact Hk|].
    now apply String.eqb_neq.
Qed.

Lemma Run_finished (owner : S3KeyValueStore) (task : ListTask.t)
    (inputs : list (Result HttpResponse * ListTask.Env)) :
  snd (ListTask_Run owner task Finished inputs) = [].
Proof. destruct inputs as [|[response env] rest]; reflexivity. Qed.

(** After its keys, a callback either leaves the task waiting and has made
    no further call on the receiver, or has finished the task with the two
    closing calls. *)
Lemma tail_cases (keys : list string) (tail : list (Event unit)) :
  ListTail tail ->
  (receiver_calls tail = []
   /\ ListTask_pending (map set_value keys ++ tail) <> Finished)
  \/ (ListTask_pending (map set_value keys ++ tail) = Finished
      /\ (tail = [set_done; set_stopping]
          \/ exists e, tail = [set_error e; set_stopping])).
Proof.
  unfold ListTask_pending.
  intros []; rewrite requests_issued_values, retries_scheduled_values; cbn.
  - left. split; [reflexivity | discriminate].
  - left. split; [reflexivity | discriminate].
  - right. split; [reflexivity | now left].
  - right. split; [reflexivity | right; eauto].
Qed.

Lemma Run_receiver_calls (owner : S3KeyValueStore)
    (inputs : list (Result HttpResponse * ListTask.Env)) :
  Forall (fun input => list_answer_ok (fst input)) inputs ->
  forall (task : ListTask.t) (pending : Pending),
  exists keys closing,
    receiver_calls (snd (ListTask_Run owner task pending inputs))
    = map set_value keys ++ closing
    /\ (closing = [] \/ closing = [set_done; set_stopping]
        \/ exists e, closing = [set_error e; set_stopping]).
Proof.
  induction 1 as [|[response env] inputs Hanswer _ IH]; intros task pending.
  { exists [], []. cbn. auto. }
  cbn [fst] in Hanswer.
  assert (Hstep : forall (task' : ListTask.t) (ks : list string)
                         (tail : list (Event unit)),
             ListTail tail ->
             exists keys closing,
               receiver_calls
                 ((map set_value ks ++ tail)
                  ++ snd (ListTask_Run owner task'
                            (ListTask_pending (map set_value ks ++ tail))
                            inputs))
               = map set_value keys ++ closing
               /\ (closing = [] \/ closing = [set_done; set_stopping]
                   \/ exists e, closing = [set_error e; set_stopping])).
  { intros task' ks tail Htail.
    rewrite !(receiver_calls_app (R := unit)), receiver_calls_values.
    destruct (tail_cases ks tail Htail) as [[Hquiet _] | [Hfin Hclosing]].
    - rewrite Hquiet.
      destruct (IH task' (ListTask_pending (map set_value ks ++ tail)))
        as [keys [closing [E Hc]]].
      rewrite E. exists (ks ++ keys), closing.
      rewrite map_app, app_nil_r, app_assoc. auto.
    - rewrite Hfin, Run_finished. cbn [receiver_calls]. rewrite app_nil_r.
      exists ks, (receiver_calls tail). split; [reflexivity|].
      destruct Hclosing as [E | [e E]]; subst tail; cbn; eauto. }
  cbn [ListTask_Run]. destruct pending.
  - destruct (OnResponse_shape owner task response env Hanswer)
      as [ks0 [tail [E [_ [Htail _]]]]].
    set (ks := map (StripPrefix (ListTask.options_ task)) ks0) in *.
    destruct (ListTask.OnResponse owner task response env) as [task' evs].
    cbn [snd] in E. subst evs.
    specialize (Hstep task' ks tail Htail).
    destruct (ListTask_Run owner task'
                (ListTask_pending (map set_value ks ++ tail)) inputs)
      as [task'' later].
    exact Hstep.
  - unfold ListTask.Retry.
    pose proof (IssueRequest_tail owner task env 0) as Htail.
    destruct (ListTask.IssueRequest owner task env 0) as [task' tail].
    cbn [snd] in Htail.
    specialize (Hstep task' [] tail Htail). cbn [map app] in Hstep.
    destruct (ListTask_Run owner task' (ListTask_pending tail) inputs)
      as [task'' later].
    exact Hstep.
  - exists [], []. cbn. auto.
Qed.

(** X4.  The flow receiver protocol over a whole listing: the calls made
    on the receiver are [set_starting], then pushed keys, then either
    nothing yet (the listing waits for an answer that has not come) or
    one of [set_done] and [set_error] followed by [set_stopping], after
    which no call is made. *)
Theorem List_receiver_protocol (owner : S3KeyValueStore)
    (options : ListOptions) (first : ListTask.Env)
    (inputs : list (Result HttpResponse * ListTask.Env))
    (Hanswers : Forall (fun input => list_answer_ok (fst input)) inputs) :
  exists keys closing,
    receiver_calls (S3KeyValueStore_List owner options first inputs)
    = set_starting :: map set_value keys ++ closing
    /\ (closing = [] \/ closing = [set_done; set_stopping]
        \/ exists e, closing = [set_error e; set_stopping]).
Proof.
  unfold S3KeyValueStore_List, S3KeyValueStore_ListImpl.
  destruct (KeyRange_empty (range options)).
  { exists [], [set_done; set_stopping]. cbn. auto. }
  unfold ListTask.Admit.
  set (task := ListTask.Mk options (endpoint_ owner ++ "/")%string "" 0 0).
  pose proof (IssueRequest_tail owner task first 0) as Htail.
  destruct (ListTask.IssueRequest owner task first 0) as [task' tail].
  cbn [snd] in Htail. cbn [app receiver_calls].
  assert (Hpending : ListTask_pending (set_starting :: tail)
                     = ListTask_pending (map set_value [] ++ tail))
    by reflexivity.
  rewrite Hpending. unfold ListTask.ev in *.
  rewrite (receiver_calls_app (R := unit)).
  destruct (tail_cases [] tail Htail) as [[Hquiet _] | [Hfin Hclosing]].
  - rewrite Hquiet. cbn [app].
    destruct (Run_receiver_calls owner inputs Hanswers task'
                (ListTask_pending (map set_value [] ++ tail)))
      as [keys [closing [E Hc]]].
    exists keys, closing. split; [|exact Hc].
    now rewrite E.
  - rewrite Hfin, Run_finished. cbn [receiver_calls]. rewrite app_nil_r.
    exists [], (receiver_calls tail). split; [reflexivity|].
    destruct Hclosing as [E | [e E]]; subst tail; cbn; eauto.
Qed.

(** A cancellation seen before block [k + i] ends the loop there: it
    returns Cancelled or an earlier tag error, and has pushed at most [i]
    keys. *)
Lemma EmitKeys_cancelled (options : ListOptions) (env : ListTask.Env)
    (payload : string) (i : nat) :
  forall (fuel k from : nat),
    (i < fuel)%nat ->
    ListTask.is_cancelled env (S (k + i)) = true ->
    ok (fst (ListTask.EmitKeys options env payload fuel k from)) = false
    /\ (List.length
          (keys_pushed (snd (ListTask.EmitKeys options env payload fuel k from)))
        <= i)%nat.
Proof.
  induction i as [|i IH]; intros fuel k from Hlt Hcancel.
  - destruct fuel as [|fuel]; [inversion Hlt|].
    cbn [ListTask.EmitKeys]. rewrite Nat.add_0_r in Hcancel.
    rewrite Hcancel. cbn. auto.
  - destruct fuel as [|fuel]; [inversion Hlt|].
    cbn [ListTask.EmitKeys].
    destruct (ListTask.is_cancelled env (S k)); [cbn; auto with arith|].
    destruct (FindTag payload "<Contents>" from false) as [cp|e] eqn:Ec.
    2:{ cbn. apply FindTag_error in Ec.
        destruct (invalid_argument_not_ok _ Ec). auto with arith. }
    destruct (GetTag payload "<Key>" "</Key>" cp) as [tp|e] eqn:Ek.
    2:{ cbn. apply GetTag_error in Ek.
        destruct (invalid_argument_not_ok _ Ek). auto with arith. }
    assert (Hc : ListTask.is_cancelled env (S (S k + i)) = true).
    { replace (S k + i)%nat with (k + S i)%nat by lia. exact Hcancel. }
    destruct (IH fuel (S k) (pos tp) ltac:(lia) Hc) as [Hst Hlen].
    destruct (ListTask.EmitKeys options env payload fuel (S k) (pos tp))
      as [st rest].
    cbn [fst snd] in *. split; [exact Hst|].
    unfold ListTask.ev in *. rewrite (keys_pushed_app (R := unit)).
    rewrite length_app.
    destruct (negb (KeyRange_empty (range options))
              && Contains (range options) (tag tp)); cbn; lia.
Qed.

(** X5.  Cancellation inside a page.  When the page announces [n] blocks
    and the cancel flag is found set at the load before block [j] (with
    [j < n]), the callback pushes at most [j] keys, issues no request,
    schedules no retry, and closes the receiver: its last two calls are
    [set_done] or [set_error], then [set_stopping]. *)
Theorem ListTask_cancel_inside_page (owner : S3KeyValueStore)
    (task : ListTask.t) (r : HttpResponse) (env : ListTask.Env)
    (start_pos : nat) (kc : TagAndPosition) (n : Z) (j : nat)
    (Hlive : ListTask.is_cancelled env 0%nat = false)
    (Hstatus : (negb (ok (HttpResponseCodeToStatus r))
                && IsRetriable (HttpResponseCodeToStatus r)) = false)
    (Hstart : FindTag (payload r) kListBucketOpenTag 0 false = ROk start_pos)
    (Hcount : GetTag (payload r) "<KeyCount>" "</KeyCount>" start_pos
              = ROk kc)
    (Hn : SimpleAtoi (tag kc) = Some n)
    (Hj : (j < Z.to_nat n)%nat)
    (Hcancel : ListTask.is_cancelled env (S j) = true) :
  let out := ListTask.OnResponse owner task (ROk r) env in
  fst out = task
  /\ (List.length (keys_pushed (snd out)) <= j)%nat
  /\ requests_issued (snd out) = []
  /\ retries_scheduled (snd out) = []
  /\ exists keys closing,
      snd out = map set_value keys ++ closing
      /\ (closing = [set_done; set_stopping]
          \/ exists e, closing = [set_error e; set_stopping]).
Proof.
  intros out. subst out.
  unfold ListTask.OnResponse, ListTask.OnResponseImpl.
  rewrite Hlive, Hstatus, Hstart, Hcount, Hn.
  destruct (EmitKeys_cancelled (ListTask.options_ task) env (payload r) j
              (Z.to_nat n) 0 (pos kc) Hj Hcancel) as [Hst Hlen].
  destruct (EmitKeys_spec (ListTask.options_ task) env (payload r)
              (Z.to_nat n) 0 (pos kc)) as [keys [Hevs _]].
  destruct (ListTask.EmitKeys (ListTask.options_ task) env (payload r)
              (Z.to_nat n) 0 (pos kc)) as [st pushed].
  cbn [fst snd] in *. rewrite Hst. cbn [negb].
  subst pushed. unfold ListTask.ev in *.
  destruct (IsCancelled st); [|rewrite Hst]; cbn [negb fst snd];
    rewrite (keys_pushed_app (R := unit)), length_app,
      requests_issued_values, retries_scheduled_values; cbn;
    (split; [reflexivity|]); (split; [lia|]);
    (split; [reflexivity|]); (split; [reflexivity|]);
    eexists _, _; (split; [reflexivity|]); eauto.
Qed.

(** X17.  Every page has the whole retry budget: when a callback of a
    list task goes on to request the next page, the attempt number of the
    task is zero again, whatever it was before. *)
Theorem ListTask_next_page_resets_attempts (owner : S3KeyValueStore)
    (task : ListTask.t) (response : Result HttpResponse)
    (env : ListTask.Env)
    (Hanswer : list_answer_ok response)
    (Hnext : requests_issued (snd (ListTask.OnResponse owner task response env))
             <> []) :
  ListTask.attempt_ (fst (ListTask.OnResponse owner task response env)) = 0.
Proof.
  destruct (OnResponse_shape owner task response env Hanswer)
    as [keys [tail [E [_ [_ [_ Hatt]]]]]].
  apply Hatt. rewrite E in Hnext. unfold ListTask.ev in *.
  now rewrite requests_issued_values in Hnext.
Qed.

End ListProperties.

(** ** Read, write and delete tasks *)

Lemma aborted_not_ok (status : Status) (text : string) :
  ok status = false -> ok (MaybeAnnotateStatus status text kAborted) = false.
Proof. unfold MaybeAnnotateStatus. intros E. now rewrite E. Qed.

Section PointProperties.
Context {ext : Externals}.

(** X6.  The request of a read attempt: one GET for the task's URL, with
    the if-none-match header of [if_not_equal] followed by the if-match
    header of [if_equal] (a header is left out for Unknown and carries the
    empty ETag for NoValue), accept-encoding on, the byte range passed to
    the builder, the hash of the empty payload, and signed for the clock
    reading that becomes [start_time_].  Without credentials the request
    is built with empty ones. *)
Theorem ReadTask_request (owner : S3KeyValueStore) (task : ReadTask.t)
    (credentials : option S3Credentials) (now : Time) :
  ReadTask.Retry owner task true (ROk credentials) now
  = (ReadTask.Mk (ReadTask.read_url task) (ReadTask.options task)
       (ReadTask.attempt_ task) now,
     [IssueRequest
        (MkRequest "GET" (ReadTask.read_url task) []
           (GenerationHeader "if-none-match"
              (if_not_equal (ReadTask.options task))
            ++ GenerationHeader "if-match"
                 (read_if_equal (ReadTask.options task)))
           true (requester_pays owner)
           (Some (byte_range (ReadTask.options task)))
           (host_ owner)
           match credentials with Some c => c | None => NoCredentials end
           (aws_region_ owner) kEmptySha256 now)
        ""]).
Proof.
  unfold ReadTask.Retry. cbn [negb].
  destruct (if_not_equal (ReadTask.options task)),
    (read_if_equal (ReadTask.options task)); reflexivity.
Qed.

(** X7.  The first request of a write or delete attempt.  Without a
    precondition ([if_equal] Unknown) it is the PUT, carrying the value,
    its content type and length and the hash of the value, or the DELETE;
    the clock reading becomes [start_time_].  With a precondition it is a
    HEAD for the same URL with the if-match header and no body, and
    [start_time_] is left alone.  In both cases it is the only effect. *)
Theorem Mutation_first_request (owner : S3KeyValueStore)
    (w : WriteTask.t) (d : DeleteTask.t)
    (credentials : option S3Credentials) (now : Time)
    (Hvalid : IsValidStorageGeneration (if_equal (DeleteTask.options d))
              = true) :
  let url :=
    (endpoint_ owner ++ "/" ++ WriteTask.encoded_object_name w)%string in
  let wc := match credentials with
            | Some c => c
            | None => WriteTask.credentials_ w
            end in
  let dc := match credentials with
            | Some c => c
            | None => DeleteTask.credentials_ d
            end in
  let probe (target : string) (g : StorageGeneration.t)
        (c : S3Credentials) :=
    MkRequest "HEAD" target [] (GenerationHeader "if-match" g) false
      (requester_pays owner) None (host_ owner) c (aws_region_ owner)
      kEmptySha256 now in
  let wout := WriteTask.Retry owner w true (ROk credentials) now in
  let dout := DeleteTask.Retry owner d true (ROk credentials) now in
  (if StorageGeneration.IsUnknown (if_equal (WriteTask.options w)) then
     snd wout
     = [IssueRequest
          (MkRequest "PUT" url []
             ["Content-Type: application/octet-stream";
              ("Content-Length: "
               ++ itoa (Z.of_nat (String.length (WriteTask.value w))))%string]
             false (requester_pays owner) None (host_ owner) wc
             (aws_region_ owner) (Sha256HexOf (WriteTask.value w)) now)
          (WriteTask.value w)]
     /\ WriteTask.start_time_ (fst wout) = now
   else
     snd wout
     = [IssueRequest (probe url (if_equal (WriteTask.options w)) wc) ""]
     /\ WriteTask.start_time_ (fst wout) = WriteTask.start_time_ w)
  /\ (if StorageGeneration.IsUnknown (if_equal (DeleteTask.options d)) then
        snd dout
        = [IssueRequest
             (MkRequest "DELETE" (DeleteTask.resource d) [] [] false
                (requester_pays owner) None (host_ owner) dc
                (aws_region_ owner) kEmptySha256 now)
             ""]
        /\ DeleteTask.start_time_ (fst dout) = now
      else
        snd dout
        = [IssueRequest
             (probe (DeleteTask.resource d)
                (if_equal (DeleteTask.options d)) dc) ""]
        /\ DeleteTask.start_time_ (fst dout) = DeleteTask.start_time_ d).
Proof.
  cbv zeta. split.
  - unfold WriteTask.Retry, WriteTask.DoPut. cbn [negb].
    destruct credentials; cbn;
      destruct (if_equal (WriteTask.options w)); cbn; split; reflexivity.
  - unfold DeleteTask.Retry, DeleteTask.DoDelete. cbn [negb].
    rewrite Hvalid. cbn [negb].
    destruct credentials; cbn;
      destruct (if_equal (DeleteTask.options d)); cbn; split; reflexivity.
Qed.

(** X8.  Every callback of a read, write or delete task whose result is
    still needed hands the task on exactly once: it issues one request, or
    schedules one retry, or resolves the promise once, and never two of
    these.  A callback whose result is no longer needed does nothing.  The
    answers are results as the transport delivers them. *)
Theorem Callbacks_hand_on_once (owner : S3KeyValueStore)
    (response : Result HttpResponse) (env : BackoffEnv)
    (credentials : Result (option S3Credentials)) (now later : Time)
    (Hresponse : well_formed response) :
  (forall r : ReadTask.t,
      handoffs (snd (ReadTask.Retry owner r true credentials now)) = 1%nat
      /\ handoffs (snd (ReadTask.OnResponse owner r true response env now))
         = 1%nat
      /\ snd (ReadTask.Retry owner r false credentials now) = []
      /\ snd (ReadTask.OnResponse owner r false response env now) = [])
  /\ (forall w : WriteTask.t,
        handoffs (snd (WriteTask.Retry owner w true credentials now)) = 1%nat
        /\ handoffs (snd (WriteTask.OnPeekResponse owner w response now later))
           = 1%nat
        /\ handoffs (snd (WriteTask.OnResponse owner w true response env now))
           = 1%nat
        /\ snd (WriteTask.Retry owner w false credentials now) = []
        /\ snd (WriteTask.OnResponse owner w false response env now) = [])
  /\ (forall d : DeleteTask.t,
        handoffs (snd (DeleteTask.Retry owner d true credentials now)) = 1%nat
        /\ handoffs (snd (DeleteTask.OnPeekResponse owner d response now later))
           = 1%nat
        /\ handoffs (snd (DeleteTask.OnResponse owner d true response env))
           = 1%nat
        /\ snd (DeleteTask.Retry owner d false credentials now) = []
        /\ snd (DeleteTask.OnResponse owner d false response env) = []).
Proof.
  assert (Hbackoff : forall (R : Type) (status : Status) (n : Z),
             ok status = false ->
             let out := BackoffForAttemptAsync (R := R) owner status n env in
             (ok (fst out) = true /\ handoffs (snd out) = 1%nat)
             \/ (ok (fst out) = false /\ snd out = [])).
  { intros R status n Hnok. unfold BackoffForAttemptAsync.
    destruct (n >=? max_retries (retries owner)); cbn.
    - right. split; [now apply aborted_not_ok | reflexivity].
    - left. split; reflexivity. }
  split; [|split].
  - intros r. split; [|split; [|split; reflexivity]].
    + unfold ReadTask.Retry. cbn [negb]. destruct credentials; reflexivity.
    + unfold ReadTask.OnResponse. cbn [negb].
      set (status := ReadTask.ResponseStatus response).
      destruct (ok status) eqn:Eok; cbn [negb andb].
      * destruct response as [resp|s].
        -- destruct (ReadTask.FinishResponse r resp now) as [res fevs] eqn:E.
           unfold ReadTask.FinishResponse in E. inversion E. reflexivity.
        -- cbn in Hresponse. subst status. cbn in Eok.
           rewrite Hresponse in Eok. discriminate Eok.
      * destruct (IsRetriable status); [|reflexivity].
        destruct (Hbackoff ReadResult status (ReadTask.attempt_ r) Eok)
          as [[Ho Hh] | [Ho Hh]];
          destruct (BackoffForAttemptAsync owner status (ReadTask.attempt_ r)
                      env) as [st evs];
          cbn [fst snd] in *; rewrite Ho; cbn [negb fst snd].
        -- exact Hh.
        -- subst evs. reflexivity.
  - intros w. split; [|split; [|split; [|split; reflexivity]]].
    + unfold WriteTask.Retry, WriteTask.DoPut. cbn [negb].
      destruct credentials as [[c|]|s]; cbn;
        try destruct (StorageGeneration.IsUnknown
                        (if_equal (WriteTask.options w))); reflexivity.
    + unfold WriteTask.OnPeekResponse, WriteTask.DoPut.
      destruct response as [resp|s]; [|reflexivity].
      destruct ((status_code resp =? 304) || (status_code resp =? 412));
        [reflexivity|].
      destruct ((status_code resp =? 404)
                && negb (StorageGeneration.IsUnknown
                           (if_equal (WriteTask.options w)))
                && negb (StorageGeneration.IsNoValue
                           (if_equal (WriteTask.options w)))); reflexivity.
    + unfold WriteTask.OnResponse. cbn [negb].
      set (status := WriteTask.ResponseStatus response).
      destruct (ok status) eqn:Eok; cbn [negb andb].
      * destruct response as [resp|s].
        -- unfold WriteTask.FinishResponse.
           destruct ((status_code resp =? 404)
                     && negb (StorageGeneration.IsUnknown
                                (if_equal (WriteTask.options w))));
             reflexivity.
        -- cbn in Hresponse. subst status. cbn in Eok.
           rewrite Hresponse in Eok. discriminate Eok.
      * destruct (IsRetriable status); [|reflexivity].
        destruct (Hbackoff TimestampedStorageGeneration status
                    (WriteTask.attempt_ w) Eok) as [[Ho Hh] | [Ho Hh]];
          destruct (BackoffForAttemptAsync owner status
                      (WriteTask.attempt_ w) env) as [st evs];
          cbn [fst snd] in *; rewrite Ho; cbn [negb fst snd].
        -- exact Hh.
        -- subst evs. reflexivity.
  - intros d. split; [|split; [|split; [|split; reflexivity]]].
    + unfold DeleteTask.Retry, DeleteTask.DoDelete. cbn [negb].
      destruct (IsValidStorageGeneration (if_equal (DeleteTask.options d)));
        [|reflexivity].
      destruct credentials as [[c|]|s]; cbn;
        try destruct (StorageGeneration.IsUnknown
                        (if_equal (DeleteTask.options d))); reflexivity.
    + unfold DeleteTask.OnPeekResponse, DeleteTask.DoDelete.
      destruct response as [resp|s]; [|reflexivity].
      destruct (status_code resp =? 412); [reflexivity|].
      destruct ((status_code resp =? 404)
                && negb (StorageGeneration.IsUnknown
                           (if_equal (DeleteTask.options d)))
                && negb (StorageGeneration.IsNoValue
                           (if_equal (DeleteTask.options d)))); reflexivity.
    + unfold DeleteTask.OnResponse. cbn [negb].
      set (status := DeleteTask.ResponseStatus response).
      destruct (ok status) eqn:Eok; cbn [negb andb].
      * destruct response as [resp|s]; [reflexivity|].
        cbn in Hresponse. subst status. cbn in Eok.
        rewrite Hresponse in Eok. discriminate Eok.
      * destruct (IsRetriable status); [|reflexivity].
        destruct (Hbackoff TimestampedStorageGeneration status
                    (DeleteTask.attempt_ d) Eok) as [[Ho Hh] | [Ho Hh]];
          destruct (BackoffForAttemptAsync owner status
                      (DeleteTask.attempt_ d) env) as [st evs];
          cbn [fst snd] in *; rewrite Ho; cbn [negb fst snd].
        -- exact Hh.
        -- subst evs. reflexivity.
Qed.

(** One failed attempt that is retried: the effects it adds and the task
    it leaves. *)
Lemma Run_retried_attempt (owner : S3KeyValueStore) (task : ReadTask.t)
    (a : ReadAttempt) (rest : list ReadAttempt)
    (Hfail : retriable_failure a)
    (Hbudget : ReadTask.attempt_ task < max_retries (retries owner)) :
  exists request at_time,
    ReadTask_Run owner task (a :: rest)
    = (fst (ReadTask_Run owner
              (ReadTask.Mk (ReadTask.read_url task) (ReadTask.options task)
                 (ReadTask.attempt_ task + 1) (issued_at a)) rest),
       [IssueRequest request ""; Increment s3_retries; ScheduleRetry at_time]
       ++ snd (ReadTask_Run owner
                 (ReadTask.Mk (ReadTask.read_url task) (ReadTask.options task)
                    (ReadTask.attempt_ task + 1) (issued_at a)) rest)).
Proof.
  destruct Hfail as [Hcred [Hnok Hretry]].
  destruct (attempt_credentials a) as [oc|s] eqn:Ecred; [|discriminate Hcred].
  cbn [ReadTask_Run]. rewrite Ecred.
  unfold ReadTask.Retry at 1. cbn [negb requests_issued].
  unfold ReadTask.OnResponse. cbn [negb].
  rewrite Hnok, Hretry. cbn [negb andb ReadTask.attempt_].
  unfold BackoffForAttemptAsync.
  assert (E : (ReadTask.attempt_ task >=? max_retries (retries owner)) = false)
    by (rewrite Z.geb_leb; apply Z.leb_gt; lia).
  rewrite E. cbn [ok code OkStatus StatusCode_eqb retries_scheduled Increment].
  cbn [ReadTask.read_url ReadTask.options ReadTask.attempt_
       ReadTask.start_time_].
  destruct (ReadTask_Run owner
              (ReadTask.Mk (ReadTask.read_url task) (ReadTask.options task)
                 (ReadTask.attempt_ task + 1) (issued_at a)) rest)
    as [task' later].
  eexists _, _. reflexivity.
Qed.

(** X9.  Retry accounting of a read.  When the first [n] attempts each end
    in a retriable failure, the budget allows them
    ([attempt_ + n <= max_retries]) and the next attempt is answered with a
    response classified ok, the task has issued [n + 1] requests, added
    exactly [n] to the retries counter, scheduled [n] retries, observed the
    read latency once, and resolved the promise once, with the result of
    [FinishResponse] on the last answer and the time of the last request. *)
Theorem ReadTask_retry_accounting (owner : S3KeyValueStore)
    (fails : list ReadAttempt) :
  Forall retriable_failure fails ->
  forall (task : ReadTask.t) (last : ReadAttempt) (r : HttpResponse),
    result_ok (attempt_credentials last) = true ->
    answer last = ROk r ->
    ok (ReadTask.ResponseStatus (ROk r)) = true ->
    ReadTask.attempt_ task + Z.of_nat (List.length fails)
    <= max_retries (retries owner) ->
    let out := ReadTask_Run owner task (fails ++ [last]) in
    let final :=
      ReadTask.Mk (ReadTask.read_url task) (ReadTask.options task)
        (ReadTask.attempt_ task + Z.of_nat (List.length fails))
        (issued_at last) in
    fst out = final
    /\ List.length (requests_issued (snd out)) = S (List.length fails)
    /\ counter_delta s3_retries (snd out) = Z.of_nat (List.length fails)
    /\ List.length (retries_scheduled (snd out)) = List.length fails
    /\ observations s3_read_latency_ms (snd out) = 1%nat
    /\ results_set (snd out)
       = [fst (ReadTask.FinishResponse final r (answered_at last))].
Proof.
  induction 1 as [|a fails Ha _ IH];
    intros task last r Hcred Hanswer Hok Hbudget out final.
  - subst out final. cbn [app List.length Z.of_nat].
    destruct (attempt_credentials last) as [oc|s] eqn:Ecred;
      [|discriminate Hcred].
    cbn [ReadTask_Run]. rewrite Ecred.
    unfold ReadTask.Retry at 1. cbn [negb requests_issued].
    unfold ReadTask.OnResponse. cbn [negb]. rewrite Hanswer, Hok.
    cbn [negb andb].
    unfold ReadTask.FinishResponse.
    cbn [ReadTask.read_url ReadTask.options ReadTask.attempt_
         ReadTask.start_time_ fst snd app retries_scheduled].
    rewrite Z.add_0_r. repeat split; reflexivity.
  - cbn [List.length] in Hbudget. rewrite Nat2Z.inj_succ in Hbudget.
    destruct (Run_retried_attempt owner task a (fails ++ [last]) Ha
                ltac:(lia)) as [request [at_time Erun]].
    set (next := ReadTask.Mk (ReadTask.read_url task) (ReadTask.options task)
                   (ReadTask.attempt_ task + 1) (issued_at a)) in *.
    specialize (IH next last r Hcred Hanswer Hok).
    cbn [ReadTask.attempt_ ReadTask.read_url ReadTask.options next] in IH.
    specialize (IH ltac:(subst next; cbn; lia)).
    cbv zeta in IH. destruct IH as [Hf [Hreq [Hcount [Hsched [Hobs Hres]]]]].
    subst out final. cbn [app List.length].
    change ((a :: fails) ++ [last]) with (a :: fails ++ [last]).
    rewrite Erun. cbn [fst snd].
    replace (ReadTask.attempt_ task + Z.of_nat (S (List.length fails)))
      with (ReadTask.attempt_ task + 1 + Z.of_nat (List.length fails))
      by lia.
    split; [exact Hf|].
    cbn [app requests_issued counter_delta retries_scheduled observations
         results_set Increment Counter_eqb List.length].
    rewrite Hreq, Hcount, Hsched, Hobs, Hres.
    repeat split; try reflexivity. lia.
Qed.

(** One failed attempt with no retry left: the request and the error the
    promise is resolved with. *)
Lemma Run_exhausted_attempt (owner : S3KeyValueStore) (task : ReadTask.t)
    (a : ReadAttempt) (rest : list ReadAttempt)
    (Hfail : retriable_failure a)
    (Hbudget : ReadTask.attempt_ task >= max_retries (retries owner)) :
  exists request e,
    ReadTask_Run owner task (a :: rest)
    = (ReadTask.Mk (ReadTask.read_url task) (ReadTask.options task)
         (ReadTask.attempt_ task + 1) (issued_at a),
       [IssueRequest request ""; SetResult (RErr e)])
    /\ code e = kAborted.
Proof.
  destruct Hfail as [Hcred [Hnok Hretry]].
  destruct (attempt_credentials a) as [oc|s] eqn:Ecred; [|discriminate Hcred].
  cbn [ReadTask_Run]. rewrite Ecred.
  unfold ReadTask.Retry at 1. cbn [negb requests_issued].
  unfold ReadTask.OnResponse. cbn [negb].
  rewrite Hnok, Hretry. cbn [negb andb ReadTask.attempt_].
  unfold BackoffForAttemptAsync.
  assert (E : (ReadTask.attempt_ task >=? max_retries (retries owner)) = true)
    by (rewrite Z.geb_leb; apply Z.leb_le; lia).
  rewrite E. rewrite (aborted_not_ok _ _ Hnok). cbn [negb app].
  cbn [retries_scheduled ReadTask.read_url ReadTask.options
       ReadTask.attempt_ ReadTask.start_time_].
  eexists _, _. split; [reflexivity|].
  unfold MaybeAnnotateStatus. now rewrite Hnok.
Qed.

(** X10.  Exhaustion of the retry budget of a read.  When every attempt
    ends in a retriable failure and [m] retries are left
    ([attempt_ + m = max_retries]), the task issues [m + 1] requests, adds
    [m] to the retries counter, never observes a latency, and resolves the
    promise once, with an error of code Aborted; answers beyond the
    [m + 1]-th are not consumed. *)
Theorem ReadTask_retry_exhaustion (owner : S3KeyValueStore) (m : nat) :
  forall (task : ReadTask.t) (attempts : list ReadAttempt),
    Forall retriable_failure attempts ->
    (m < List.length attempts)%nat ->
    ReadTask.attempt_ task + Z.of_nat m = max_retries (retries owner) ->
    let out := ReadTask_Run owner task attempts in
    List.length (requests_issued (snd out)) = S m
    /\ counter_delta s3_retries (snd out) = Z.of_nat m
    /\ observations s3_read_latency_ms (snd out) = 0%nat
    /\ ReadTask.attempt_ (fst out) = max_retries (retries owner) + 1
    /\ exists e, results_set (snd out) = [RErr e] /\ code e = kAborted.
Proof.
  induction m as [|m IH]; intros task attempts Hfails Hlen Hbudget out.
  - destruct attempts as [|a rest]; [inversion Hlen|].
    inversion Hfails as [|? ? Ha _]; subst.
    destruct (Run_exhausted_attempt owner task a rest Ha
                ltac:(cbn in Hbudget; lia)) as [request [e [Erun Hcode]]].
    subst out. rewrite Erun. cbn [fst snd].
    cbn [requests_issued counter_delta observations results_set
         List.length ReadTask.attempt_].
    repeat split; try reflexivity; [cbn in Hbudget; lia|].
    exists e. auto.
  - destruct attempts as [|a rest]; [inversion Hlen|].
    inversion Hfails as [|? ? Ha Hrest]; subst.
    rewrite Nat2Z.inj_succ in Hbudget.
    destruct (Run_retried_attempt owner task a rest Ha ltac:(lia))
      as [request [at_time Erun]].
    set (next := ReadTask.Mk (ReadTask.read_url task) (ReadTask.options task)
                   (ReadTask.attempt_ task + 1) (issued_at a)) in *.
    specialize (IH next rest Hrest ltac:(cbn in Hlen; lia)
                  ltac:(subst next; cbn; lia)).
    cbv zeta in IH.
    destruct IH as [Hreq [Hcount [Hobs [Hatt [e [Hres Hcode]]]]]].
    subst out. rewrite Erun. cbn [fst snd].
    cbn [app requests_issued counter_delta retries_scheduled observations
         results_set Increment Counter_eqb List.length].
    rewrite Hreq, Hcount, Hobs, Hatt, Hres.
    repeat split; try reflexivity; [lia|]. exists e. auto.
Qed.

(** X11.  Credentials across attempts.  A write (or delete) task keeps the
    credentials of an earlier attempt: when a later attempt finds none,
    its request is still built with the earlier ones.  A read task builds
    the request of each attempt with what that attempt found, and with
    empty credentials when it found none. *)
Theorem Credentials_across_attempts (owner : S3KeyValueStore)
    (c : S3Credentials) (now later : Time) :
  (forall w : WriteTask.t,
      let first := fst (WriteTask.Retry owner w true (ROk (Some c)) now) in
      map req_credentials
        (requests_issued (snd (WriteTask.Retry owner first true (ROk None)
                                 later)))
      = [c])
  /\ (forall d : DeleteTask.t,
        IsValidStorageGeneration (if_equal (DeleteTask.options d)) = true ->
        let first := fst (DeleteTask.Retry owner d true (ROk (Some c)) now) in
        map req_credentials
          (requests_issued (snd (DeleteTask.Retry owner first true (ROk None)
                                   later)))
        = [c])
  /\ (forall r : ReadTask.t,
        let first := fst (ReadTask.Retry owner r true (ROk (Some c)) now) in
        map req_credentials
          (requests_issued (snd (ReadTask.Retry owner first true (ROk None)
                                   later)))
        = [NoCredentials]).
Proof.
  split; [|split].
  - intros w. cbv zeta. unfold WriteTask.Retry, WriteTask.DoPut. cbn [negb].
    destruct (if_equal (WriteTask.options w)) eqn:E;
      cbn; repeat (rewrite E; cbn); reflexivity.
  - intros d Hvalid. cbv zeta.
    unfold DeleteTask.Retry, DeleteTask.DoDelete. cbn [negb].
    rewrite Hvalid. cbn [negb].
    destruct (if_equal (DeleteTask.options d)) eqn:E;
      cbn; repeat (first [rewrite E | rewrite Hvalid]; cbn); reflexivity.
  - intros r. reflexivity.
Qed.


(** X18.  The answer that completes a write.  A PUT answered with a
    status the helper reports ok (and not the 404 of a conditional write)
    observes the write latency once, adds the size of the value to the
    bytes-written counter, and resolves the promise with the generation
    of the response headers and the time the PUT was issued at; when the
    headers carry no generation the promise gets that error, and the
    metrics are recorded all the same. *)
Theorem WriteTask_completion (owner : S3KeyValueStore) (task : WriteTask.t)
    (r : HttpResponse) (env : BackoffEnv) (now : Time)
    (Hok : ok (HttpResponseCodeToStatus r) = true)
    (Hcode : status_code r <> 404
             \/ if_equal (WriteTask.options task)
                = StorageGeneration.Unknown) :
  WriteTask.OnResponse owner task true (ROk r) env now
  = (task,
     [Observe s3_write_latency_ms
        (ToInt64Milliseconds (now - WriteTask.start_time_ task));
      IncrementBy s3_bytes_written
        (Z.of_nat (String.length (WriteTask.value task)));
      SetResult
        match StorageGenerationFromHeaders (headers r) with
        | ROk g => ROk (MkStamp g (WriteTask.start_time_ task))
        | RErr e => RErr e
        end]).
Proof.
  unfold WriteTask.OnResponse, WriteTask.ResponseStatus,
    WriteTask.FinishResponse.
  cbn [negb]. rewrite Hok. cbn [negb andb].
  assert (E : (status_code r =? 404)
              && negb (StorageGeneration.IsUnknown
                         (if_equal (WriteTask.options task))) = false).
  { destruct Hcode as [Hc | Hc].
    - apply Z.eqb_neq in Hc. now rewrite Hc.
    - rewrite Hc. apply andb_false_r. }
  rewrite E. cbn [app]. unfold bindR.
  destruct (StorageGenerationFromHeaders (headers r)); reflexivity.
Qed.

(** X19.  A read answered with the whole object.  For a response the
    helper reports ok whose status is none of 204, 206, 304, 404 and 412,
    the requested byte range is validated against the size of the
    payload; the promise gets the error of the validation, or else state
    Value with the slice of the payload the validated range denotes, the
    generation of the response headers and the time the GET was issued
    at.  The bytes-read counter grows by the size of the whole payload,
    not of the slice. *)
Theorem ReadTask_whole_object (owner : S3KeyValueStore) (task : ReadTask.t)
    (r : HttpResponse) (env : BackoffEnv) (now : Time)
    (Hok : ok (HttpResponseCodeToStatus r) = true)
    (Hcode : status_code r <> 204 /\ status_code r <> 206
             /\ status_code r <> 304 /\ status_code r <> 404
             /\ status_code r <> 412) :
  let size := Z.of_nat (String.length (payload r)) in
  ReadTask.OnResponse owner task true (ROk r) env now
  = (task,
     [IncrementBy s3_bytes_read size;
      Observe s3_read_latency_ms
        (ToInt64Milliseconds (now - ReadTask.start_time_ task));
      SetResult
        match byte_range_Validate (byte_range (ReadTask.options task)) size
        with
        | RErr e => RErr e
        | ROk range =>
            match StorageGenerationFromHeaders (headers r) with
            | RErr e => RErr e
            | ROk g =>
                ROk (MkReadResult kValue (GetSubCord (payload r) range)
                       (MkStamp g (ReadTask.start_time_ task)))
            end
        end]).
Proof.
  destruct Hcode as [H204 [H206 [H304 [H404 H412]]]].
  apply Z.eqb_neq in H204, H206, H304, H404, H412.
  unfold ReadTask.OnResponse, ReadTask.ResponseStatus,
    ReadTask.FinishResponse.
  cbv zeta. cbn [negb]. rewrite H204, H206, H304, H404, H412. cbn [orb].
  rewrite Hok. cbn [orb negb andb app status_code payload headers].
  unfold bindR.
  destruct (byte_range_Validate (byte_range (ReadTask.options task))
              (Z.of_nat (String.length (payload r)))); [|reflexivity].
  destruct (StorageGenerationFromHeaders (headers r)); reflexivity.
Qed.

End PointProperties.

(** ** Credentials, opening and URLs *)


Lemma length_append (a b : string) :
  String.length (a ++ b) = (String.length a + String.length b)%nat.
Proof. induction a as [|c a IH]; cbn; [reflexivity | now rewrite IH]. Qed.

Lemma substring_whole (b : string) : substring 0 (String.length b) b = b.
Proof. induction b as [|c b IH]; cbn; [reflexivity | now rewrite IH]. Qed.

Lemma substring_after (a b : string) :
  substring (String.length a) (String.length b) (a ++ b) = b.
Proof.
  induction a as [|c a IH]; cbn; [apply substring_whole | exact IH].
Qed.

Lemma EndsWith_append (a suffix : string) :
  EndsWith (a ++ suffix) suffix = true.
Proof.
  unfold EndsWith. rewrite length_append.
  replace (String.length a + String.length suffix - String.length suffix)%nat
    with (String.length a) by lia.
  rewrite substring_after, String.eqb_refl, andb_true_r.
  apply Nat.leb_le. lia.
Qed.

Lemma RegionalEndpoint_is_aws (bucket region : string) :
  EndsWith (RegionalEndpoint bucket region) kDotAmazonAwsDotCom = true.
Proof.
  unfold RegionalEndpoint.
  rewrite !append_assoc. apply EndsWith_append.
Qed.

(** X14.  What an opened driver looks like.  With a configured endpoint,
    opening succeeds only for an http or https URL without query and
    fragment; the driver then uses that endpoint and the configured
    region, takes the configured host or else the authority of the URL up
    to its first slash, and no request is sent.  Without one, the endpoint
    is the regional virtual-host URL of the bucket, it ends in
    ".amazonaws.com", the host is set to that same URL, and the region is
    the configured one or, when none is configured, the one found in the
    answer to the one HEAD request that is then sent. *)
Theorem DoOpen_driver (ParseGenericUri : string -> Uri.t)
    (data : SpecData.t) (head : Result HttpResponse)
    (driver : S3KeyValueStore) (evs : list (Event unit))
    (Hopen : DoOpen ParseGenericUri data head = (ROk driver, evs)) :
  requester_pays driver = SpecData.requester_pays data
  /\ retries driver = SpecData.retries data
  /\ match SpecData.endpoint data with
     | Some endpoint =>
         let parsed := ParseGenericUri endpoint in
         evs = []
         /\ endpoint_ driver = endpoint
         /\ aws_region_ driver = SpecData.aws_region data
         /\ (Uri.scheme parsed = "http" \/ Uri.scheme parsed = "https")
         /\ Uri.query parsed = "" /\ Uri.fragment parsed = ""
         /\ host_ driver
            = match SpecData.host data with
              | Some h => h
              | None => before_slash (Uri.authority_and_path parsed)
              end
     | None =>
         endpoint_ driver
         = RegionalEndpoint (SpecData.bucket data) (aws_region_ driver)
         /\ host_ driver = endpoint_ driver
         /\ IsAwsEndpoint driver = true
         /\ (if (SpecData.aws_region data =? "")%string then
               exists response,
                 head = ROk response
                 /\ headers_find kAmzBucketRegionHeader (headers response)
                    = Some (aws_region_ driver)
                 /\ map method (requests_issued evs) = ["HEAD"]
             else
               aws_region_ driver = SpecData.aws_region data /\ evs = [])
     end.
Proof.
  unfold DoOpen in Hopen.
  destruct (SpecData.endpoint data) as [endpoint|].
  - destruct (Uri.scheme (ParseGenericUri endpoint) =? "http")%string eqn:Eh;
      destruct (Uri.scheme (ParseGenericUri endpoint) =? "https")%string
        eqn:Es; cbn [negb andb] in Hopen; try discriminate Hopen;
      (destruct (Uri.query (ParseGenericUri endpoint) =? "")%string eqn:Eq;
       cbn [negb] in Hopen; [|discriminate Hopen]);
      (destruct (Uri.fragment (ParseGenericUri endpoint) =? "")%string
         eqn:Ef; cbn [negb] in Hopen; [|discriminate Hopen]);
      inversion Hopen; subst; cbn;
      apply String.eqb_eq in Eq; apply String.eqb_eq in Ef;
      rewrite ?String.eqb_eq in *; repeat split; auto.
  - destruct (SpecData.aws_region data =? "")%string eqn:Er;
      cbn [negb] in Hopen.
    + destruct head as [response|s]; [|discriminate Hopen].
      destruct (headers_find kAmzBucketRegionHeader (headers response))
        as [region|] eqn:Eregion; [|discriminate Hopen].
      inversion Hopen; subst. unfold IsAwsEndpoint. cbn.
      repeat split; try reflexivity.
      * apply RegionalEndpoint_is_aws.
      * exists response. auto.
    + inversion Hopen; subst. unfold IsAwsEndpoint. cbn.
      repeat split; try reflexivity. apply RegionalEndpoint_is_aws.
Qed.

(** X15.  How opening fails.  With a configured endpoint the only failure
    is an invalid-argument error, raised before any request.  With a
    configured region and no endpoint, opening cannot fail.  With neither,
    it fails with the error of the HEAD request, or with a
    failed-precondition error when the answer names no region. *)
Theorem DoOpen_failure (ParseGenericUri : string -> Uri.t)
    (data : SpecData.t) (head : Result HttpResponse)
    (e : Status) (evs : list (Event unit))
    (Hopen : DoOpen ParseGenericUri data head = (RErr e, evs)) :
  match SpecData.endpoint data with
  | Some endpoint =>
      let parsed := ParseGenericUri endpoint in
      code e = kInvalidArgument /\ evs = []
      /\ ((Uri.scheme parsed <> "http" /\ Uri.scheme parsed <> "https")
          \/ Uri.query parsed <> "" \/ Uri.fragment parsed <> "")
  | None =>
      SpecData.aws_region data = ""
      /\ map method (requests_issued evs) = ["HEAD"]
      /\ (head = RErr e
          \/ exists response,
              head = ROk response
              /\ headers_find kAmzBucketRegionHeader (headers response)
                 = None
              /\ code e = kFailedPrecondition)
  end.
Proof.
  unfold DoOpen in Hopen.
  destruct (SpecData.endpoint data) as [endpoint|].
  - cbv zeta.
    destruct (Uri.scheme (ParseGenericUri endpoint) =? "http")%string eqn:Eh;
      destruct (Uri.scheme (ParseGenericUri endpoint) =? "https")%string
        eqn:Es; cbn [negb andb] in Hopen;
      try (inversion Hopen; subst; cbn;
           apply String.eqb_neq in Eh; apply String.eqb_neq in Es;
           now auto);
      (destruct (Uri.query (ParseGenericUri endpoint) =? "")%string eqn:Eq;
       cbn [negb] in Hopen;
       [|inversion Hopen; subst; cbn; apply String.eqb_neq in Eq;
         now auto]);
      (destruct (Uri.fragment (ParseGenericUri endpoint) =? "")%string
         eqn:Ef; cbn [negb] in Hopen;
       [discriminate Hopen
       |inversion Hopen; subst; cbn; apply String.eqb_neq in Ef;
         now auto]).
  - destruct (SpecData.aws_region data =? "")%string eqn:Er;
      cbn [negb] in Hopen; [|discriminate Hopen].
    apply String.eqb_eq in Er. split; [exact Er|].
    destruct head as [response|s].
    + destruct (headers_find kAmzBucketRegionHeader (headers response))
        as [region|] eqn:Eregion; [discriminate Hopen|].
      inversion Hopen; subst. split; [reflexivity|]. right.
      exists response. auto.
    + inversion Hopen; subst. split; [reflexivity|]. now left.
Qed.

Lemma index_slash_append (b rest : string) :
  index 0 "/" b = None ->
  index 0 "/" (b ++ String "/" rest) = Some (String.length b).
Proof.
  induction b as [|c b IH]; intros Hnone.
  - cbn [index append].
    destruct (prefix "/" (String "/" rest)) eqn:Ep; [reflexivity|].
    cbn [prefix] in Ep.
    destruct (ascii_dec "/" "/") as [_|Hne]; [|now elim Hne].
    destruct rest; discriminate Ep.
  - cbn [index append] in *.
    destruct (prefix "/" (String c b)) eqn:Ep; [discriminate Hnone|].
    assert (Ep' : prefix "/" (String c (b ++ String "/" rest)) = false).
    { cbn [prefix] in *. destruct (ascii_dec "/" c); [|reflexivity].
      destruct b; discriminate Ep. }
    rewrite Ep'.
    destruct (index 0 "/" b) as [n|]; [discriminate Hnone|].
    rewrite (IH eq_refl). reflexivity.
Qed.

Lemma substring_before (a b : string) :
  substring 0 (String.length a) (a ++ b) = a.
Proof.
  induction a as [|c a IH]; cbn.
  - destruct b; reflexivity.
  - now rewrite IH.
Qed.

(** X16.  A URL made by [GetS3Url] is taken apart again by [ParseS3Url]:
    for a valid bucket name (which has no slash) and an encoder that the
    percent decoder undoes, the spec parsed from the URL of
    [(bucket, path)] names that bucket, with the default profile and
    without requester-pays, endpoint, host or region, and the path is
    [path].  The URI parser is expected to return the scheme, then the
    text up to the query, for a URL that has neither query nor
    fragment. *)
Theorem ParseS3Url_of_GetS3Url (ParseGenericUri : string -> Uri.t)
    (IsValidBucketName : string -> bool)
    (S3UriEncode PercentDecode QuoteString : string -> string)
    (default_retries : Retries) (bucket path : string)
    (Hparse : ParseGenericUri (GetS3Url S3UriEncode bucket path)
              = Uri.Mk kUriScheme (bucket ++ "/" ++ S3UriEncode path) "" "")
    (Hbucket : IsValidBucketName bucket = true)
    (Hslash : index 0 "/" bucket = None)
    (Hdecode : PercentDecode (S3UriEncode path) = path) :
  ParseS3Url ParseGenericUri IsValidBucketName PercentDecode QuoteString
    default_retries (GetS3Url S3UriEncode bucket path)
  = ROk (SpecData.Mk bucket false None None "default" "" default_retries,
         path).
Proof.
  unfold ParseS3Url. rewrite Hparse. cbn [Uri.query Uri.fragment
    Uri.authority_and_path String.eqb negb].
  assert (Hbefore : before_slash (bucket ++ "/" ++ S3UriEncode path) = bucket).
  { unfold before_slash. cbn [append].
    rewrite (index_slash_append _ _ Hslash). apply substring_before. }
  assert (Hafter : after_slash (bucket ++ "/" ++ S3UriEncode path)
                   = S3UriEncode path).
  { unfold after_slash. cbn [append].
    rewrite (index_slash_append _ _ Hslash), length_append.
    cbn [String.length].
    replace (String.length bucket + S (String.length (S3UriEncode path))
             - S (String.length bucket))%nat
      with (String.length (S3UriEncode path)) by lia.
    change (String "/" (S3UriEncode path))
      with ("/" ++ S3UriEncode path)%string.
    rewrite append_assoc.
    replace (S (String.length bucket))
      with (String.length (bucket ++ "/")%string)
      by (rewrite length_append; cbn; lia).
    apply substring_after. }
  rewrite Hbefore, Hafter, Hbucket, Hdecode. reflexivity.
Qed.

(** ** The further properties at sample inputs *)

(** X1 at the first page of the sample listing. *)
Lemma ListTask_callback_shape_witness :
  exists keys tail,
    snd (ListTask.OnResponse Example.owner Scenario.started_list_task
           (ROk Example.list_page1) Example.list_env)
    = map set_value keys ++ tail
    /\ ListTail tail.
Proof.
  exact (ListTask_callback_shape (ext := SpecModel.externals) Example.owner
           Scenario.started_list_task (ROk Example.list_page1)
           Example.list_env I).
Defined.

(** X2 at the first sample page, answered to the task of [Example] after
    its first request: the page names "ab1" and "ab6", both pass the range
    test of the task, and "1" and "6" are pushed. *)
Lemma ListTask_pushed_keys_pass_range_witness :
  PageKeys (payload Example.list_page1) = ["ab1"; "ab6"]
  /\ keys_pushed
       (snd (ListTask.OnResponse Example.owner Scenario.started_list_task
               (ROk Example.list_page1) Example.list_env))
     = map (StripPrefix (ListTask.options_ Scenario.started_list_task))
         (filter (PassesRange (ListTask.options_ Scenario.started_list_task))
            (PageKeys (payload Example.list_page1)))
  /\ keys_pushed
       (snd (ListTask.OnResponse Example.owner Scenario.started_list_task
               (ROk Example.list_page1) Example.list_env))
     = ["1"; "6"].
Proof.
  pose proof (ListTask_pushed_keys_pass_range (ext := SpecModel.externals)
                Example.owner Scenario.started_list_task
                (ROk Example.list_page1) Example.list_env I) as W.
  cbv zeta in W. destruct W as [_ W].
  specialize (W Example.list_page1 eq_refl (fun _ => eq_refl)
                (or_introl eq_refl)).
  split; [vm_compute; reflexivity|]. split; [exact W|].
  rewrite W. vm_compute. reflexivity.
Defined.

(** X3 at the two sample pages, listed without stripping: of "ab1", "ab6"
    and "ab2" only "ab6" is pushed. *)
Lemma List_without_stripping_witness :
  keys_pushed
    (S3KeyValueStore_List Example.owner Scenario.plain_options
       Example.list_env Scenario.pages)
  = ["ab6"]
  /\ Forall (fun key => Contains Example.list_range key = true)
       (keys_pushed
          (S3KeyValueStore_List Example.owner Scenario.plain_options
             Example.list_env Scenario.pages)).
Proof.
  split; [vm_compute; reflexivity|].
  apply (List_without_stripping_stays_in_range (ext := SpecModel.externals)
           Example.owner Scenario.plain_options Example.list_env
           Scenario.pages eq_refl).
  repeat constructor.
Defined.

(** X4 at the two sample pages. *)
Lemma List_receiver_protocol_witness :
  exists keys closing,
    receiver_calls
      (S3KeyValueStore_List Example.owner Example.list_options
         Example.list_env Scenario.pages)
    = set_starting :: map set_value keys ++ closing
    /\ (closing = [] \/ closing = [set_done; set_stopping]
        \/ exists e, closing = [set_error e; set_stopping]).
Proof.
  apply (List_receiver_protocol (ext := SpecModel.externals) Example.owner
           Example.list_options Example.list_env Scenario.pages).
  repeat constructor.
Defined.

(** X5 at the first sample page, cancelled before its second block. *)
Lemma ListTask_cancel_inside_page_witness :
  let out :=
    ListTask.OnResponse Example.owner Scenario.started_list_task
      (ROk Example.list_page1) Scenario.cancelling_env in
  (List.length (keys_pushed (snd out)) <= 1)%nat
  /\ requests_issued (snd out) = [].
Proof.
  pose proof (ListTask_cancel_inside_page (ext := SpecModel.externals)
                Example.owner Scenario.started_list_task Example.list_page1
                Scenario.cancelling_env 66 (MkTag "2" 126) 2 1
                eq_refl eq_refl
                ltac:(vm_compute; reflexivity) ltac:(vm_compute; reflexivity)
                eq_refl ltac:(cbn; lia) eq_refl) as W.
  cbv zeta in W. destruct W as [_ [Hlen [Hreq _]]].
  cbv zeta. split; assumption.
Defined.

(** X7 at a conditional write and an unconditional delete. *)
Lemma Mutation_first_request_witness :
  map method
    (requests_issued
       (snd (WriteTask.Retry Example.owner
               (Example.write_task (StorageGeneration.FromString "abc"))
               true (ROk None) 1000)))
  = ["HEAD"]
  /\ map method
       (requests_issued
          (snd (DeleteTask.Retry Example.owner
                  (Example.delete_task StorageGeneration.Unknown)
                  true (ROk None) 1000)))
     = ["DELETE"].
Proof.
  pose proof (Mutation_first_request (ext := SpecModel.externals)
                Example.owner
                (Example.write_task (StorageGeneration.FromString "abc"))
                (Example.delete_task StorageGeneration.Unknown)
                None 1000 eq_refl) as W.
  cbv zeta in W. destruct W as [[Hw _] [Hd _]].
  rewrite Hw, Hd. split; reflexivity.
Defined.

(** X8 at a 503 answer. *)
Lemma Callbacks_hand_on_once_witness :
  handoffs
    (snd (ReadTask.OnResponse Example.owner Example.read_task true
            (ROk (Example.response 503)) Example.backoff_env 2000))
  = 1%nat.
Proof.
  exact (proj1 (proj2 (proj1 (Callbacks_hand_on_once
                                (ext := SpecModel.externals) Example.owner
                                (ROk (Example.response 503))
                                Example.backoff_env (ROk None) 2000 3000 I)
                         Example.read_task))).
Defined.

(** X9 at two 503 answers followed by a 204. *)
Lemma ReadTask_retry_accounting_witness :
  let out :=
    ReadTask_Run Example.owner Example.read_task
      [Scenario.failing_attempt 1000; Scenario.failing_attempt 3000;
       Scenario.last_attempt 7000] in
  List.length (requests_issued (snd out)) = 3%nat
  /\ counter_delta s3_retries (snd out) = 2
  /\ observations s3_read_latency_ms (snd out) = 1%nat.
Proof.
  pose proof (ReadTask_retry_accounting (ext := SpecModel.externals)
                Example.owner
                [Scenario.failing_attempt 1000; Scenario.failing_attempt 3000]
                ltac:(repeat constructor) Example.read_task
                (Scenario.last_attempt 7000) (Example.response 204)
                eq_refl eq_refl eq_refl ltac:(cbn; lia)) as W.
  cbv zeta in W. destruct W as [_ [Hreq [Hcount [_ [Hobs _]]]]].
  cbv zeta. repeat split; assumption.
Defined.

(** X10 at a driver that retries twice and three 503 answers. *)
Lemma ReadTask_retry_exhaustion_witness :
  let out :=
    ReadTask_Run Scenario.impatient_owner Example.read_task
      [Scenario.failing_attempt 1000; Scenario.failing_attempt 3000;
       Scenario.failing_attempt 7000; Scenario.failing_attempt 9000] in
  List.length (requests_issued (snd out)) = 3%nat
  /\ exists e, results_set (snd out) = [RErr e] /\ code e = kAborted.
Proof.
  pose proof (ReadTask_retry_exhaustion (ext := SpecModel.externals)
                Scenario.impatient_owner 2 Example.read_task
                [Scenario.failing_attempt 1000; Scenario.failing_attempt 3000;
                 Scenario.failing_attempt 7000; Scenario.failing_attempt 9000]
                ltac:(repeat constructor) ltac:(cbn; lia) eq_refl) as W.
  cbv zeta in W. destruct W as [Hreq [_ [_ [_ Hres]]]].
  cbv zeta. split; assumption.
Defined.

(** X11 at a delete that finds credentials first and none later. *)
Lemma Credentials_across_attempts_witness :
  map req_credentials
    (requests_issued
       (snd (DeleteTask.Retry Example.owner
               (fst (DeleteTask.Retry Example.owner
                       (Example.delete_task StorageGeneration.Unknown) true
                       (ROk (Some Scenario.some_credentials)) 1000))
               true (ROk None) 2000)))
  = [Scenario.some_credentials].
Proof.
  exact (proj1 (proj2 (Credentials_across_attempts
                         (ext := SpecModel.externals) Example.owner
                         Scenario.some_credentials 1000 2000))
           (Example.delete_task StorageGeneration.Unknown) eq_refl).
Defined.



(** X14 at a spec with a region and one with an endpoint of its own. *)
Lemma DoOpen_driver_witness :
  (exists driver,
      DoOpen Scenario.ParseGenericUri Scenario.regional
        (RErr (MkStatus kUnavailable "not asked"))
      = (ROk driver, [])
      /\ IsAwsEndpoint driver = true
      /\ host_ driver = "https://bucket.s3.us-east-1.amazonaws.com")
  /\ exists driver,
      DoOpen Scenario.ParseGenericUri Scenario.minio
        (RErr (MkStatus kUnavailable "not asked"))
      = (ROk driver, [])
      /\ host_ driver = "localhost:9000".
Proof.
  split.
  - eexists. split; [vm_compute; reflexivity|].
    match goal with
    | |- IsAwsEndpoint ?d = true /\ _ =>
        pose proof (DoOpen_driver Scenario.ParseGenericUri Scenario.regional
                      (RErr (MkStatus kUnavailable "not asked")) d []
                      ltac:(vm_compute; reflexivity)) as W
    end.
    destruct W as [_ [_ [_ [Hhost [Haws _]]]]].
    split; [exact Haws | vm_compute; reflexivity].
  - eexists. split; [vm_compute; reflexivity|].
    match goal with
    | |- host_ ?d = _ =>
        pose proof (DoOpen_driver Scenario.ParseGenericUri Scenario.minio
                      (RErr (MkStatus kUnavailable "not asked")) d []
                      ltac:(vm_compute; reflexivity)) as W
    end.
    destruct W as [_ [_ [_ [_ [_ [_ [_ [_ Hhost]]]]]]]].
    rewrite Hhost. vm_compute. reflexivity.
Defined.

(** X15 at a spec with neither endpoint nor region, for a bucket whose
    HEAD answer names no region. *)
Lemma DoOpen_failure_witness :
  exists e evs,
    DoOpen Scenario.ParseGenericUri Scenario.undiscovered
      (ROk (Example.response 404))
    = (RErr e, evs)
    /\ code e = kFailedPrecondition
    /\ map method (requests_issued evs) = ["HEAD"].
Proof.
  eexists _, _. split; [vm_compute; reflexivity|].
  match goal with
  | |- code ?e = _ /\ map method (requests_issued ?evs) = _ =>
      pose proof (DoOpen_failure Scenario.ParseGenericUri
                    Scenario.undiscovered (ROk (Example.response 404)) e evs
                    ltac:(vm_compute; reflexivity)) as W
  end.
  cbn [SpecData.endpoint Scenario.undiscovered] in W.
  destruct W as [_ [Hhead [Hcase | [response [_ [_ Hcode]]]]]].
  - discriminate Hcase.
  - split; [exact Hcode | exact Hhead].
Defined.

(** X16 at a key with a space below the bucket "my-bucket". *)
Lemma ParseS3Url_of_GetS3Url_witness :
  GetS3Url SpecModel.S3UriObjectKeyEncode "my-bucket" "dir/a key"
  = "s3://my-bucket/dir/a%20key"
  /\ ParseS3Url Scenario.ParseGenericUri Scenario.IsValidBucketName
       Scenario.PercentDecode Scenario.QuoteString Scenario.default_retries
       "s3://my-bucket/dir/a%20key"
     = ROk (SpecData.Mk "my-bucket" false None None "default" ""
              Scenario.default_retries, "dir/a key").
Proof.
  split; [vm_compute; reflexivity|].
  exact (ParseS3Url_of_GetS3Url Scenario.ParseGenericUri
           Scenario.IsValidBucketName SpecModel.S3UriObjectKeyEncode
           Scenario.PercentDecode Scenario.QuoteString
           Scenario.default_retries "my-bucket" "dir/a key"
           ltac:(vm_compute; reflexivity) ltac:(vm_compute; reflexivity)
           ltac:(vm_compute; reflexivity) ltac:(vm_compute; reflexivity)).
Defined.

(** X17 at the first sample page reached after two retries. *)
Lemma ListTask_next_page_resets_attempts_witness :
  ListTask.attempt_
    (fst (ListTask.OnResponse Example.owner
            (ListTask.Mk (ListTask.options_ Scenario.started_list_task)
               "https://bucket.s3.us-east-1.amazonaws.com/" "" 1000 2)
            (ROk Example.list_page1) Example.list_env))
  = 0.
Proof.
  apply (ListTask_next_page_resets_attempts (ext := SpecModel.externals)
           Example.owner _ (ROk Example.list_page1) Example.list_env I).
  vm_compute. discriminate.
Defined.

(** X18 at an unconditional write answered 200 with an ETag. *)
Lemma WriteTask_completion_witness :
  results_set
    (snd (WriteTask.OnResponse Example.owner
            (Example.write_task StorageGeneration.Unknown) true
            (ROk (MkResponse 200 "" [("etag", "abc")]))
            Example.backoff_env 2000))
  = [ROk (MkStamp (StorageGeneration.FromString "abc") 0)].
Proof.
  rewrite (WriteTask_completion (ext := SpecModel.externals) Example.owner
             (Example.write_task StorageGeneration.Unknown)
             (MkResponse 200 "" [("etag", "abc")]) Example.backoff_env 2000
             eq_refl (or_intror eq_refl)).
  reflexivity.
Defined.

(** X19 at a request for bytes 100 to 199 answered 200 with a payload of
    100 bytes, which the range does not fit. *)
Lemma ReadTask_whole_object_witness :
  exists e,
    results_set
      (snd (ReadTask.OnResponse Example.owner Example.read_task true
              (ROk (MkResponse 200 Example.hundred_bytes [("etag", "abc")]))
              Example.backoff_env 2000))
    = [RErr e]
    /\ code e = kOutOfRange.
Proof.
  rewrite (ReadTask_whole_object (ext := SpecModel.externals) Example.owner
             Example.read_task
             (MkResponse 200 Example.hundred_bytes [("etag", "abc")])
             Example.backoff_env 2000 eq_refl
             ltac:(cbn; repeat split; discriminate)).
  eexists. split; vm_compute; reflexivity.
Defined.

(** X20 at the two sample pages: of "ab1", "ab6" and "ab2" only "ab6" is
    handed to [Delete]. *)
Lemma DeleteRange_stays_in_range_witness :
  fst (S3KeyValueStore_DeleteRange Example.owner Example.list_range
         Example.list_env Scenario.pages)
  = ["ab6"]
  /\ Forall (fun key => Contains Example.list_range key = true /\ key <> "")
       (fst (S3KeyValueStore_DeleteRange Example.owner Example.list_range
               Example.list_env Scenario.pages)).
Proof.
  split; [vm_compute; reflexivity|].
  apply (DeleteRange_stays_in_range (ext := SpecModel.externals)
           Example.owner Example.list_range Example.list_env Scenario.pages).
  repeat constructor.
Defined.
